(** * KuCoin fair-price trading bot: signal parser, risk sizing, admission
      pipeline and position ledger

    A shallow embedding of the signal-to-position pipeline of the bot
    (src/services/telegram.service.js, src/services/risk.service.js,
    src/services/position.service.js and the orchestrator bundled with
    src/config/settings.js), followed by the properties of the specification
    that were checked against it.

    Conventions of the embedding:
    - a JavaScript string is the list of its UTF-16 code units, which is what
      [String.prototype.match], [includes] and [===] observe;
    - where numbers are read, compared and stored (the parser, the admission
      pipeline, the ledger) a finite number is named by its exact value
      ([Num q], with [q] a rational), and [NaN] is a separate value;
    - where numbers are multiplied and divided (the risk sizing) they are
      IEEE 754 binary64 values and every operation rounds as JavaScript
      does ([Float64], on the specification of floating-point numbers of
      the standard library); [Float64.of_value] and [Float64.to_value] go
      from one reading to the other;
    - [logger] calls are kept as an explicit list of log lines;
    - [Date.now()] and the replies of the venue are inputs of the functions
      that read them;
    - an [async] function is first modelled as it runs when nothing else
      runs between its [await]s ([Bot]), then with its [await]s as points
      where another handler can run ([Concurrent]). *)

From Stdlib Require Import ZArith NArith QArith Qround Qminmax Qabs Lia Lqa Bool
  List String Ascii.
From Stdlib Require SpecFloat.
From stdpp Require Import base option list gmap.
Import ListNotations.

Set Default Proof Using "Type".

(* ===================================================================== *)
(** ** JavaScript strings as UTF-16 code units *)
(* ===================================================================== *)

Module JsStr.

(** One UTF-16 code unit. *)
Definition unit16 := N.

Definition JsString := list unit16.

(** The bytes of a Rocq string literal (the file is UTF-8). *)
Fixpoint bytes_of (s : string) : list N :=
  match s with
  | EmptyString => []
  | String a s' => N_of_ascii a :: bytes_of s'
  end.

(** Payload of a UTF-8 continuation byte. *)
Definition cont (b : N) : N := N.land b 63.

(** UTF-8 decoding into code points; a truncated sequence is dropped. *)
Fixpoint utf8_points (l : list N) : list N :=
  match l with
  | [] => []
  | b0 :: l1 =>
      if (b0 <? 128)%N then b0 :: utf8_points l1
      else match l1 with
      | [] => []
      | b1 :: l2 =>
          if (b0 <? 224)%N
          then (N.land b0 31 * 64 + cont b1)%N :: utf8_points l2
          else match l2 with
          | [] => []
          | b2 :: l3 =>
              if (b0 <? 240)%N
              then (N.land b0 15 * 4096 + cont b1 * 64 + cont b2)%N
                     :: utf8_points l3
              else match l3 with
              | [] => []
              | b3 :: l4 =>
                  (N.land b0 7 * 262144 + cont b1 * 4096
                   + cont b2 * 64 + cont b3)%N :: utf8_points l4
              end
          end
      end
  end.

(** UTF-16 encoding of one code point: astral code points become a
    surrogate pair. *)
Definition utf16_of_point (cp : N) : JsString :=
  if (cp <? 65536)%N then [cp]
  else let v := (cp - 65536)%N in
       [(55296 + N.shiftr v 10)%N; (56320 + N.land v 1023)%N].

(** The JavaScript string denoted by a literal of the source. *)
Definition js (s : string) : JsString :=
  concat (map utf16_of_point (utf8_points (bytes_of s))).

(** [a === b] on strings. *)
Definition str_eqb (a b : JsString) : bool := bool_decide (a = b).

(** [s.startsWith(p)], used by [includes] and by the matcher. *)
Fixpoint starts_with (p s : JsString) : bool :=
  match p, s with
  | [], _ => true
  | _ :: _, [] => false
  | c :: p', x :: s' => (c =? x)%N && starts_with p' s'
  end.

(** [s.includes(p)]. *)
Fixpoint includes (p s : JsString) : bool :=
  starts_with p s ||
  match s with
  | [] => false
  | _ :: s' => includes p s'
  end.

End JsStr.
Export JsStr.

(* ===================================================================== *)
(** ** The regular expressions of the parser *)
(* ===================================================================== *)

(** The patterns of telegram.service.js use literals, character classes,
    greedy [\s*] and one capturing group of the shape [([class]+)].  None
    carries the [u] flag, so pattern and subject are both read code unit by
    code unit. *)

Module Regex.

Inductive atom :=
| Lit (c : unit16)               (* a pattern character *)
| Cls (p : unit16 -> bool)       (* one character of a class *)
| Star (p : unit16 -> bool)      (* class*, greedy *)
| GroupPlus (p : unit16 -> bool) (* (class+), greedy, capture group 1 *).

Record regex := { atoms : list atom; ignoreCase : bool }.

(** The array returned by [match]: index 0 is the matched text, index 1 the
    capture group when the pattern has one. *)
Record MatchResult := { m0 : JsString; m1 : option JsString }.

(** Canonicalize of the ECMAScript specification for a pattern with the
    [i] flag and without the [u] flag: the upper-case form of a single code
    unit, except that a non-ASCII unit never canonicalises into ASCII.  The
    table covers the ASCII and the Cyrillic letters, which are the letters
    of the patterns (the units 1C80..1C86 are the historic Cyrillic letters
    whose upper-case form is a basic capital); every other unit is left as
    it is, and none of them canonicalises to a letter of the patterns. *)
Definition canonicalize (c : unit16) : unit16 :=
  if (97 <=? c)%N && (c <=? 122)%N then (c - 32)%N
  else if (1072 <=? c)%N && (c <=? 1103)%N then (c - 32)%N
  else if (1104 <=? c)%N && (c <=? 1119)%N then (c - 80)%N
  else if (c =? 7296)%N then 1042%N
  else if (c =? 7297)%N then 1044%N
  else if (c =? 7298)%N then 1054%N
  else if (c =? 7299)%N then 1057%N
  else if (c =? 7300)%N || (c =? 7301)%N then 1058%N
  else if (c =? 7302)%N then 1066%N
  else c.

Definition unit_matches (ic : bool) (c x : unit16) : bool :=
  if ic then (canonicalize c =? canonicalize x)%N else (c =? x)%N.

Definition push (x : unit16) (r : MatchResult) : MatchResult :=
  {| m0 := x :: m0 r; m1 := m1 r |}.

Definition capture (acc : JsString) (r : MatchResult) : MatchResult :=
  {| m0 := acc ++ m0 r; m1 := Some acc |}.

(** Greedy [class*] followed by the rest of the pattern [k]: the longest
    run first, then shorter ones. *)
Fixpoint star_loop (p : unit16 -> bool) (k : JsString -> option MatchResult)
    (s : JsString) : option MatchResult :=
  match s with
  | x :: s' =>
      if p x then
        match star_loop p k s' with
        | Some r => Some (push x r)
        | None => k s
        end
      else k s
  | [] => k []
  end.

(** Greedy [(class+)] once [acc] has been taken into the group. *)
Fixpoint plus_loop (p : unit16 -> bool) (k : JsString -> option MatchResult)
    (acc s : JsString) : option MatchResult :=
  match s with
  | x :: s' =>
      if p x then
        match plus_loop p k (acc ++ [x]) s' with
        | Some r => Some r
        | None => capture acc <$> k s
        end
      else capture acc <$> k s
  | [] => capture acc <$> k []
  end.

(** Backtracking match of the atoms at the start of the subject. *)
Fixpoint match_atoms (ic : bool) (pat : list atom) : JsString -> option MatchResult :=
  match pat with
  | [] => fun _ => Some {| m0 := []; m1 := None |}
  | Lit c :: pat' => fun s =>
      match s with
      | x :: s' =>
          if unit_matches ic c x then push x <$> match_atoms ic pat' s' else None
      | [] => None
      end
  | Cls p :: pat' => fun s =>
      match s with
      | x :: s' => if p x then push x <$> match_atoms ic pat' s' else None
      | [] => None
      end
  | Star p :: pat' => star_loop p (match_atoms ic pat')
  | GroupPlus p :: pat' => fun s =>
      match s with
      | x :: s' => if p x then plus_loop p (match_atoms ic pat') [x] s' else None
      | [] => None
      end
  end.

(** [text.match(re)] for a pattern without the [g] flag: the leftmost
    position at which the pattern matches. *)
Fixpoint jsmatch_atoms (ic : bool) (pat : list atom) (s : JsString)
  : option MatchResult :=
  match match_atoms ic pat s with
  | Some r => Some r
  | None =>
      match s with
      | [] => None
      | _ :: s' => jsmatch_atoms ic pat s'
      end
  end.

Definition jsmatch (re : regex) (text : JsString) : option MatchResult :=
  jsmatch_atoms (ignoreCase re) (atoms re) text.

(** Character classes. *)
Definition digit (c : unit16) : bool := (48 <=? c)%N && (c <=? 57)%N.

Definition digit_or_dot (c : unit16) : bool := digit c || (c =? 46)%N.

Definition upper_alnum (c : unit16) : bool :=
  ((65 <=? c)%N && (c <=? 90)%N) || digit c.

(** [\s]: WhiteSpace and LineTerminator of ECMAScript. *)
Definition white (c : unit16) : bool :=
  ((9 <=? c)%N && (c <=? 13)%N) || (c =? 32)%N || (c =? 160)%N
  || (c =? 5760)%N || ((8192 <=? c)%N && (c <=? 8202)%N)
  || (c =? 8232)%N || (c =? 8233)%N || (c =? 8239)%N || (c =? 8287)%N
  || (c =? 12288)%N || (c =? 65279)%N.

Definition not_newline (c : unit16) : bool := negb (c =? 10)%N.

Definition lits (s : JsString) : list atom := map Lit s.

(** What a pattern matches, declaratively: [matches ic pat m cap] when the
    atoms [pat] match exactly the text [m], with capture [cap]. *)
Inductive matches (ic : bool) : list atom -> JsString -> option JsString -> Prop :=
| matches_nil : matches ic [] [] None
| matches_lit c pat x m cap :
    unit_matches ic c x = true -> matches ic pat m cap ->
    matches ic (Lit c :: pat) (x :: m) cap
| matches_cls p pat x m cap :
    p x = true -> matches ic pat m cap ->
    matches ic (Cls p :: pat) (x :: m) cap
| matches_star p pat run m cap :
    forallb p run = true -> matches ic pat m cap ->
    matches ic (Star p :: pat) (run ++ m) cap
| matches_group p pat run m cap :
    run <> [] -> forallb p run = true -> matches ic pat m cap ->
    matches ic (GroupPlus p :: pat) (run ++ m) (Some run).

End Regex.
Export Regex.

(* ===================================================================== *)
(** ** JavaScript numbers and nullable values *)
(* ===================================================================== *)

Module JsNum.

(** The values a numeric field can hold.  [Num q] is a finite number. *)
Inductive value :=
| Undefined
| Null
| NaN
| Num (q : Q).

(** ToBoolean: what [!x] and [x || d] test. *)
Definition truthy (v : value) : bool :=
  match v with
  | Num q => negb (Qeq_bool q 0)
  | _ => false
  end.

(** [v || d] where the default [d] is a number. *)
Definition or_default (v : value) (d : Q) : Q :=
  match v with
  | Num q => if Qeq_bool q 0 then d else q
  | _ => d
  end.

(** ToNumber; [None] stands for NaN. *)
Definition toNumber (v : value) : option Q :=
  match v with
  | Undefined | NaN => None
  | Null => Some 0%Q
  | Num q => Some q
  end.

Definition Qltb (x y : Q) : bool := negb (Qle_bool y x).

(** The relational operators: a comparison with NaN is false. *)
Definition js_lt (a b : value) : bool :=
  match toNumber a, toNumber b with
  | Some x, Some y => Qltb x y
  | _, _ => false
  end.

Definition js_le (a b : value) : bool :=
  match toNumber a, toNumber b with
  | Some x, Some y => Qle_bool x y
  | _, _ => false
  end.

Definition js_gt (a b : value) : bool := js_lt b a.
Definition js_ge (a b : value) : bool := js_le b a.

(** Value of a run of decimal digits. *)
Definition digits_value (ds : JsString) : N :=
  fold_left (fun a d => (10 * a + (d - 48))%N) ds 0%N.

(** The longest prefix of [s] made of characters of the class [p], and
    the rest. *)
Fixpoint span (p : unit16 -> bool) (s : JsString) : JsString * JsString :=
  match s with
  | x :: s' =>
      if p x then let '(a, b) := span p s' in (x :: a, b) else ([], s)
  | [] => ([], [])
  end.

(** [parseFloat] on the unsigned decimal notation that a capture group
    [([\d.]+)] can hold: the longest prefix [digits], [digits.digits],
    [digits.] or [.digits]; NaN when that prefix has no digit.  The result is
    the exact decimal value. *)
Definition parseFloat (s : JsString) : value :=
  let '(ip, r) := span digit s in
  let fp := match r with
            | 46%N :: r' => fst (span digit r')
            | _ => []
            end in
  match ip, fp with
  | [], [] => NaN
  | _, _ =>
      Num (inject_Z (Z.of_N (digits_value ip))
           + inject_Z (Z.of_N (digits_value fp))
             / inject_Z (10 ^ Z.of_nat (length fp)))
  end.

(** The value is the number zero. *)
Definition is_zero (v : value) : Prop :=
  match v with
  | Num q => (q == 0)%Q
  | _ => False
  end.

(** [Math.floor] of a finite number, on its exact value. *)
Definition floor (x : Q) : Q := inject_Z (Qfloor x).

(** [Math.floor] on a value. *)
Definition js_floor (v : value) : value :=
  match toNumber v with
  | Some q => Num (floor q)
  | None => NaN
  end.

End JsNum.
Export JsNum.

(* ===================================================================== *)
(** ** JavaScript numbers in arithmetic: IEEE 754 binary64 *)
(* ===================================================================== *)

Module Float64.

(** A number of JavaScript: an IEEE 754 binary64 value, as the standard
    library specifies it (53 bits of precision, infinities at exponent
    1024, round to nearest, ties to even). *)
Definition double : Type := SpecFloat.spec_float.

Definition prec : Z := 53.
Definition emax : Z := 1024.

Definition nan : double := SpecFloat.S754_nan.
Definition zero : double := SpecFloat.S754_zero false.

(** [x * y] and [x / y] *)
Definition mul (x y : double) : double := SpecFloat.SFmul prec emax x y.
Definition div (x y : double) : double := SpecFloat.SFdiv prec emax x y.

(** [x < y], [x <= y], [x > y] and [x >= y]; all are false when one side
    is NaN. *)
Definition ltb (x y : double) : bool := SpecFloat.SFltb x y.
Definition leb (x y : double) : bool := SpecFloat.SFleb x y.
Definition gtb (x y : double) : bool := ltb y x.
Definition geb (x y : double) : bool := leb y x.

(** The number of an integer (rounded, beyond 2^53). *)
Definition of_Z (z : Z) : double :=
  SpecFloat.binary_normalize prec emax z 0 false.

(** An integer as an unrounded operand of the division below. *)
Definition exact (z : Z) : double :=
  match z with
  | Z0 => SpecFloat.S754_zero false
  | Zpos m => SpecFloat.S754_finite false m 0
  | Zneg m => SpecFloat.S754_finite true m 0
  end.

(** The number nearest to the fraction [n / d]: how a decimal numeral is
    read. *)
Definition ratio (n : Z) (d : positive) : double :=
  div (exact n) (exact (Zpos d)).

(** The number nearest to a rational. *)
Definition of_Q (q : Q) : double := ratio (Qnum q) (Qden q).

Definition is_nan (x : double) : bool :=
  match x with
  | SpecFloat.S754_nan => true
  | _ => false
  end.

(** [isFinite(x)] *)
Definition is_finite (x : double) : bool :=
  match x with
  | SpecFloat.S754_zero _ | SpecFloat.S754_finite _ _ _ => true
  | _ => false
  end.

Definition is_zero (x : double) : bool :=
  match x with
  | SpecFloat.S754_zero _ => true
  | _ => false
  end.

(** ToBoolean of a number: false for NaN and the two zeros. *)
Definition truthy (x : double) : bool := negb (is_nan x || is_zero x).

(** [Math.floor(x)]: a number with a negative exponent [-k] has the value
    [m / 2^k]; when [2^k] does not divide [m], the integer below it has
    fewer than 53 bits and is a number. *)
Definition floor (x : double) : double :=
  match x with
  | SpecFloat.S754_finite s m (Zneg k) =>
      let q := Z.shiftr (Zpos m) (Zpos k) in
      if (Z.shiftl q (Zpos k) =? Zpos m)%Z then x
      else of_Z (if s then - (q + 1) else q)
  | _ => x
  end.

(** [Math.max(x, y)] and [Math.min(x, y)]: NaN when one side is NaN, and
    the zero of positive sign above the zero of negative sign. *)
Definition max (x y : double) : double :=
  match SpecFloat.SFcompare x y with
  | None => nan
  | Some Lt => y
  | Some Gt => x
  | Some Eq =>
      match x with
      | SpecFloat.S754_zero true => y
      | _ => x
      end
  end.

Definition min (x y : double) : double :=
  match SpecFloat.SFcompare x y with
  | None => nan
  | Some Lt => x
  | Some Gt => y
  | Some Eq =>
      match x with
      | SpecFloat.S754_zero false => y
      | _ => x
      end
  end.

(** A number whose mantissa ends in as many zero bits as its exponent is
    negative: its value is an integer.  (Zeros, NaN and the infinities
    count as aligned.) *)
Definition aligned (x : double) : Prop :=
  match x with
  | SpecFloat.S754_finite _ m (Zneg k) =>
      Z.shiftl (Z.shiftr (Zpos m) (Zpos k)) (Zpos k) = Zpos m
  | _ => True
  end.

(** The value of a finite number, exactly and in lowest terms. *)
Definition to_Q (x : double) : option Q :=
  match x with
  | SpecFloat.S754_zero _ => Some 0%Q
  | SpecFloat.S754_finite s m e =>
      let n := if s then Zneg m else Zpos m in
      Some (Qred (match e with
                  | Zneg k => Qmake n (Pos.shiftl 1 (Npos k))
                  | _ => inject_Z (Z.shiftl n e)
                  end))
  | _ => None
  end.

(** A value that is read as a number: a number, or the [undefined] or
    [null] of a field that is not set. *)
Inductive scalar :=
| Undef
| Nul
| Number (x : double).

(** ToNumber *)
Definition to_number (v : scalar) : double :=
  match v with
  | Undef => nan
  | Nul => zero
  | Number x => x
  end.

(** [v || d] where the default [d] is a number. *)
Definition or_else (v : scalar) (d : double) : double :=
  match v with
  | Number x => if truthy x then x else d
  | _ => d
  end.

(** From the exact reading to binary64: [Num q] names the number nearest
    to [q], which is the number of value [q] when there is one. *)
Definition of_value (v : value) : scalar :=
  match v with
  | Undefined => Undef
  | Null => Nul
  | NaN => Number nan
  | Num q => Number (of_Q q)
  end.

(** From binary64 to the exact reading.  The exact reading has no
    infinity, which reads as NaN here; the numbers that [openPosition]
    hands to the ledger are finite (lemma
    [opened_position_numbers_are_exact]). *)
Definition to_value (x : double) : value :=
  match to_Q x with
  | Some q => Num q
  | None => NaN
  end.

End Float64.

(* ===================================================================== *)
(** ** Signal parser (src/services/telegram.service.js) *)
(* ===================================================================== *)

Module Telegram.

(** The markers of the alert text. *)
Definition POINT_RIGHT : JsString := js "👉".
Definition POINT_LEFT : JsString := js "👈".
Definition RED : JsString := js "🔴".
Definition GREEN : JsString := js "🟢".

Definition LONG : JsString := js "LONG".
Definition SHORT : JsString := js "SHORT".
Definition OPEN : JsString := js "OPEN".
Definition CLOSE : JsString := js "CLOSE".

(** [/👉([A-Z0-9]+)👈/] *)
Definition symbolRe : regex :=
  {| atoms := lits POINT_RIGHT ++ [GroupPlus upper_alnum] ++ lits POINT_LEFT;
     ignoreCase := false |}.

(** [/KuCoin\s*-\s*([\d.]+)%/] *)
Definition spreadRe : regex :=
  {| atoms := lits (js "KuCoin") ++ [Star white; Lit 45%N; Star white;
                                     GroupPlus digit_or_dot; Lit 37%N];
     ignoreCase := false |}.

(** A price label followed by [\s*([\d.]+)], with the [i] flag. *)
Definition labelRe (label : string) : regex :=
  {| atoms := lits (js label) ++ [Star white; GroupPlus digit_or_dot];
     ignoreCase := true |}.

(** [/Last:\s*([\d.]+)/i] and [/Последняя цена:\s*([\d.]+)/i] *)
Definition lastRe_new : regex := labelRe "Last:".
Definition lastRe_old : regex := labelRe "Последняя цена:".

(** [/Mark:\s*([\d.]+)/i] and [/Справедливая:\s*([\d.]+)/i] *)
Definition markRe_new : regex := labelRe "Mark:".
Definition markRe_old : regex := labelRe "Справедливая:".

(** [/[🔴🟢]/]: without the [u] flag the class holds the four code units of
    the two surrogate pairs, and matches one code unit. *)
Definition emojiRe : regex :=
  {| atoms := [Cls (fun c => bool_decide (c ∈ RED ++ GREEN))];
     ignoreCase := false |}.

(** [/Обнаружено:\s*([^\n]+)/i] *)
Definition timeRe : regex :=
  {| atoms := lits (js "Обнаружено:") ++ [Star white; GroupPlus not_newline];
     ignoreCase := true |}.

(** The object returned for an ENTRY alert. *)
Record Signal := {
  type : JsString;
  symbol : JsString;
  direction : JsString;
  lastPrice : value;
  fairPrice : value;
  spread : value;
  timestamp : Z;
  emoji : JsString
}.

(** The [logger.warn] line that precedes each [return null]. *)
Inductive Warning :=
| SymbolNotFound
| LastPriceNotFound
| MarkPriceNotFound
| EmojiNotFound
| UnknownEmoji (e : JsString).

(** [match[1]] of a pattern that has a capture group. *)
Definition group1 (r : MatchResult) : JsString := default [] (m1 r).

(** Step 3: the last-price label variants, newer vocabulary first. *)
Definition lastPriceMatch (text : JsString) : option MatchResult :=
  match jsmatch lastRe_new text with
  | Some r => Some r
  | None => jsmatch lastRe_old text
  end.

(** Step 4: the mark-price (fair-price) label variants, newer first. *)
Definition markPriceMatch (text : JsString) : option MatchResult :=
  match jsmatch markRe_new text with
  | Some r => Some r
  | None => jsmatch markRe_old text
  end.

(** Step 2: the optional spread. *)
Definition spreadOf (text : JsString) : value :=
  match jsmatch spreadRe text with
  | Some r => parseFloat (group1 r)
  | None => Null
  end.

(** The constants that [_parseEntrySignal] holds when its step 4 is
    done. *)
Record EntryFields := {
  field_symbol : JsString;
  field_spread : value;
  field_lastPrice : value;
  field_markPrice : value
}.

(** Steps 1 to 4 of [_parseEntrySignal(text)]: the symbol, the spread and
    the two prices; [inl w] is "warn [w] and return null". *)
Definition entryFields (text : JsString) : Warning + EntryFields :=
  match jsmatch symbolRe text with
  | None => inl SymbolNotFound
  | Some symbolMatch =>
      let symbol := group1 symbolMatch in
      let spread := spreadOf text in
      match lastPriceMatch text with
      | None => inl LastPriceNotFound
      | Some lastPriceMatch =>
          let lastPrice := parseFloat (group1 lastPriceMatch) in
          match markPriceMatch text with
          | None => inl MarkPriceNotFound
          | Some markPriceMatch =>
              let markPrice := parseFloat (group1 markPriceMatch) in
              inr {| field_symbol := symbol; field_spread := spread;
                     field_lastPrice := lastPrice;
                     field_markPrice := markPrice |}
          end
      end
  end.

Section Parser.

(** [Date.now()] and [_parseKuCoinTime], which reads the calendar. *)
Variable now : Z.
Variable _parseKuCoinTime : JsString -> Z.

(** Step 6 and the object that [_parseEntrySignal] builds once the
    direction is known. *)
Definition entrySignal (text : JsString) (fields : EntryFields)
    (direction emoji : JsString) : Signal :=
  let timestamp :=
    match jsmatch timeRe text with
    | Some timeMatch => _parseKuCoinTime (group1 timeMatch)
    | None => now
    end in
  {| type := OPEN; symbol := field_symbol fields; direction := direction;
     lastPrice := field_lastPrice fields;
     fairPrice := field_markPrice fields;
     spread := field_spread fields;
     timestamp := timestamp; emoji := emoji |}.

(** [_parseEntrySignal(text)]: steps 1 to 4, then the direction (step 5),
    the time (step 6) and the signal. *)
Definition _parseEntrySignal (text : JsString) : Warning + Signal :=
  match entryFields text with
  | inl w => inl w
  | inr fields =>
      match jsmatch emojiRe text with
      | None => inl EmojiNotFound
      | Some emojiMatch =>
          let emoji := m0 emojiMatch in
          if str_eqb emoji RED then inr (entrySignal text fields LONG emoji)
          else if str_eqb emoji GREEN
          then inr (entrySignal text fields SHORT emoji)
          else inl (UnknownEmoji emoji)
      end
  end.

End Parser.

(** The ENTRY alert of the doc comment of [_parseEntrySignal] (new format). *)
Definition sample_new : JsString :=
  js "🚨 KuCoin - 5.06%
👉TAKEUSDTM👈
🟢 Last: 0.038620
⚖️ Mark: 0.036760
😎 @ArturLudit".

(** The same alert in the older vocabulary, with the red marker. *)
Definition sample_old_red : JsString :=
  js "🚨 KuCoin - 5.55%
👉BLESSUSDTM👈
🔴 Последняя цена: 0.00559200
⚖️ Справедливая: 0.00529800".

(** An alert without either colour marker. *)
Definition sample_no_marker : JsString :=
  js "🚨 KuCoin - 5.06%
👉TAKEUSDTM👈
Last: 0.038620
⚖️ Mark: 0.036760".


(** "A symbol bracketed by the directional markers": a non-empty run of
    capitals and digits between the two pointing hands. *)
Definition has_symbol (text : JsString) : Prop :=
  exists before sym after,
    sym <> [] /\ forallb upper_alnum sym = true
    /\ text = before ++ POINT_RIGHT ++ sym ++ POINT_LEFT ++ after.

(** "The label variant matches": the label in any letter case, optional
    white space, and a non-empty run of digits and dots. *)
Definition has_label (label : string) (text : JsString) : Prop :=
  exists before lab ws num after,
    Forall2 (fun c x => unit_matches true c x = true) (js label) lab
    /\ forallb white ws = true
    /\ num <> [] /\ forallb digit_or_dot num = true
    /\ text = before ++ lab ++ ws ++ num ++ after.

(** "Returns nothing": the parser warns and returns [null]. *)
Definition returns_null (r : Warning + Signal) : Prop :=
  exists w, r = inl w.





End Telegram.

(* ===================================================================== *)
(** ** Configuration (src/config/settings.js) *)
(* ===================================================================== *)

Module Settings.

(** A limit read with [parseInt]: an integer, or NaN when the variable of
    the environment holds no numeral.  (For a numeral beyond the range of
    numbers [parseInt] gives an infinity, which every comparison below
    treats as it treats NaN when it is positive, and as a negative integer
    when it is negative.) *)
Inductive limit :=
| NotANumber
| Count (z : Z).

(** [n >= l], which is [l <= n], for an integer [n]: false for NaN. *)
Definition reached (l : limit) (n : Z) : bool :=
  match l with
  | Count z => (z <=? n)%Z
  | NotANumber => false
  end.

(** The options read by the modelled functions.  [leverage] is read with
    [parseInt] and [positionSizePercent] with [parseFloat]: either can be
    NaN.  [minSpreadPercent] and [blockedSymbols] are read by the
    orchestrator but set by a part of the configuration that is not among
    the sources, so they are plain fields here; an option that is not set
    reads as [Undefined]. *)
Record Config := {
  leverage : Float64.double;
  positionSizePercent : Float64.double;
  minSpreadPercent : value;
  blockedSymbols : list JsString;
  maxDailyTrades : limit;
  maxOpenPositions : limit
}.

(** The start-up checks of settings.js: the process throws unless they
    pass.  A comparison with NaN is false, so an option that reads as NaN
    passes its check. *)
Definition validated (c : Config) : bool :=
  negb (Float64.leb (leverage c) Float64.zero
        || Float64.gtb (leverage c) (Float64.of_Z 100))
  && negb (Float64.leb (positionSizePercent c) Float64.zero
           || Float64.gtb (positionSizePercent c) (Float64.of_Z 100))
  && negb (reached (maxDailyTrades c) 0)
  && negb (reached (maxOpenPositions c) 0).

End Settings.

(* ===================================================================== *)
(** ** Risk sizing (src/services/risk.service.js) *)
(* ===================================================================== *)

Module Risk.

Import Float64.

(** The object returned by [getSymbolInfo]; a missing field is
    [Undef]. *)
Record SymbolInfo := {
  multiplier : scalar;
  lotSize : scalar;
  minOrderQty : scalar;
  maxOrderQty : scalar;
  status : JsString
}.

Record PositionParams := {
  entryPrice : double;
  quantity : double;
  positionSizeUSDT : double;
  leverage : double;
  requiredMargin : double;
  direction : JsString;
  plan_multiplier : double
}.

(** The errors thrown by [calculatePositionParameters], one constructor
    per [throw new Error]. *)
Inductive RiskError :=
| InvalidBalance (balance : scalar)
| InvalidEntryPrice (entryPrice : scalar)
| InvalidDirection (direction : JsString)
| InsufficientBalance (requiredMargin balance : double).

(** Modelled from the spec: [isValidNumber] of utils/helpers.js, which is
    not among the sources; section 4.2 rejects a balance or a price that is
    not a number: here a value that is no number, NaN, or an infinity. *)
Definition isValidNumber (v : scalar) : bool :=
  match v with
  | Number x => is_finite x
  | _ => false
  end.

Definition calculatePositionParameters (config : Settings.Config)
    (balance entryPrice : scalar) (direction : JsString)
    (symbolInfo : SymbolInfo) : RiskError + PositionParams :=
  if negb (isValidNumber balance) || leb (to_number balance) zero
  then inl (InvalidBalance balance)
  else if negb (isValidNumber entryPrice) || leb (to_number entryPrice) zero
  then inl (InvalidEntryPrice entryPrice)
  else if negb (str_eqb direction Telegram.LONG)
          && negb (str_eqb direction Telegram.SHORT)
  then inl (InvalidDirection direction)
  else
    let balance := to_number balance in
    let entryPrice := to_number entryPrice in
    let leverage := Settings.leverage config in
    let positionSizePercent := Settings.positionSizePercent config in
    let multiplier := or_else (multiplier symbolInfo) (of_Z 1) in
    let minOrderQty := or_else (minOrderQty symbolInfo) (of_Z 1) in
    let maxOrderQty := or_else (maxOrderQty symbolInfo) (of_Z 1000000) in
    let positionSizeUSDT :=
      mul balance (div positionSizePercent (of_Z 100)) in
    let lots := floor (div positionSizeUSDT (mul entryPrice multiplier)) in
    let lots := if ltb lots minOrderQty then minOrderQty else lots in
    let lots := if gtb lots maxOrderQty then maxOrderQty else lots in
    let requiredMargin :=
      div (mul (mul lots entryPrice) multiplier) leverage in
    if gtb requiredMargin balance
    then inl (InsufficientBalance requiredMargin balance)
    else inr {| entryPrice := entryPrice;
                quantity := lots;
                positionSizeUSDT := mul (mul lots entryPrice) multiplier;
                leverage := leverage;
                requiredMargin := requiredMargin;
                direction := direction;
                plan_multiplier := multiplier |}.

(** [hasSufficientBalance(balance, requiredMargin)]. *)
Definition hasSufficientBalance (balance requiredMargin : scalar) : bool :=
  isValidNumber balance && isValidNumber requiredMargin
  && geb (to_number balance) (to_number requiredMargin).


(** *** The sizing rule in the words of the specification *)

(** "clamp to [lo, hi]": [Math.min(Math.max(x, lo), hi)]. *)
Definition clamp (x lo hi : double) : double := min (max x lo) hi.

(** "notional = balance x (positionSizePercent/100).  rawLots = notional /
    (price x multiplier).  lots = floor(rawLots), then clamp to
    [minOrderQty, maxOrderQty]", each operation that of JavaScript. *)
Definition spec_lots (S B P M lo hi : double) : double :=
  clamp (floor (div (mul B (div S (of_Z 100))) (mul P M))) lo hi.

(** "requiredMargin = lots x price x multiplier / leverage". *)
Definition spec_margin (L lots P M : double) : double :=
  div (mul (mul lots P) M) L.

(** The same rule on exact numbers: "clamp(floor(B*S/100 / (P*M)), min,
    max)". *)
Definition exact_lots (S B P M lo hi : Q) : Q :=
  Qmin (Qmax (inject_Z (Qfloor (B * S / 100 / (P * M)))) lo) hi.

End Risk.

(* ===================================================================== *)
(** ** Helpers that are not among the sources *)
(* ===================================================================== *)

(** Modelled from the spec: utils/helpers.js is imported by the services
    but is not among the sources, so the functions taken from it form an
    interface.  Section 4.5 of the specification names what the two pnl
    functions compute (realized pnl and pnl percent from entry price, exit
    price, quantity and direction); their laws are stated next to the
    property that needs them. *)
Class Helpers := {
  calculatePnL : value -> value -> value -> JsString -> value;
  calculatePnLPercent : value -> value -> JsString -> value;
  formatDuration : value -> JsString;
  isSymbolBlocked : JsString -> JsString -> bool
}.

(* ===================================================================== *)
(** ** Position ledger (src/services/position.service.js) *)
(* ===================================================================== *)

Module PositionService.

Record Position := {
  symbol : JsString;
  direction : JsString;
  entryPrice : value;
  quantity : value;
  orderId : JsString;
  timestamp : value;
  positionSizeUSDT : value
}.

(** [{...trackedPosition, exitPrice, pnl, pnlPercent, duration}], to which
    [addClosedPosition] adds [closedAt]. *)
Record ClosedPosition := {
  position : Position;
  exitPrice : value;
  pnl : value;
  pnlPercent : value;
  duration : JsString;
  closedAt : Z
}.

Inductive Level := INFO | WARN | ERROR | DEBUG.

(** The templates of the log lines of the service. *)
Inductive Message :=
| AddedToMonitoring (symbol direction : JsString) (quantity : value)
| RemovedFromMonitoring (symbol : JsString)
| PositionClosed (symbol : JsString) (pnl : value)
| PositionClosedPercent (symbol : JsString) (pnl pnlPercent : value)
| ErrorHandlingClosed (message : JsString)
| ErrorCheckingPosition (symbol message : JsString)
| UnrealisedPnl (symbol : JsString) (pnl : value)
| DailyStatisticsReset.

Record LogLine := { level : Level; message : Message }.

(** The fields of the singleton, and the lines it has logged. *)
Record Service := {
  openPositions : gmap JsString Position;
  closedPositions : list ClosedPosition;
  log : list LogLine
}.

(** [new PositionService()]. *)
Definition initial : Service :=
  {| openPositions := ∅; closedPositions := []; log := [] |}.

(** A method either returns or throws, and leaves a state either way. *)
Definition M (A : Type) : Type := Service -> (JsString + A) * Service.

Definition ret {A} (a : A) : M A := fun s => (inr a, s).

Definition bind {A B} (c : M A) (k : A -> M B) : M B :=
  fun s =>
    match c s with
    | (inl e, s') => (inl e, s')
    | (inr a, s') => k a s'
    end.

Definition throw {A} (e : JsString) : M A := fun s => (inl e, s).

(** [try { c } catch (error) { h(error.message) }]. *)
Definition try_catch {A} (c : M A) (h : JsString -> M A) : M A :=
  fun s =>
    match c s with
    | (inl e, s') => h e s'
    | r => r
    end.

Definition logger (l : Level) (m : Message) : M unit :=
  fun s => (inr tt, {| openPositions := openPositions s;
                       closedPositions := closedPositions s;
                       log := log s ++ [{| level := l; message := m |}] |}).

Definition get_open : M (gmap JsString Position) :=
  fun s => (inr (openPositions s), s).

Definition set_open (m : gmap JsString Position) : M unit :=
  fun s => (inr tt, {| openPositions := m;
                       closedPositions := closedPositions s;
                       log := log s |}).

Definition set_closed (l : list ClosedPosition) : M unit :=
  fun s => (inr tt, {| openPositions := openPositions s;
                       closedPositions := l;
                       log := log s |}).

Definition get_closed : M (list ClosedPosition) :=
  fun s => (inr (closedPositions s), s).

#[global] Instance M_ret : MRet M := @ret.
#[global] Instance M_bind : MBind M := fun A B k c => bind c k.

(** [x.toFixed(2)]: a TypeError unless [x] is a number. *)
Definition toFixed (v : value) : M unit :=
  match v with
  | Undefined | Null => throw (js "Cannot read properties of undefined")
  | _ => ret tt
  end.

(** [addOpenPosition(positionData)]; [now] is [Date.now()]. *)
Definition addOpenPosition (now : Z) (positionData : Position) : M unit :=
  m ← get_open;
  set_open (<[symbol positionData :=
              {| symbol := symbol positionData;
                 direction := direction positionData;
                 entryPrice := entryPrice positionData;
                 quantity := quantity positionData;
                 orderId := orderId positionData;
                 timestamp :=
                   Num (or_default (timestamp positionData) (inject_Z now));
                 positionSizeUSDT :=
                   Num (or_default (positionSizeUSDT positionData) 0) |}]> m) ;;
  logger INFO (AddedToMonitoring (symbol positionData)
                 (direction positionData) (quantity positionData)).

(** [removeOpenPosition(symbol)]: [None] is the returned [null]. *)
Definition removeOpenPosition (sym : JsString) : M (option Position) :=
  m ← get_open;
  match m !! sym with
  | Some position =>
      set_open (delete sym m) ;;
      logger INFO (RemovedFromMonitoring sym) ;;
      ret (Some position)
  | None => ret None
  end.

(** [addClosedPosition(positionData)]: the entry is pushed before the log
    line formats its pnl. *)
Definition addClosedPosition (now : Z) (positionData : ClosedPosition) : M unit :=
  l ← get_closed;
  set_closed (l ++ [{| position := position positionData;
                       exitPrice := exitPrice positionData;
                       pnl := pnl positionData;
                       pnlPercent := pnlPercent positionData;
                       duration := duration positionData;
                       closedAt := now |}]) ;;
  toFixed (pnl positionData) ;;
  logger INFO (PositionClosed (symbol (position positionData))
                 (pnl positionData)).

Definition hasOpenPosition (sym : JsString) (s : Service) : bool :=
  bool_decide (is_Some (openPositions s !! sym)).

Definition getOpenPosition (sym : JsString) (s : Service) : option Position :=
  openPositions s !! sym.

Definition getAllOpenPositions (s : Service) : list Position :=
  (map_to_list (openPositions s)).*2.

Definition getOpenPositionsCount (s : Service) : nat :=
  size (openPositions s).

(** A price field of an order of the venue, as [handlePositionClosed]
    reads it.  The venue sends a string in decimal notation, a number, null
    or nothing, and the code makes two observations of the field: [||]
    takes it as a condition (ToBoolean: a string is true unless it is
    empty, so ["0"] is true; a number is true unless it is zero or NaN;
    null and undefined are false), and [parseFloat] reads a number off it
    ([None] is NaN). *)
Record Quote := {
  given : bool;
  parsed : option Q
}.

(** [parseFloat(field)] *)
Definition parseFloat_quote (q : Quote) : value :=
  match parsed q with
  | Some x => Num x
  | None => NaN
  end.

(** An order of [getTradeHistory]. *)
Record Fill := {
  fill_symbol : JsString;
  side : JsString;
  price : Quote;
  execPrice : Quote
}.

(** [parseFloat] of a field that already holds a number. *)
Definition parseFloat_field (v : value) : value :=
  match v with
  | Num q => Num q
  | _ => NaN
  end.

(** The predicate of [trades.find] in [handlePositionClosed]. *)
Definition is_close_trade (sym : JsString) (tracked : Position) (t : Fill) : bool :=
  str_eqb (fill_symbol t) sym
  && ((str_eqb (side t) (js "sell") && str_eqb (direction tracked) Telegram.LONG)
      || (str_eqb (side t) (js "buy") && str_eqb (direction tracked) Telegram.SHORT)).

(** [Math.floor((Date.now() - trackedPosition.timestamp) / 1000)]. *)
Definition elapsed_seconds (now : Z) (tracked : Position) : value :=
  match toNumber (timestamp tracked) with
  | Some t => Num (floor ((inject_Z now - t) / 1000))
  | None => NaN
  end.

(** A position as [kucoinService.getOpenPositions] reports it. *)
Record ExchangePosition := {
  ex_symbol : JsString;
  size_ : value;
  unrealisedPnl : value
}.

(** The test of [checkPositions] that sends a tracked symbol to
    [handlePositionClosed]: the venue lists no position for it, or one of
    size zero. *)
Definition venue_closed (sym : JsString) (exchangePositions : list ExchangePosition) : bool :=
  match List.find (fun pos => str_eqb (ex_symbol pos) sym) exchangePositions with
  | None => true
  | Some pos =>
      match parseFloat_field (size_ pos) with
      | Num q => Qeq_bool q 0
      | _ => false
      end
  end.

Section WithHelpers.

Context `{Helpers}.

(** [handlePositionClosed(symbol, trackedPosition)]; [trades] is what
    [kucoinService.getTradeHistory(symbol)] resolves to, or the message of
    the error it throws. *)
Definition handlePositionClosed (now : Z) (trades : JsString + list Fill)
    (sym : JsString) (trackedPosition : Position) : M unit :=
  try_catch
    (match trades with
     | inl e => throw e
     | inr trades =>
         let closeTrade := List.find (is_close_trade sym trackedPosition) trades in
         let exitPrice :=
           match closeTrade with
           | Some t => parseFloat_quote
                         (if given (price t) then price t else execPrice t)
           | None => entryPrice trackedPosition
           end in
         let duration := elapsed_seconds now trackedPosition in
         let pnl := calculatePnL (entryPrice trackedPosition) exitPrice
                      (quantity trackedPosition) (direction trackedPosition) in
         let pnlPercent := calculatePnLPercent (entryPrice trackedPosition)
                             exitPrice (direction trackedPosition) in
         let closedPositionData :=
           {| position := trackedPosition; exitPrice := exitPrice;
              pnl := pnl; pnlPercent := pnlPercent;
              duration := formatDuration duration; closedAt := 0 |} in
         addClosedPosition now closedPositionData ;;
         removeOpenPosition sym ;;
         toFixed pnl ;;
         toFixed pnlPercent ;;
         logger INFO (PositionClosedPercent sym pnl pnlPercent)
     end)
    (fun e => logger ERROR (ErrorHandlingClosed e)).

(** [updatePositionData(symbol, exchangePosition)]: a debug line, no
    change to the tracked position. *)
Definition updatePositionData (sym : JsString) (exchangePosition : ExchangePosition)
  : M unit :=
  m ← get_open;
  match m !! sym with
  | None => ret tt
  | Some _ =>
      logger DEBUG
        (UnrealisedPnl sym
           (parseFloat_field
              (if truthy (unrealisedPnl exchangePosition)
               then unrealisedPnl exchangePosition else Num 0)))
  end.

(** The body of the loop of [checkPositions()] for one tracked symbol;
    [exchangePositions] and [trades] are the replies of the venue. *)
Definition checkPosition (now : Z)
    (exchangePositions : JsString + list ExchangePosition)
    (trades : JsString + list Fill)
    (sym : JsString) (trackedPosition : Position) : M unit :=
  try_catch
    (match exchangePositions with
     | inl e => throw e
     | inr exchangePositions =>
         if venue_closed sym exchangePositions
         then handlePositionClosed now trades sym trackedPosition
         else
           match List.find (fun pos => str_eqb (ex_symbol pos) sym)
                   exchangePositions with
           | Some exchangePosition => updatePositionData sym exchangePosition
           | None => ret tt
           end
     end)
    (fun e => logger ERROR (ErrorCheckingPosition sym e)).

End WithHelpers.

(** [a + b] on numbers. *)
Definition js_add (a b : value) : value :=
  match toNumber a, toNumber b with
  | Some x, Some y => Num (x + y)
  | _, _ => NaN
  end.

Record Statistics := {
  totalTrades : nat;
  winTrades : nat;
  loseTrades : nat;
  totalPnl : value;
  stat_openPositions : nat;
  stat_closedPositions : nat
}.

(** [getStatistics()]. *)
Definition getStatistics (s : Service) : Statistics :=
  let totalTrades := length (closedPositions s) in
  let winTrades :=
    length (List.filter (fun p => js_ge (pnl p) (Num 0)) (closedPositions s)) in
  {| totalTrades := totalTrades;
     winTrades := winTrades;
     loseTrades := totalTrades - winTrades;
     totalPnl := fold_left (fun sum p => js_add sum (pnl p))
                   (closedPositions s) (Num 0);
     stat_openPositions := size (openPositions s);
     stat_closedPositions := totalTrades |}.

(** [resetDailyStatistics()]. *)
Definition resetDailyStatistics : M unit :=
  set_closed [] ;;
  logger INFO DailyStatisticsReset.

(** The state a method leaves. *)
Definition exec {A} (c : M A) (s : Service) : Service := snd (c s).

(** What a method returns; [inl] when it throws. *)
Definition result {A} (c : M A) (s : Service) : JsString + A := fst (c s).

(** The entries that [getAllOpenPositions()] lists for a symbol. *)
Definition entries_for (sym : JsString) (s : Service) : list Position :=
  filter (fun p => symbol p = sym) (getAllOpenPositions s).

(** Every entry of the map is filed under its own symbol. *)
Definition consistent (s : Service) : Prop :=
  forall k p, openPositions s !! k = Some p -> symbol p = k.

(** The ledgers that the methods of the service build from a fresh one. *)
Inductive reachable `{Helpers} : Service -> Prop :=
| reach_initial : reachable initial
| reach_add now pd s :
    reachable s -> reachable (exec (addOpenPosition now pd) s)
| reach_remove sym s :
    reachable s -> reachable (exec (removeOpenPosition sym) s)
| reach_closed now c s :
    reachable s -> reachable (exec (addClosedPosition now c) s)
| reach_check now exchangePositions trades sym tracked s :
    reachable s ->
    reachable (exec (checkPosition now exchangePositions trades sym tracked) s)
| reach_reset s :
    reachable s -> reachable (exec resetDailyStatistics s).

(** At most one open position per symbol. *)
Definition at_most_one_per_symbol (s : Service) : Prop :=
  forall sym, length (entries_for sym s) <= 1.

(** The entry that [addOpenPosition] stores for [positionData]. *)
Definition stored (now : Z) (positionData : Position) : Position :=
  {| symbol := symbol positionData;
     direction := direction positionData;
     entryPrice := entryPrice positionData;
     quantity := quantity positionData;
     orderId := orderId positionData;
     timestamp := Num (or_default (timestamp positionData) (inject_Z now));
     positionSizeUSDT := Num (or_default (positionSizeUSDT positionData) 0) |}.

(** The warnings among the lines logged. *)
Definition warnings (s : Service) : list LogLine :=
  List.filter (fun l => match level l with WARN => true | _ => false end) (log s).

(** "Closing side for the tracked direction": sell for LONG, buy for
    SHORT. *)
Definition closing_side (tracked : Position) (t : Fill) : Prop :=
  (side t = js "sell" /\ direction tracked = Telegram.LONG)
  \/ (side t = js "buy" /\ direction tracked = Telegram.SHORT).

End PositionService.

(* ===================================================================== *)
(** ** Orchestrator (the entry point bundled with src/config/settings.js) *)
(* ===================================================================== *)

Module Orchestrator.

(** The module-level [statistics] object. *)
Record Statistics := {
  totalTrades : Z;
  winTrades : Z;
  loseTrades : Z;
  totalProfit : value;
  startBalance : value;
  currentBalance : value;
  dailyTrades : Z;
  signalsIgnored : Z;
  totalSignals : Z;
  lastResetDate : JsString
}.

(** [getTradingHoursInfo()]. *)
Record HoursInfo := {
  currentHour : Z;
  currentMinute : Z;
  startHour : Z;
  endHour : Z;
  nextTradingIn : JsString
}.

(** services/time.service.js is not among the sources and reads the
    clock: what its two functions return at the time of the call. *)
Record TimeService := {
  isTradingHoursActive : bool;
  getTradingHoursInfo : HoursInfo
}.

(** What the venue answers to the two requests of the admission pipeline:
    [inl message] is a rejected promise. *)
Record Venue := {
  getUSDTBalance : JsString + value;
  getSymbolInfo : JsString -> JsString + Risk.SymbolInfo
}.

(** The requests sent to the venue. *)
Inductive NetCall :=
| BalanceRequest
| SymbolInfoRequest (symbol : JsString).

(** The state the orchestrator works on. *)
Record World := {
  statistics : Statistics;
  positions : PositionService.Service;
  calls : list NetCall
}.

(** The [reason] of a rejection, one constructor per message template. *)
Inductive Reason :=
| SpreadBelowMinimum (spread minimum : value)
| SymbolBlocked (symbol : JsString)
| InvalidDirection (direction : JsString)
| OutsideTradingHours
| PositionExists (symbol : JsString)
| MaxOpenPositionsReached (maximum : Settings.limit)
| MaxDailyTradesReached (maximum : Settings.limit)
| InsufficientBalance
| ErrorCheckingBalance (message : JsString)
| SymbolNotTrading (symbol : JsString)
| SymbolNotFound (symbol message : JsString).

(** The [info] object of a rejection. *)
Inductive Info :=
| NoInfo
| SpreadInfo (currentSpread minRequired : value)
| TradingHoursInfo (hoursInfo : HoursInfo).

(** [{ valid: true }] or [{ valid: false, reason, info }]. *)
Inductive Validation :=
| Accepted
| Rejected (reason : Reason) (info : Info).

(** [list.join(',')]. *)
Fixpoint join (sep : JsString) (l : list JsString) : JsString :=
  match l with
  | [] => []
  | x :: l' =>
      match l' with
      | [] => x
      | _ :: _ => x ++ sep ++ join sep l'
      end
  end.

Definition set_currentBalance (balance : value) (w : World) : World :=
  let st := statistics w in
  {| statistics :=
       {| totalTrades := totalTrades st; winTrades := winTrades st;
          loseTrades := loseTrades st; totalProfit := totalProfit st;
          startBalance := startBalance st; currentBalance := balance;
          dailyTrades := dailyTrades st; signalsIgnored := signalsIgnored st;
          totalSignals := totalSignals st;
          lastResetDate := lastResetDate st |};
     positions := positions w;
     calls := calls w |}.

(** Sending a request appends it to the trace. *)
Definition request (c : NetCall) (w : World) : World :=
  {| statistics := statistics w; positions := positions w;
     calls := calls w ++ [c] |}.

Section Admission.

Context `{Helpers}.
Variable config : Settings.Config.
Variable time : TimeService.
Variable venue : Venue.

(** [validateSignal(signal)]. *)
Definition validateSignal (signal : Telegram.Signal) (w : World)
  : Validation * World :=
  let symbol := Telegram.symbol signal in
  let direction := Telegram.direction signal in
  let spread := Telegram.spread signal in
  let minSpreadPercent := Settings.minSpreadPercent config in
  (* 1 *)
  if js_gt minSpreadPercent (Num 0)
     && (negb (truthy spread) || js_lt spread minSpreadPercent)
  then (Rejected (SpreadBelowMinimum spread minSpreadPercent)
          (SpreadInfo spread minSpreadPercent), w)
  (* 2 *)
  else if isSymbolBlocked symbol
            (join (js ",") (Settings.blockedSymbols config))
  then (Rejected (SymbolBlocked symbol) NoInfo, w)
  (* 3 *)
  else if negb (str_eqb direction Telegram.LONG)
          && negb (str_eqb direction Telegram.SHORT)
  then (Rejected (InvalidDirection direction) NoInfo, w)
  (* 4 *)
  else if negb (isTradingHoursActive time)
  then (Rejected OutsideTradingHours
          (TradingHoursInfo (getTradingHoursInfo time)), w)
  (* 5 *)
  else if PositionService.hasOpenPosition symbol (positions w)
  then (Rejected (PositionExists symbol) NoInfo, w)
  (* 6 *)
  else if Settings.reached (Settings.maxOpenPositions config)
            (Z.of_nat (PositionService.getOpenPositionsCount (positions w)))
  then (Rejected (MaxOpenPositionsReached (Settings.maxOpenPositions config))
          NoInfo, w)
  (* 7 *)
  else if Settings.reached (Settings.maxDailyTrades config)
            (dailyTrades (statistics w))
  then (Rejected (MaxDailyTradesReached (Settings.maxDailyTrades config))
          NoInfo, w)
  else
    (* 8 *)
    let w := request BalanceRequest w in
    match getUSDTBalance venue with
    | inl message => (Rejected (ErrorCheckingBalance message) NoInfo, w)
    | inr balance =>
        let w := set_currentBalance balance w in
        if js_le balance (Num 0)
        then (Rejected InsufficientBalance NoInfo, w)
        else
          (* 9 *)
          let w := request (SymbolInfoRequest symbol) w in
          match getSymbolInfo venue symbol with
          | inl message => (Rejected (SymbolNotFound symbol message) NoInfo, w)
          | inr symbolInfo =>
              if negb (str_eqb (Risk.status symbolInfo) (js "Open"))
              then (Rejected (SymbolNotTrading symbol) NoInfo, w)
              else (Accepted, w)
          end
    end.

(** *** The pipeline in the words of the specification *)

(** A gate: whether the signal fails it, and the rejection it reports. *)
Definition Gate : Type := bool * Validation.

(** The nine gates of section 4.3, in their order. *)
Definition gates (signal : Telegram.Signal) (w : World) : list Gate :=
  let symbol := Telegram.symbol signal in
  let direction := Telegram.direction signal in
  let spread := Telegram.spread signal in
  let minimum := Settings.minSpreadPercent config in
  [ (js_gt minimum (Num 0) && (negb (truthy spread) || js_lt spread minimum),
     Rejected (SpreadBelowMinimum spread minimum) (SpreadInfo spread minimum));
    (isSymbolBlocked symbol (join (js ",") (Settings.blockedSymbols config)),
     Rejected (SymbolBlocked symbol) NoInfo);
    (negb (str_eqb direction Telegram.LONG)
     && negb (str_eqb direction Telegram.SHORT),
     Rejected (InvalidDirection direction) NoInfo);
    (negb (isTradingHoursActive time),
     Rejected OutsideTradingHours (TradingHoursInfo (getTradingHoursInfo time)));
    (PositionService.hasOpenPosition symbol (positions w),
     Rejected (PositionExists symbol) NoInfo);
    (Settings.reached (Settings.maxOpenPositions config)
       (Z.of_nat (PositionService.getOpenPositionsCount (positions w))),
     Rejected (MaxOpenPositionsReached (Settings.maxOpenPositions config)) NoInfo);
    (Settings.reached (Settings.maxDailyTrades config)
       (dailyTrades (statistics w)),
     Rejected (MaxDailyTradesReached (Settings.maxDailyTrades config)) NoInfo);
    match getUSDTBalance venue with
    | inl message => (true, Rejected (ErrorCheckingBalance message) NoInfo)
    | inr balance => (js_le balance (Num 0), Rejected InsufficientBalance NoInfo)
    end;
    match getSymbolInfo venue symbol with
    | inl message => (true, Rejected (SymbolNotFound symbol message) NoInfo)
    | inr symbolInfo => (negb (str_eqb (Risk.status symbolInfo) (js "Open")),
                         Rejected (SymbolNotTrading symbol) NoInfo)
    end ].

(** The verdict of an ordered, short-circuiting gate sequence: the
    rejection of the first gate that fails. *)
Definition first_failing (gs : list Gate) : Validation :=
  match List.find fst gs with
  | Some g => snd g
  | None => Accepted
  end.

(** Gate 1 on its own: the filter is enabled and the spread is missing,
    zero or below the minimum. *)
Definition spread_gate_fails (signal : Telegram.Signal) : bool :=
  js_gt (Settings.minSpreadPercent config) (Num 0)
  && (negb (truthy (Telegram.spread signal))
      || js_lt (Telegram.spread signal) (Settings.minSpreadPercent config)).

(** The gates that need no request to the venue. *)
Definition local_gates (signal : Telegram.Signal) (w : World) : list Gate :=
  take 7 (gates signal w).

End Admission.

(** The roll-over at the head of [sendDailyReport()]; [currentDate] is
    [getCurrentDate()]. *)
Definition sendDailyReport_reset (currentDate : JsString) (w : World) : World :=
  if negb (str_eqb currentDate (lastResetDate (statistics w)))
  then
    let st := statistics w in
    {| statistics :=
         {| totalTrades := totalTrades st; winTrades := winTrades st;
            loseTrades := loseTrades st; totalProfit := totalProfit st;
            startBalance := startBalance st;
            currentBalance := currentBalance st;
            dailyTrades := 0; signalsIgnored := 0;
            totalSignals := totalSignals st;
            lastResetDate := currentDate |};
       positions :=
         PositionService.exec PositionService.resetDailyStatistics (positions w);
       calls := calls w |}
  else w.

End Orchestrator.

(* ===================================================================== *)
(** ** Concrete inputs used by the properties *)
(* ===================================================================== *)

Module Examples.

Import Float64.

(** Leverage 10 and position size 5 percent, the values of the end-to-end
    example of the specification (and the defaults of settings.js). *)
Definition config0 : Settings.Config :=
  {| Settings.leverage := of_Z 10; Settings.positionSizePercent := of_Z 5;
     Settings.minSpreadPercent := Undefined; Settings.blockedSymbols := [];
     Settings.maxDailyTrades := Settings.Count 20;
     Settings.maxOpenPositions := Settings.Count 3 |}.

(** The same with a LEVERAGE that holds no numeral: [parseInt] gives
    NaN. *)
Definition config_nan_leverage : Settings.Config :=
  {| Settings.leverage := nan; Settings.positionSizePercent := of_Z 5;
     Settings.minSpreadPercent := Undefined; Settings.blockedSymbols := [];
     Settings.maxDailyTrades := Settings.Count 20;
     Settings.maxOpenPositions := Settings.Count 3 |}.

(** The same with a POSITION_SIZE_PERCENT that holds no numeral. *)
Definition config_nan_percent : Settings.Config :=
  {| Settings.leverage := of_Z 10; Settings.positionSizePercent := nan;
     Settings.minSpreadPercent := Undefined; Settings.blockedSymbols := [];
     Settings.maxDailyTrades := Settings.Count 20;
     Settings.maxOpenPositions := Settings.Count 3 |}.

(** A contract of multiplier 0.01 whose order bounds are not set. *)
Definition info_e2e : Risk.SymbolInfo :=
  {| Risk.multiplier := Number (ratio 1 100);
     Risk.lotSize := Number (of_Z 1);
     Risk.minOrderQty := Undef; Risk.maxOrderQty := Undef;
     Risk.status := js "Open" |}.

(** A contract whose [minOrderQty] field holds 0. *)
Definition info_zero_min : Risk.SymbolInfo :=
  {| Risk.multiplier := Number (of_Z 1); Risk.lotSize := Number (of_Z 1);
     Risk.minOrderQty := Number zero;
     Risk.maxOrderQty := Number (of_Z 1000000);
     Risk.status := js "Open" |}.

(** A contract of multiplier 1 with the usual bounds. *)
Definition info_unit : Risk.SymbolInfo :=
  {| Risk.multiplier := Number (of_Z 1); Risk.lotSize := Number (of_Z 1);
     Risk.minOrderQty := Number (of_Z 1);
     Risk.maxOrderQty := Number (of_Z 1000000);
     Risk.status := js "Open" |}.

(** A contract of multiplier 0.1 with the usual bounds. *)
Definition info_tenth : Risk.SymbolInfo :=
  {| Risk.multiplier := Number (ratio 1 10); Risk.lotSize := Number (of_Z 1);
     Risk.minOrderQty := Number (of_Z 1);
     Risk.maxOrderQty := Number (of_Z 1000000);
     Risk.status := js "Open" |}.

End Examples.

(* ===================================================================== *)
(** ** The laws assumed of the absent helpers, and an instance *)
(* ===================================================================== *)

Module HelperLaws.

(** Modelled from the spec: section 4.5, "fall back to using the entry
    price as exit price (yielding zero realized pnl)": when the exit price is
    the entry price, the realized pnl of a position with a finite price and
    quantity is zero, and so is its pnl percent when the price is not zero. *)
Definition flat_pnl `{Helpers} : Prop :=
  (forall (e q : Q) (d : JsString),
      is_zero (calculatePnL (Num e) (Num e) (Num q) d))
  /\ (forall (e : Q) (d : JsString),
        ~ (e == 0)%Q -> is_zero (calculatePnLPercent (Num e) (Num e) d)).

(** Modelled from the spec: an instance of the interface with the usual
    formulas of a futures position: the price difference, signed by the
    direction, times the quantity; and the signed difference relative to the
    entry price, in percent.  A symbol is blocked when the comma-separated
    list mentions it. *)
#[local] Instance usual : Helpers := {|
  calculatePnL entry exit qty d :=
    match entry, exit, qty with
    | Num e, Num x, Num q =>
        if str_eqb d Telegram.LONG then Num ((x - e) * q) else Num ((e - x) * q)
    | _, _, _ => NaN
    end;
  calculatePnLPercent entry exit d :=
    match entry, exit with
    | Num e, Num x =>
        if Qeq_bool e 0 then NaN
        else if str_eqb d Telegram.LONG then Num ((x - e) / e * 100)
        else Num ((e - x) / e * 100)
    | _, _ => NaN
    end;
  formatDuration _ := js "";
  isSymbolBlocked sym blocked := includes sym blocked
|}.

End HelperLaws.

(* ===================================================================== *)
(** ** Concrete ledger inputs *)
(* ===================================================================== *)

Module LedgerExamples.

Import PositionService.

(** A LONG position on TAKEUSDTM, as the orchestrator registers it. *)
Definition take_long : Position :=
  {| symbol := js "TAKEUSDTM"; direction := Telegram.LONG;
     entryPrice := Num 10; quantity := Num 500; orderId := js "order-1";
     timestamp := Num 1000; positionSizeUSDT := Num 50 |}.

(** A later position on the same symbol. *)
Definition take_short : Position :=
  {| symbol := js "TAKEUSDTM"; direction := Telegram.SHORT;
     entryPrice := Num 12; quantity := Num 40; orderId := js "order-2";
     timestamp := Undefined; positionSizeUSDT := Undefined |}.

(** The ledger after [take_long] was added to a fresh service. *)
Definition one_open : Service := exec (addOpenPosition 0 take_long) initial.

(** A fill on the opening side of [take_long]. *)
Definition buy_fill : Fill :=
  {| fill_symbol := js "TAKEUSDTM"; side := js "buy";
     price := {| given := true; parsed := Some 11%Q |};
     execPrice := {| given := false; parsed := None |} |}.

(** A fill on the closing side of [take_long], a market order: the venue
    sends its limit price as the string "0", and the price of the
    execution next to it. *)
Definition sell_fill : Fill :=
  {| fill_symbol := js "TAKEUSDTM"; side := js "sell";
     price := {| given := true; parsed := Some 0%Q |};
     execPrice := {| given := true; parsed := Some 11%Q |} |}.

End LedgerExamples.

(* ===================================================================== *)
(** ** Concrete orchestrator inputs *)
(* ===================================================================== *)

Module OrchestratorExamples.

Import Orchestrator.

(** A closed trade of the day. *)
Definition closed_take : PositionService.ClosedPosition :=
  {| PositionService.position := LedgerExamples.take_long;
     PositionService.exitPrice := Num 11;
     PositionService.pnl := Num 500;
     PositionService.pnlPercent := Num 10;
     PositionService.duration := js "12s";
     PositionService.closedAt := 13000 |}.

(** A ledger with one open position and one closed trade. *)
Definition ledger0 : PositionService.Service :=
  {| PositionService.openPositions :=
       PositionService.openPositions LedgerExamples.one_open;
     PositionService.closedPositions := [closed_take];
     PositionService.log := [] |}.

(** The orchestrator in the evening of a day with three trades. *)
Definition world0 : World :=
  {| statistics :=
       {| totalTrades := 7; winTrades := 0; loseTrades := 0;
          totalProfit := Num 0; startBalance := Num 1000;
          currentBalance := Num 1000; dailyTrades := 3;
          signalsIgnored := 2; totalSignals := 9;
          lastResetDate := js "2026-01-01" |};
     positions := ledger0;
     calls := [] |}.

(** A configuration with a minimum spread of 3 percent and one blocked
    symbol. *)
Definition config_spread : Settings.Config :=
  {| Settings.leverage := Float64.of_Z 10;
     Settings.positionSizePercent := Float64.of_Z 5;
     Settings.minSpreadPercent := Num 3;
     Settings.blockedSymbols := [js "BLESSUSDTM"];
     Settings.maxDailyTrades := Settings.Count 20;
     Settings.maxOpenPositions := Settings.Count 3 |}.

(** An OPEN signal whose spread label did not match. *)
Definition signal_no_spread : Telegram.Signal :=
  {| Telegram.type := Telegram.OPEN; Telegram.symbol := js "BLESSUSDTM";
     Telegram.direction := Telegram.LONG; Telegram.lastPrice := Num 2;
     Telegram.fairPrice := Num 1; Telegram.spread := Null;
     Telegram.timestamp := 0; Telegram.emoji := Telegram.RED |}.

(** An OPEN signal for the blocked symbol with a spread of 5 percent. *)
Definition signal_blocked : Telegram.Signal :=
  {| Telegram.type := Telegram.OPEN; Telegram.symbol := js "BLESSUSDTM";
     Telegram.direction := Telegram.LONG; Telegram.lastPrice := Num 2;
     Telegram.fairPrice := Num 1; Telegram.spread := Num 5;
     Telegram.timestamp := 0; Telegram.emoji := Telegram.RED |}.

(** Outside the trading window. *)
Definition night : TimeService :=
  {| isTradingHoursActive := false;
     getTradingHoursInfo :=
       {| currentHour := 2; currentMinute := 30; startHour := 8;
          endHour := 20; nextTradingIn := js "5h 30m" |} |}.

(** A venue with a balance of 1000 that lists every symbol as open. *)
Definition venue0 : Venue :=
  {| getUSDTBalance := inr (Num 1000);
     getSymbolInfo := fun _ => inr Examples.info_unit |}.

End OrchestratorExamples.

(* ===================================================================== *)
(** ** Vocabulary of the further properties of the risk sizing *)
(* ===================================================================== *)

Module RiskFacts.

Import Float64.

(** A whole number: a finite number whose value is an integer. *)
Definition is_whole (x : double) : Prop :=
  exists z : Z, to_Q x = Some (inject_Z z).

(** The lot count before the bounds are applied:
    [Math.floor(positionSizeUSDT / (entryPrice * multiplier))]. *)
Definition floored_lots (config : Settings.Config) (b p : double)
    (info : Risk.SymbolInfo) : double :=
  floor (div (mul b (div (Settings.positionSizePercent config) (of_Z 100)))
           (mul p (or_else (Risk.multiplier info) (of_Z 1)))).

End RiskFacts.

(* ===================================================================== *)
(** ** Further concrete inputs *)
(* ===================================================================== *)

Module MoreExamples.

Import PositionService.

(** The venue still holds 500 lots of TAKEUSDTM. *)
Definition live_take : ExchangePosition :=
  {| ex_symbol := js "TAKEUSDTM"; size_ := Num 500; unrealisedPnl := Num 3 |}.

(** A ledger with two open positions. *)
Definition bless_short : Position :=
  {| symbol := js "BLESSUSDTM"; direction := Telegram.SHORT;
     entryPrice := Num 2; quantity := Num 7; orderId := js "order-3";
     timestamp := Num 2000; positionSizeUSDT := Num 14 |}.

Definition two_open : Service :=
  exec (addOpenPosition 0 bless_short) LedgerExamples.one_open.

End MoreExamples.

(* ===================================================================== *)
(** ** telegram.service.js: EXIT alerts and the dispatch of a message *)
(* ===================================================================== *)

Module TelegramExit.

Import Telegram.

Definition CHECK_MARK : JsString := js "✅".
Definition PRICES : JsString := js "Цены".
Definition EQUALISED : JsString := js "сравнялись".
Definition ALERT_HEADER : JsString := js "🚨 KuCoin".

(** [[A-Z0-9]] under the [i] flag: a unit whose canonical form is in the
    class. *)
Definition alnum_ci (c : unit16) : bool := upper_alnum (canonicalize c).

(** The ASCII letters and digits. *)
Definition ascii_alnum (c : unit16) : bool :=
  digit c || ((65 <=? c)%N && (c <=? 90)%N) || ((97 <=? c)%N && (c <=? 122)%N).

(** [.] without the [s] flag: any unit but a line terminator. *)
Definition dot (c : unit16) : bool :=
  negb ((c =? 10)%N || (c =? 13)%N || (c =? 8232)%N || (c =? 8233)%N).

(** [\s+] *)
Definition whites : list atom := [Cls white; Star white].

(** [/✅\s*([A-Z0-9]+)\s*-\s*Цены\s+сравнялись/i] *)
Definition exitRe_prices : regex :=
  {| atoms := lits CHECK_MARK
              ++ [Star white; GroupPlus alnum_ci; Star white; Lit 45%N;
                  Star white]
              ++ lits PRICES ++ whites ++ lits EQUALISED;
     ignoreCase := true |}.

(** [/✅\s*([A-Z0-9]+)\s*-\s*сравнялись/i] *)
Definition exitRe_dash : regex :=
  {| atoms := lits CHECK_MARK
              ++ [Star white; GroupPlus alnum_ci; Star white; Lit 45%N;
                  Star white]
              ++ lits EQUALISED;
     ignoreCase := true |}.

(** [/✅\s*([A-Z0-9]+)\s+сравнялись/i] *)
Definition exitRe_plain : regex :=
  {| atoms := lits CHECK_MARK ++ [Star white; GroupPlus alnum_ci] ++ whites
              ++ lits EQUALISED;
     ignoreCase := true |}.

(** Lazy [class*?] followed by the rest of the pattern [k]: the shortest
    run first, then longer ones. *)
Fixpoint lazy_loop (p : unit16 -> bool) (k : JsString -> option MatchResult)
    (s : JsString) : option MatchResult :=
  match k s with
  | Some r => Some r
  | None =>
      match s with
      | x :: s' => if p x then push x <$> lazy_loop p k s' else None
      | [] => None
      end
  end.

(** [/([A-Z0-9]+).*?сравнялись/i] at the start of the subject. *)
Definition match_fallback (s : JsString) : option MatchResult :=
  match s with
  | x :: s' =>
      if alnum_ci x
      then plus_loop alnum_ci
             (lazy_loop dot (match_atoms true (lits EQUALISED))) [x] s'
      else None
  | [] => None
  end.

(** The leftmost position at which [m] matches. *)
Fixpoint search (m : JsString -> option MatchResult) (s : JsString)
  : option MatchResult :=
  match m s with
  | Some r => Some r
  | None =>
      match s with
      | [] => None
      | _ :: s' => search m s'
      end
  end.

(** The object returned for an EXIT alert. *)
Record ExitSignal := {
  exit_type : JsString;
  exit_symbol : JsString;
  exit_timestamp : Z
}.

(** The four attempts at the symbol, in the order of the source. *)
Definition symbolMatch (text : JsString) : option MatchResult :=
  match jsmatch exitRe_prices text with
  | Some r => Some r
  | None =>
      match jsmatch exitRe_dash text with
      | Some r => Some r
      | None =>
          match jsmatch exitRe_plain text with
          | Some r => Some r
          | None => search match_fallback text
          end
      end
  end.

(** [_parseExitSignal(text)]; [None] is "warn and return null". *)
Definition _parseExitSignal (now : Z) (text : JsString) : option ExitSignal :=
  match symbolMatch text with
  | None => None
  | Some symbolMatch =>
      Some {| exit_type := CLOSE; exit_symbol := group1 symbolMatch;
              exit_timestamp := now |}
  end.

(** What [parseSignal] returns when it returns an object. *)
Inductive ParsedSignal :=
| Entry (signal : Signal)
| Exit (signal : ExitSignal).

Section Dispatch.

Variable now : Z.
Variable _parseKuCoinTime : JsString -> Z.

(** [parseSignal(text)]: EXIT is looked for first, ENTRY otherwise. *)
Definition parseSignal (text : JsString) : option ParsedSignal :=
  if includes EQUALISED text then Exit <$> _parseExitSignal now text
  else if includes ALERT_HEADER text then
    match _parseEntrySignal now _parseKuCoinTime text with
    | inr signal => Some (Entry signal)
    | inl _ => None
    end
  else None.

(** [isSignalMessage(text)] *)
Definition isSignalMessage (text : JsString) : bool :=
  match text with
  | [] => false
  | _ =>
      let isEntry := includes ALERT_HEADER text && includes POINT_RIGHT text
                     && includes POINT_LEFT text in
      let isExit := includes EQUALISED text in
      isEntry || isExit
  end.

(** A channel post: both fields may be absent. *)
Record ChannelPost := {
  msg_text : option JsString;
  msg_caption : option JsString
}.

(** [a || b] on an optional string: absent and empty are falsy. *)
Definition str_or (a : option JsString) (b : JsString) : JsString :=
  match a with
  | Some (x :: t) => x :: t
  | _ => b
  end.

(** [handleChannelMessage(msg)]: the signal handed to the callbacks, if
    any. *)
Definition handleChannelMessage (msg : ChannelPost) : option ParsedSignal :=
  let text := str_or (msg_text msg) (str_or (msg_caption msg) []) in
  if isSignalMessage text then parseSignal text else None.

End Dispatch.

(** The EXIT alert of the doc comment of [parseSignal]. *)
Definition sample_exit : JsString :=
  js "✅ BLESSUSDTM - Цены сравнялись!
⏱️ Через: 11 сек 850 мс
💰 Последняя цена: 0.00562100".

(** A sentence that is no alert of the monitor. *)
Definition sample_chatter : JsString :=
  js "Курсы btc и eth сравнялись".

(** [s] spells [word] up to the case of its letters, as the [i] flag reads
    it. *)
Definition spelled (word s : JsString) : Prop :=
  Forall2 (fun c x => unit_matches true c x = true) word s.

(** The subject does not go on with a unit of the class. *)
Definition stops (p : unit16 -> bool) (s : JsString) : Prop :=
  match s with
  | x :: _ => p x = false
  | [] => True
  end.

(** The pattern matches at the start of the subject, with capture [cap]. *)
Definition captures (ic : bool) (pat : list atom) (s : JsString)
    (cap : option JsString) : Prop :=
  exists r, match_atoms ic pat s = Some r /\ m1 r = cap.

(** An EXIT alert in the documented format with the prices word. *)
Definition exit_text (ws1 symbol ws2 ws3 ws4 rest : JsString) : JsString :=
  CHECK_MARK ++ ws1 ++ symbol ++ ws2 ++ [45%N] ++ ws3 ++ PRICES ++ ws4
  ++ EQUALISED ++ rest.

End TelegramExit.

(* ===================================================================== *)
(** ** index.js: opening and closing positions, handling a signal *)
(* ===================================================================== *)

(** The functions of this part are [async].  Each is given here as it
    runs when nothing else runs between its [await]s: a function from the
    desk before the call to the desk after it.  Module [Concurrent] gives
    the same functions with their [await]s, and the lemmas
    [uninterrupted_...] show that their uninterrupted run is the function
    given here. *)
Module Bot.

(** The body posted to [/api/v1/orders] by [openMarketOrder] and
    [closeMarketOrder] of kucoin.service.js (the random [clientOid], the
    constant [type: 'market'] and the margin mode are left out).  The
    leverage is the number whose [toString()] is posted. *)
Record Order := {
  order_symbol : JsString;
  order_side : JsString;
  order_leverage : Float64.double;
  order_size : value;
  closeOrder : bool
}.

(** The errors that reach a [catch] of the orchestrator. *)
Inductive Failure :=
| VenueError (message : JsString)
| SizingError (e : Risk.RiskError)
| MarginError (requiredMargin : Float64.double) (balance : value)
| TypeError.

(** The messages sent to the channel. *)
Inductive Notice :=
| SignalIgnored (symbol direction : JsString)
    (reason : Orchestrator.Reason) (info : Orchestrator.Info)
| ClosingFailed (symbol : JsString) (error : Failure)
| SignalFailed (signal : TelegramExit.ParsedSignal) (error : Failure).

(** What the venue answers while a position is opened or closed: [inl] is
    a rejected promise.  The answer to an order is the order id. *)
Record Exchange := {
  getUSDTBalance : JsString + value;
  getCurrentPrice : JsString -> JsString + value;
  getSymbolInfo : JsString -> JsString + Risk.SymbolInfo;
  postOrder : Order -> JsString + JsString
}.

(** The state the orchestrator works on, with the orders posted to the
    venue and the messages sent to the channel.  The lines of the logger
    are not kept. *)
Record Desk := {
  world : Orchestrator.World;
  orders : list Order;
  notices : list Notice
}.

Definition statistics (d : Desk) : Orchestrator.Statistics :=
  Orchestrator.statistics (world d).

Definition positions (d : Desk) : PositionService.Service :=
  Orchestrator.positions (world d).

Definition with_world (f : Orchestrator.World -> Orchestrator.World)
    (d : Desk) : Desk :=
  {| world := f (world d); orders := orders d; notices := notices d |}.

(** A method of the position service, run on the ledger of the desk. *)
Definition on_positions {A} (c : PositionService.M A) (d : Desk) : Desk :=
  with_world
    (fun w => {| Orchestrator.statistics := Orchestrator.statistics w;
                 Orchestrator.positions :=
                   PositionService.exec c (Orchestrator.positions w);
                 Orchestrator.calls := Orchestrator.calls w |}) d.

Definition with_statistics
    (f : Orchestrator.Statistics -> Orchestrator.Statistics) (d : Desk)
  : Desk :=
  with_world
    (fun w => {| Orchestrator.statistics := f (Orchestrator.statistics w);
                 Orchestrator.positions := Orchestrator.positions w;
                 Orchestrator.calls := Orchestrator.calls w |}) d.

(** [statistics.totalTrades++; statistics.dailyTrades++] *)
Definition count_trade : Desk -> Desk :=
  with_statistics
    (fun st =>
       {| Orchestrator.totalTrades := Orchestrator.totalTrades st + 1;
          Orchestrator.winTrades := Orchestrator.winTrades st;
          Orchestrator.loseTrades := Orchestrator.loseTrades st;
          Orchestrator.totalProfit := Orchestrator.totalProfit st;
          Orchestrator.startBalance := Orchestrator.startBalance st;
          Orchestrator.currentBalance := Orchestrator.currentBalance st;
          Orchestrator.dailyTrades := Orchestrator.dailyTrades st + 1;
          Orchestrator.signalsIgnored := Orchestrator.signalsIgnored st;
          Orchestrator.totalSignals := Orchestrator.totalSignals st;
          Orchestrator.lastResetDate := Orchestrator.lastResetDate st |}).

(** [statistics.totalSignals++] *)
Definition count_signal : Desk -> Desk :=
  with_statistics
    (fun st =>
       {| Orchestrator.totalTrades := Orchestrator.totalTrades st;
          Orchestrator.winTrades := Orchestrator.winTrades st;
          Orchestrator.loseTrades := Orchestrator.loseTrades st;
          Orchestrator.totalProfit := Orchestrator.totalProfit st;
          Orchestrator.startBalance := Orchestrator.startBalance st;
          Orchestrator.currentBalance := Orchestrator.currentBalance st;
          Orchestrator.dailyTrades := Orchestrator.dailyTrades st;
          Orchestrator.signalsIgnored := Orchestrator.signalsIgnored st;
          Orchestrator.totalSignals := Orchestrator.totalSignals st + 1;
          Orchestrator.lastResetDate := Orchestrator.lastResetDate st |}).

(** [statistics.signalsIgnored++] *)
Definition count_ignored : Desk -> Desk :=
  with_statistics
    (fun st =>
       {| Orchestrator.totalTrades := Orchestrator.totalTrades st;
          Orchestrator.winTrades := Orchestrator.winTrades st;
          Orchestrator.loseTrades := Orchestrator.loseTrades st;
          Orchestrator.totalProfit := Orchestrator.totalProfit st;
          Orchestrator.startBalance := Orchestrator.startBalance st;
          Orchestrator.currentBalance := Orchestrator.currentBalance st;
          Orchestrator.dailyTrades := Orchestrator.dailyTrades st;
          Orchestrator.signalsIgnored := Orchestrator.signalsIgnored st + 1;
          Orchestrator.totalSignals := Orchestrator.totalSignals st;
          Orchestrator.lastResetDate := Orchestrator.lastResetDate st |}).

(** [telegramService.sendMessage(channelId, text)]; whether the message
    is delivered changes a log line only. *)
Definition sendMessage (n : Notice) (d : Desk) : Desk :=
  {| world := world d; orders := orders d; notices := notices d ++ [n] |}.

Section Orchestration.

Context `{Helpers}.
Variable config : Settings.Config.

(** [config.trading.dryRun] *)
Variable dryRun : bool.

(** [Date.now()] and the decimal form of a number in a string. *)
Variable now : Z.
Variable toString : Z -> JsString.

(** Whether the text of a rejection contains the given words. *)
Variable reason_includes : JsString -> Orchestrator.Reason -> bool.

Variable exchange : Exchange.

(** [_post('/api/v1/orders', orderData)] *)
Definition post (orderData : Order) (d : Desk) : (Failure + JsString) * Desk :=
  let d := {| world := world d; orders := orders d ++ [orderData];
              notices := notices d |} in
  match postOrder exchange orderData with
  | inl message => (inl (VenueError message), d)
  | inr orderId => (inr orderId, d)
  end.

(** [openMarketOrder(symbol, side, quantity, leverage)], called with the
    quantity of a plan; [side] is one of the lower-case words buy and sell,
    which [toLowerCase] leaves as they are. *)
Definition openMarketOrder (symbol side : JsString)
    (quantity leverage : Float64.double)
  : Desk -> (Failure + JsString) * Desk :=
  post {| order_symbol := symbol; order_side := side;
          order_leverage := leverage;
          order_size := Float64.to_value (Float64.floor quantity);
          closeOrder := false |}.

(** [closeMarketOrder(symbol, closeSide, quantity, leverage)], called
    with the quantity of a tracked position. *)
Definition closeMarketOrder (symbol closeSide : JsString) (quantity : value)
    (leverage : Float64.double) : Desk -> (Failure + JsString) * Desk :=
  post {| order_symbol := symbol; order_side := closeSide;
          order_leverage := leverage; order_size := js_floor quantity;
          closeOrder := true |}.

(** [openPosition(signal)].  Its [catch] logs and throws the error again;
    [setLeverage] logs and returns.  The balance and the price are the
    numbers that the venue service returns; the sizing computes with them
    in binary64, and the numbers of the plan go to the ledger. *)
Definition openPosition (signal : Telegram.Signal) (d : Desk)
  : (Failure + unit) * Desk :=
  let symbol := Telegram.symbol signal in
  let direction := Telegram.direction signal in
  let timestamp := Telegram.timestamp signal in
  match getUSDTBalance exchange with
  | inl message => (inl (VenueError message), d)
  | inr balance =>
      let d := with_world (Orchestrator.set_currentBalance balance) d in
      match getCurrentPrice exchange symbol with
      | inl message => (inl (VenueError message), d)
      | inr currentPrice =>
          match getSymbolInfo exchange symbol with
          | inl message => (inl (VenueError message), d)
          | inr symbolInfo =>
              match Risk.calculatePositionParameters config
                      (Float64.of_value balance)
                      (Float64.of_value currentPrice)
                      direction symbolInfo with
              | inl e => (inl (SizingError e), d)
              | inr positionParams =>
                  if negb (Risk.hasSufficientBalance
                             (Float64.of_value balance)
                             (Float64.Number
                                (Risk.requiredMargin positionParams)))
                  then (inl (MarginError
                               (Risk.requiredMargin positionParams) balance),
                        d)
                  else
                    let positionData orderId :=
                      {| PositionService.symbol := symbol;
                         PositionService.direction := direction;
                         PositionService.entryPrice :=
                           Float64.to_value
                             (Risk.entryPrice positionParams);
                         PositionService.quantity :=
                           Float64.to_value (Risk.quantity positionParams);
                         PositionService.orderId := orderId;
                         PositionService.timestamp :=
                           Num (inject_Z timestamp);
                         PositionService.positionSizeUSDT :=
                           Float64.to_value
                             (Risk.positionSizeUSDT positionParams) |} in
                    if dryRun then
                      let d :=
                        on_positions
                          (PositionService.addOpenPosition now
                             (positionData (js "DRY_RUN_" ++ toString now)))
                          d in
                      (inr tt, count_trade d)
                    else
                      let side := if str_eqb direction Telegram.LONG
                                  then js "buy" else js "sell" in
                      match openMarketOrder symbol side
                              (Risk.quantity positionParams)
                              (Settings.leverage config) d with
                      | (inl error, d) => (inl error, d)
                      | (inr orderId, d) =>
                          let d :=
                            on_positions
                              (PositionService.addOpenPosition now
                                 (positionData orderId)) d in
                          (inr tt, count_trade d)
                      end
              end
          end
      end
  end.

(** [closePosition(signal)], which reads the symbol of the signal only.
    Reading a field of the [undefined] that [getOpenPosition] returns for
    an absent symbol is a TypeError. *)
Definition closePosition (symbol : JsString) (d : Desk)
  : (Failure + unit) * Desk :=
  let body :=
    if negb (PositionService.hasOpenPosition symbol (positions d))
    then (inr tt, d)
    else
      match PositionService.getOpenPosition symbol (positions d) with
      | None => (inl TypeError, d)
      | Some trackedPosition =>
          if dryRun then
            (inr tt,
             on_positions (PositionService.removeOpenPosition symbol) d)
          else
            let closeSide :=
              if str_eqb (PositionService.direction trackedPosition)
                   Telegram.LONG
              then js "sell" else js "buy" in
            match closeMarketOrder symbol closeSide
                    (PositionService.quantity trackedPosition)
                    (Settings.leverage config) d with
            | (inr closeResult, d) => (inr tt, d)
            | (inl error, d) => (inl error, d)
            end
      end in
  match body with
  | (inr _, d) => (inr tt, d)
  | (inl error, d) =>
      (inl error,
       if dryRun then d else sendMessage (ClosingFailed symbol error) d)
  end.

Variable time : Orchestrator.TimeService.

(** What the venue answers during the validation of the signal. *)
Variable venue : Orchestrator.Venue.

(** The [catch] of [handleSignal]. *)
Definition report (signal : TelegramExit.ParsedSignal)
    (r : (Failure + unit) * Desk) : Desk :=
  match r with
  | (inr _, d) => d
  | (inl error, d) =>
      if dryRun then d else sendMessage (SignalFailed signal error) d
  end.

(** [handleSignal(signal)].  The [type] of the object is its constructor:
    the parser builds ENTRY objects with type OPEN and EXIT objects with
    type CLOSE, and nothing else builds a signal. *)
Definition handleSignal (signal : TelegramExit.ParsedSignal) (d : Desk)
  : Desk :=
  let d := count_signal d in
  match signal with
  | TelegramExit.Entry entry =>
      match Orchestrator.validateSignal config time venue entry (world d) with
      | (Orchestrator.Rejected reason info, w) =>
          let d := with_world (fun _ => w) d in
          let d := if dryRun then d
                   else sendMessage
                          (SignalIgnored (Telegram.symbol entry)
                             (Telegram.direction entry) reason info) d in
          if reason_includes (js "trading hours") reason
          then count_ignored d else d
      | (Orchestrator.Accepted, w) =>
          report signal (openPosition entry (with_world (fun _ => w) d))
      end
  | TelegramExit.Exit exit =>
      report signal (closePosition (TelegramExit.exit_symbol exit) d)
  end.

End Orchestration.

(** A count is within a limit; a limit that is NaN limits nothing. *)
Definition within (l : Settings.limit) (n : Z) : Prop :=
  match l with
  | Settings.Count z => (n <= z)%Z
  | Settings.NotANumber => True
  end.

(** The limits of the configuration hold on the desk. *)
Definition within_limits (config : Settings.Config) (d : Desk) : Prop :=
  within (Settings.maxOpenPositions config)
    (Z.of_nat (PositionService.getOpenPositionsCount (positions d)))
  /\ within (Settings.maxDailyTrades config)
       (Orchestrator.dailyTrades (statistics d)).

End Bot.

(* ===================================================================== *)
(** ** Vocabulary and inputs of the properties of the orchestrator *)
(* ===================================================================== *)

Module BotFacts.

Import Bot.

(** The ledger entry that [openPosition] hands to [addOpenPosition]. *)
Definition positionData (signal : Telegram.Signal)
    (plan : Risk.PositionParams) (orderId : JsString)
  : PositionService.Position :=
  {| PositionService.symbol := Telegram.symbol signal;
     PositionService.direction := Telegram.direction signal;
     PositionService.entryPrice := Float64.to_value (Risk.entryPrice plan);
     PositionService.quantity := Float64.to_value (Risk.quantity plan);
     PositionService.orderId := orderId;
     PositionService.timestamp := Num (inject_Z (Telegram.timestamp signal));
     PositionService.positionSizeUSDT :=
       Float64.to_value (Risk.positionSizeUSDT plan) |}.

(** The order that opens a position for a signal and a plan. *)
Definition entry_order (config : Settings.Config) (signal : Telegram.Signal)
    (plan : Risk.PositionParams) : Order :=
  {| order_symbol := Telegram.symbol signal;
     order_side := if str_eqb (Telegram.direction signal) Telegram.LONG
                   then js "buy" else js "sell";
     order_leverage := Settings.leverage config;
     order_size := Float64.to_value (Float64.floor (Risk.quantity plan));
     closeOrder := false |}.

(** The order that closes the tracked position of a symbol. *)
Definition exit_order (config : Settings.Config) (symbol : JsString)
    (tracked : PositionService.Position) : Order :=
  {| order_symbol := symbol;
     order_side := if str_eqb (PositionService.direction tracked)
                        Telegram.LONG
                   then js "sell" else js "buy";
     order_leverage := Settings.leverage config;
     order_size := js_floor (PositionService.quantity tracked);
     closeOrder := true |}.

(** A venue with a balance of 1000 that quotes 10 for every contract and
    accepts every order. *)
Definition exchange0 : Exchange :=
  {| getUSDTBalance := inr (Num 1000);
     getCurrentPrice := fun _ => inr (Num 10);
     getSymbolInfo := fun _ => inr Examples.info_e2e;
     postOrder := fun _ => inr (js "order-9") |}.

(** A venue that turns every order down. *)
Definition exchange_down : Exchange :=
  {| getUSDTBalance := inr (Num 1000);
     getCurrentPrice := fun _ => inr (Num 10);
     getSymbolInfo := fun _ => inr Examples.info_e2e;
     postOrder := fun _ => inl (js "Service unavailable") |}.

(** The desk of the evening, with TAKEUSDTM open. *)
Definition desk0 : Desk :=
  {| world := OrchestratorExamples.world0; orders := []; notices := [] |}.

(** An OPEN signal for a symbol that is not open. *)
Definition signal_bless : Telegram.Signal :=
  {| Telegram.type := Telegram.OPEN; Telegram.symbol := js "BLESSUSDTM";
     Telegram.direction := Telegram.SHORT; Telegram.lastPrice := Num 2;
     Telegram.fairPrice := Num 1; Telegram.spread := Num 5;
     Telegram.timestamp := 1700; Telegram.emoji := Telegram.GREEN |}.

(** Inside the trading window. *)
Definition day : Orchestrator.TimeService :=
  {| Orchestrator.isTradingHoursActive := true;
     Orchestrator.getTradingHoursInfo :=
       {| Orchestrator.currentHour := 12; Orchestrator.currentMinute := 0;
          Orchestrator.startHour := 8; Orchestrator.endHour := 20;
          Orchestrator.nextTradingIn := [] |} |}.

(** Number to string and the reading of a reason, for the examples. *)
Definition toString0 (z : Z) : JsString := js "0".

Definition reason_includes0 (words : JsString) (r : Orchestrator.Reason)
  : bool :=
  match r with
  | Orchestrator.OutsideTradingHours => true
  | _ => false
  end.

End BotFacts.

(* ===================================================================== *)
(** ** index.js: the handlers with their [await]s *)
(* ===================================================================== *)

(** [handleSignal] and the functions it calls are [async]: each runs until
    its next [await], where the event loop may run something else on the
    same [statistics] and the same ledger before it resumes the function.
    The handler of a channel post is neither awaited nor queued by
    [setupMessageHandler], so the handlers of two posts can take turns.

    Every [await] of the source is a point of suspension here.  For an
    [await] on a call that settles without a request to the venue, the
    event loop resumes the function before it takes the next post; the
    model does not tell that case from a reply of the venue, so among its
    schedules are some that the event loop never produces.  The interleaved
    run of property X24 suspends each handler at requests to the venue
    only. *)
Module Concurrent.

Import Bot.

(** What an [async] call has come to: it has returned or thrown, or it is
    suspended at an [await] and holds what it does when it is resumed, on
    the desk as it is then.  A turn leaves a desk and a promise. *)
Inductive Promise (A : Type) : Type :=
| Settled (r : Failure + A)
| Pending (resume : Desk -> Turn A)
with Turn (A : Type) : Type :=
| Then (d : Desk) (p : Promise A).

Arguments Settled {A} r.
Arguments Pending {A} resume.
Arguments Then {A} d p.

(** An [async] function, called: its first turn. *)
Definition Async (A : Type) : Type := Desk -> Turn A.

(** [return a] and [throw e] *)
Definition returns {A} (a : A) : Async A := fun d => Then d (Settled (inr a)).
Definition throws {A} (e : Failure) : Async A :=
  fun d => Then d (Settled (inl e)).

(** [await p], then [k] on what [p] settles to: the continuation is a turn
    of its own, also when [p] is settled already. *)
Fixpoint await {A B} (p : Promise A) (k : Failure + A -> Async B)
  : Promise B :=
  match p with
  | Settled r => Pending (k r)
  | Pending resume =>
      Pending (fun d => let 'Then d' p' := resume d in Then d' (await p' k))
  end.

(** [await f(...)] for an [async] function [f] of the orchestrator, in a
    [try] whose [catch] is part of [k]. *)
Definition call {A B} (f : Async A) (k : Failure + A -> Async B) : Async B :=
  fun d => let 'Then d' p := f d in Then d' (await p k).

(** [await] on a request to the venue or to Telegram, which is under way
    when the turn ends: the function goes on with [k] when the reply is
    there. *)
Definition reply {B} (d : Desk) (k : Async B) : Turn B := Then d (Pending k).

(** The run of a promise that nothing interrupts. *)
Fixpoint settle {A} (p : Promise A) (d : Desk) : (Failure + A) * Desk :=
  match p with
  | Settled r => (r, d)
  | Pending resume => let 'Then d' p' := resume d in settle p' d'
  end.

(** The run of a call that nothing interrupts. *)
Definition run {A} (f : Async A) (d : Desk) : (Failure + A) * Desk :=
  let 'Then d' p := f d in settle p d'.

Section Handlers.

Context `{Helpers}.
Variable config : Settings.Config.
Variable dryRun : bool.
Variable now : Z.
Variable toString : Z -> JsString.
Variable reason_includes : JsString -> Orchestrator.Reason -> bool.
Variable exchange : Exchange.
Variable time : Orchestrator.TimeService.
Variable venue : Orchestrator.Venue.

(** [validateSignal(signal)]: gates 1 to 7 run in the turn of the call,
    gates 8 and 9 each after a request to the venue. *)
Definition validateSignal (signal : Telegram.Signal)
  : Async Orchestrator.Validation :=
  fun d =>
    let symbol := Telegram.symbol signal in
    let direction := Telegram.direction signal in
    let spread := Telegram.spread signal in
    let minSpreadPercent := Settings.minSpreadPercent config in
    let rejected reason info : Async Orchestrator.Validation :=
      returns (Orchestrator.Rejected reason info) in
    (* 1 *)
    if js_gt minSpreadPercent (Num 0)
       && (negb (truthy spread) || js_lt spread minSpreadPercent)
    then rejected (Orchestrator.SpreadBelowMinimum spread minSpreadPercent)
           (Orchestrator.SpreadInfo spread minSpreadPercent) d
    (* 2 *)
    else if isSymbolBlocked symbol
              (Orchestrator.join (js ",") (Settings.blockedSymbols config))
    then rejected (Orchestrator.SymbolBlocked symbol) Orchestrator.NoInfo d
    (* 3 *)
    else if negb (str_eqb direction Telegram.LONG)
            && negb (str_eqb direction Telegram.SHORT)
    then rejected (Orchestrator.InvalidDirection direction)
           Orchestrator.NoInfo d
    (* 4 *)
    else if negb (Orchestrator.isTradingHoursActive time)
    then rejected Orchestrator.OutsideTradingHours
           (Orchestrator.TradingHoursInfo
              (Orchestrator.getTradingHoursInfo time)) d
    (* 5 *)
    else if PositionService.hasOpenPosition symbol (positions d)
    then rejected (Orchestrator.PositionExists symbol) Orchestrator.NoInfo d
    (* 6 *)
    else if Settings.reached (Settings.maxOpenPositions config)
              (Z.of_nat (PositionService.getOpenPositionsCount (positions d)))
    then rejected
           (Orchestrator.MaxOpenPositionsReached
              (Settings.maxOpenPositions config)) Orchestrator.NoInfo d
    (* 7 *)
    else if Settings.reached (Settings.maxDailyTrades config)
              (Orchestrator.dailyTrades (statistics d))
    then rejected
           (Orchestrator.MaxDailyTradesReached
              (Settings.maxDailyTrades config)) Orchestrator.NoInfo d
    else
      (* 8 *)
      reply (with_world (Orchestrator.request Orchestrator.BalanceRequest) d)
        (fun d =>
           match Orchestrator.getUSDTBalance venue with
           | inl message =>
               rejected (Orchestrator.ErrorCheckingBalance message)
                 Orchestrator.NoInfo d
           | inr balance =>
               let d :=
                 with_world (Orchestrator.set_currentBalance balance) d in
               if js_le balance (Num 0)
               then rejected Orchestrator.InsufficientBalance
                      Orchestrator.NoInfo d
               else
                 (* 9 *)
                 reply
                   (with_world
                      (Orchestrator.request
                         (Orchestrator.SymbolInfoRequest symbol)) d)
                   (fun d =>
                      match Orchestrator.getSymbolInfo venue symbol with
                      | inl message =>
                          rejected
                            (Orchestrator.SymbolNotFound symbol message)
                            Orchestrator.NoInfo d
                      | inr symbolInfo =>
                          if negb (str_eqb (Risk.status symbolInfo)
                                     (js "Open"))
                          then rejected
                                 (Orchestrator.SymbolNotTrading symbol)
                                 Orchestrator.NoInfo d
                          else returns Orchestrator.Accepted d
                      end)
           end).

(** [openPosition(signal)]: three requests to the venue, the sizing, then
    in live mode the [await] on [setLeverage] and the order. *)
Definition openPosition (signal : Telegram.Signal) : Async unit :=
  fun d =>
    let symbol := Telegram.symbol signal in
    let direction := Telegram.direction signal in
    let timestamp := Telegram.timestamp signal in
    reply d (fun d =>
      match getUSDTBalance exchange with
      | inl message => throws (VenueError message) d
      | inr balance =>
          let d := with_world (Orchestrator.set_currentBalance balance) d in
          reply d (fun d =>
            match getCurrentPrice exchange symbol with
            | inl message => throws (VenueError message) d
            | inr currentPrice =>
                reply d (fun d =>
                  match getSymbolInfo exchange symbol with
                  | inl message => throws (VenueError message) d
                  | inr symbolInfo =>
                      match Risk.calculatePositionParameters config
                              (Float64.of_value balance)
                              (Float64.of_value currentPrice)
                              direction symbolInfo with
                      | inl e => throws (SizingError e) d
                      | inr positionParams =>
                          if negb (Risk.hasSufficientBalance
                                     (Float64.of_value balance)
                                     (Float64.Number
                                        (Risk.requiredMargin
                                           positionParams)))
                          then throws
                                 (MarginError
                                    (Risk.requiredMargin positionParams)
                                    balance) d
                          else
                            let positionData orderId :=
                              {| PositionService.symbol := symbol;
                                 PositionService.direction := direction;
                                 PositionService.entryPrice :=
                                   Float64.to_value
                                     (Risk.entryPrice positionParams);
                                 PositionService.quantity :=
                                   Float64.to_value
                                     (Risk.quantity positionParams);
                                 PositionService.orderId := orderId;
                                 PositionService.timestamp :=
                                   Num (inject_Z timestamp);
                                 PositionService.positionSizeUSDT :=
                                   Float64.to_value
                                     (Risk.positionSizeUSDT
                                        positionParams) |} in
                            let opened orderId : Async unit :=
                              fun d =>
                                returns tt
                                  (count_trade
                                     (on_positions
                                        (PositionService.addOpenPosition now
                                           (positionData orderId)) d)) in
                            if dryRun
                            then opened (js "DRY_RUN_" ++ toString now) d
                            else
                              (* await setLeverage(...) *)
                              reply d (fun d =>
                                let side :=
                                  if str_eqb direction Telegram.LONG
                                  then js "buy" else js "sell" in
                                let orderData :=
                                  {| order_symbol := symbol;
                                     order_side := side;
                                     order_leverage :=
                                       Settings.leverage config;
                                     order_size :=
                                       Float64.to_value
                                         (Float64.floor
                                            (Risk.quantity positionParams));
                                     closeOrder := false |} in
                                reply
                                  {| world := world d;
                                     orders := orders d ++ [orderData];
                                     notices := notices d |}
                                  (fun d =>
                                     match postOrder exchange orderData with
                                     | inl message =>
                                         throws (VenueError message) d
                                     | inr orderId => opened orderId d
                                     end))
                      end
                  end)
            end)
      end).

(** [closePosition(signal)], which reads the symbol of the signal only. *)
Definition closePosition (symbol : JsString) : Async unit :=
  fun d =>
    let failed error : Async unit :=
      fun d =>
        if dryRun then throws error d
        else reply (sendMessage (ClosingFailed symbol error) d)
               (throws error) in
    if negb (PositionService.hasOpenPosition symbol (positions d))
    then returns tt d
    else
      match PositionService.getOpenPosition symbol (positions d) with
      | None => failed TypeError d
      | Some trackedPosition =>
          if dryRun
          then returns tt
                 (on_positions (PositionService.removeOpenPosition symbol) d)
          else
            let closeSide :=
              if str_eqb (PositionService.direction trackedPosition)
                   Telegram.LONG
              then js "sell" else js "buy" in
            let orderData :=
              {| order_symbol := symbol; order_side := closeSide;
                 order_leverage := Settings.leverage config;
                 order_size :=
                   js_floor (PositionService.quantity trackedPosition);
                 closeOrder := true |} in
            reply {| world := world d; orders := orders d ++ [orderData];
                     notices := notices d |}
              (fun d =>
                 match postOrder exchange orderData with
                 | inr closeResult => returns tt d
                 | inl message => failed (VenueError message) d
                 end)
      end.

(** [handleSignal(signal)], which catches what it is thrown. *)
Definition handleSignal (signal : TelegramExit.ParsedSignal) : Async unit :=
  fun d =>
    let caught (r : Failure + unit) : Async unit :=
      fun d =>
        match r with
        | inr _ => returns tt d
        | inl error =>
            if dryRun then returns tt d
            else reply (sendMessage (SignalFailed signal error) d)
                   (returns tt)
        end in
    let d := count_signal d in
    match signal with
    | TelegramExit.Entry entry =>
        call (validateSignal entry)
          (fun validation =>
             match validation with
             | inl error => caught (inl error)
             | inr (Orchestrator.Rejected reason info) =>
                 let ignored : Async unit :=
                   fun d =>
                     returns tt
                       (if reason_includes (js "trading hours") reason
                        then count_ignored d else d) in
                 if dryRun then ignored
                 else fun d =>
                        reply
                          (sendMessage
                             (SignalIgnored (Telegram.symbol entry)
                                (Telegram.direction entry) reason info) d)
                          ignored
             | inr Orchestrator.Accepted =>
                 call (openPosition entry) caught
             end) d
    | TelegramExit.Exit exit =>
        call (closePosition (TelegramExit.exit_symbol exit)) caught d
    end.

End Handlers.

(** What the event loop does next: it delivers the signal of a channel
    post, which starts a handler, or it resumes the handler that was
    started as number [i]. *)
Inductive Event :=
| Post (signal : TelegramExit.ParsedSignal)
| Resume (i : nat).

(** The desk and the handlers in progress, in the order of their start. *)
Definition State : Type := Desk * list (Promise unit).

Section Loop.

(** The handler that [onSignal] has registered. *)
Variable handler : TelegramExit.ParsedSignal -> Async unit.

Definition step (st : State) (e : Event) : State :=
  let '(d, pool) := st in
  match e with
  | Post signal => let 'Then d' p := handler signal d in (d', pool ++ [p])
  | Resume i =>
      match pool !! i with
      | Some (Pending resume) =>
          let 'Then d' p' := resume d in (d', <[i := p']> pool)
      | _ => (d, pool)
      end
  end.

Definition schedule (events : list Event) (st : State) : State :=
  fold_left step events st.

End Loop.

(** Every handler of the state has settled. *)
Definition all_settled (st : State) : bool :=
  forallb (fun p => match p with Settled _ => true | Pending _ => false end)
    (snd st).

End Concurrent.

(* ===================================================================== *)
(** ** Inputs of the interleaved run *)
(* ===================================================================== *)

Module ConcurrentExamples.

Import Concurrent.

(** One position at a time, one trade a day. *)
Definition config_one : Settings.Config :=
  {| Settings.leverage := Float64.of_Z 10;
     Settings.positionSizePercent := Float64.of_Z 5;
     Settings.minSpreadPercent := Undefined; Settings.blockedSymbols := [];
     Settings.maxDailyTrades := Settings.Count 1;
     Settings.maxOpenPositions := Settings.Count 1 |}.

(** The desk at the start of a day, with nothing open. *)
Definition desk_morning : Bot.Desk :=
  {| Bot.world :=
       {| Orchestrator.statistics :=
            {| Orchestrator.totalTrades := 0; Orchestrator.winTrades := 0;
               Orchestrator.loseTrades := 0;
               Orchestrator.totalProfit := Num 0;
               Orchestrator.startBalance := Num 1000;
               Orchestrator.currentBalance := Num 1000;
               Orchestrator.dailyTrades := 0;
               Orchestrator.signalsIgnored := 0;
               Orchestrator.totalSignals := 0;
               Orchestrator.lastResetDate := js "2026-01-01" |};
          Orchestrator.positions := PositionService.initial;
          Orchestrator.calls := [] |};
     Bot.orders := []; Bot.notices := [] |}.

(** An OPEN signal for a second symbol. *)
Definition signal_take : Telegram.Signal :=
  {| Telegram.type := Telegram.OPEN; Telegram.symbol := js "TAKEUSDTM";
     Telegram.direction := Telegram.LONG; Telegram.lastPrice := Num 2;
     Telegram.fairPrice := Num 1; Telegram.spread := Num 5;
     Telegram.timestamp := 1800; Telegram.emoji := Telegram.RED |}.

(** The handler of the live bot. *)
Definition handler : TelegramExit.ParsedSignal -> Async unit :=
  @handleSignal HelperLaws.usual config_one false 5 BotFacts.toString0
    BotFacts.reason_includes0 BotFacts.exchange0 BotFacts.day
    OrchestratorExamples.venue0.

(** Two posts arrive before the venue has answered the first handler; then
    the first handler runs to its end, then the second. *)
Definition two_posts : list Event :=
  [Post (TelegramExit.Entry BotFacts.signal_bless);
   Post (TelegramExit.Entry signal_take)]
  ++ repeat (Resume 0) 10 ++ repeat (Resume 1) 10.

(** The same two posts, the second after the first handler has ended. *)
Definition one_by_one : list Event :=
  [Post (TelegramExit.Entry BotFacts.signal_bless)]
  ++ repeat (Resume 0) 10
  ++ [Post (TelegramExit.Entry signal_take)]
  ++ repeat (Resume 1) 10.

End ConcurrentExamples.

(* ===================================================================== *)
(** ** kucoin.service.js: what is made of the answers of the venue *)
(* ===================================================================== *)

Module Kucoin.

(** An entry of [/api/v1/positions]; a numeric field holds the number of
    the JSON document, or is null or absent. *)
Record RawPosition := {
  raw_symbol : JsString;
  currentQty : value;
  avgEntryPrice : value;
  markPrice : value;
  raw_unrealisedPnl : value;
  realLeverage : value
}.

(** An element of the array returned by [getOpenPositions]. *)
Record OpenPosition := {
  symbol : JsString;
  side : JsString;
  size : value;
  entryPrice : value;
  position_markPrice : value;
  unrealisedPnl : value;
  leverage : value
}.

(** [parseFloat(x || d)] for a numeric field [x] and a default [d]. *)
Definition parseFloat_or (x : value) (d : Q) : value := Num (or_default x d).

(** [x !== 0] on the result of [parseFloat]. *)
Definition not_zero (v : value) : bool :=
  match v with
  | Num q => negb (Qeq_bool q 0)
  | _ => true
  end.

(** [Math.abs] *)
Definition js_abs (v : value) : value :=
  match toNumber v with
  | Some q => Num (Qabs q)
  | None => NaN
  end.

(** A string used as a condition: the empty string is falsy. *)
Definition given (symbol : option JsString) : option JsString :=
  match symbol with
  | Some (c :: s) => Some (c :: s)
  | _ => None
  end.

(** [getOpenPositions(symbol)] on the positions that the request
    returned. *)
Definition getOpenPositions (positions : list RawPosition)
    (symbol : option JsString) : list OpenPosition :=
  let filtered :=
    List.filter (fun pos => not_zero (parseFloat_or (currentQty pos) 0))
      positions in
  let filtered :=
    match given symbol with
    | Some symbol =>
        List.filter (fun pos => str_eqb (raw_symbol pos) symbol) filtered
    | None => filtered
    end in
  List.map
    (fun pos =>
       {| symbol := raw_symbol pos;
          side := if js_gt (PositionService.parseFloat_field (currentQty pos))
                       (Num 0)
                  then js "Buy" else js "Sell";
          size := js_abs (parseFloat_or (currentQty pos) 0);
          entryPrice := parseFloat_or (avgEntryPrice pos) 0;
          position_markPrice := parseFloat_or (markPrice pos) 0;
          unrealisedPnl := parseFloat_or (raw_unrealisedPnl pos) 0;
          leverage := parseFloat_or (realLeverage pos) 1 |})
    filtered.

(** [hasOpenPosition(symbol)] *)
Definition hasOpenPosition (positions : list RawPosition)
    (symbol : JsString) : bool :=
  negb (Nat.eqb (length (getOpenPositions positions (Some symbol))) 0).

(** The fields of a returned position that the position service reads. *)
Definition as_read (pos : OpenPosition) : PositionService.ExchangePosition :=
  {| PositionService.ex_symbol := symbol pos;
     PositionService.size_ := size pos;
     PositionService.unrealisedPnl := unrealisedPnl pos |}.

(** [getTradeHistory(symbol)] on the orders that the request returned. *)
Definition getTradeHistory (orders : list PositionService.Fill)
    (symbol : option JsString) : list PositionService.Fill :=
  match given symbol with
  | Some symbol =>
      List.filter (fun order => str_eqb (PositionService.fill_symbol order)
                                  symbol) orders
  | None => orders
  end.

(** An entry of [/api/v1/contracts/active]. *)
Record Contract := {
  contract_symbol : JsString;
  contract_lotSize : value;
  contract_multiplier : value;
  contract_minOrderQty : value;
  contract_maxOrderQty : value;
  contract_status : JsString
}.

(** [parseFloat(x)] for a numeric field [x] of the JSON document, as a
    number of JavaScript: the number itself, NaN for a field that is null or
    absent. *)
Definition parseFloat_number (x : value) : Float64.double :=
  match Float64.of_value x with
  | Float64.Number n => n
  | _ => Float64.nan
  end.

(** [getSymbolInfo(symbol)] on the contracts that the request returned,
    with the fields that the sizing and the validation read; [inl] is the
    message of the error thrown.  [parseFloat(x || d)] is [x || d], a
    number that is not zero. *)
Definition getSymbolInfo (contracts : list Contract) (symbol : JsString)
  : JsString + Risk.SymbolInfo :=
  match List.find (fun c => str_eqb (contract_symbol c) symbol) contracts with
  | None => inl (js "Contract " ++ symbol ++ js " not found")
  | Some contract =>
      inr {| Risk.multiplier :=
               Float64.Number (parseFloat_number (contract_multiplier contract));
             Risk.lotSize :=
               Float64.Number (parseFloat_number (contract_lotSize contract));
             Risk.minOrderQty :=
               Float64.Number
                 (Float64.or_else
                    (Float64.of_value (contract_minOrderQty contract))
                    (Float64.of_Z 1));
             Risk.maxOrderQty :=
               Float64.Number
                 (Float64.or_else
                    (Float64.of_value (contract_maxOrderQty contract))
                    (Float64.of_Z 1000000));
             Risk.status := contract_status contract |}
  end.

(** Positions of the venue: a long one, a flat one and a short one. *)
Definition raw_take : RawPosition :=
  {| raw_symbol := js "TAKEUSDTM"; currentQty := Num 500;
     avgEntryPrice := Num 10; markPrice := Num 11;
     raw_unrealisedPnl := Num 5; realLeverage := Num 10 |}.

Definition raw_flat : RawPosition :=
  {| raw_symbol := js "BLESSUSDTM"; currentQty := Num 0;
     avgEntryPrice := Num 0; markPrice := Num 2;
     raw_unrealisedPnl := Undefined; realLeverage := Undefined |}.

Definition raw_short : RawPosition :=
  {| raw_symbol := js "XBTUSDTM"; currentQty := Num (-3);
     avgEntryPrice := Num 60000; markPrice := Num 59000;
     raw_unrealisedPnl := Num 30; realLeverage := Num 5 |}.

(** A contract as the venue lists it when its minimum is not set. *)
Definition contract_take : Contract :=
  {| contract_symbol := js "TAKEUSDTM"; contract_lotSize := Num 1;
     contract_multiplier := Num (1 # 100); contract_minOrderQty := Num 0;
     contract_maxOrderQty := Null; contract_status := js "Open" |}.

End Kucoin.

(* ===================================================================== *)
(** * Properties *)
(* ===================================================================== *)

(** ** The string model at work *)

(** The two colour markers are surrogate pairs that share their first code
    unit, D83D; the pointing hands and the siren start with it too. *)
Example marker_code_units :
  Telegram.RED = [55357; 56628]%N /\ Telegram.GREEN = [55357; 57314]%N
  /\ Telegram.POINT_RIGHT = [55357; 56393]%N
  /\ js "🚨" = [55357; 57000]%N.
Proof. repeat split. Qed.

(** The symbol and the spread of the alert of the doc comment. *)
Example sample_symbol_and_spread :
  Telegram.group1 <$> jsmatch Telegram.symbolRe Telegram.sample_new
    = Some (js "TAKEUSDTM")
  /\ Telegram.group1 <$> jsmatch Telegram.spreadRe Telegram.sample_new
      = Some (js "5.06").
Proof. split; vm_compute; reflexivity. Qed.

(** A label matches in any letter case, the group takes the longest run
    of digits and dots, and [parseFloat] reads its leading number. *)
Example label_ignores_case :
  Telegram.group1 <$> jsmatch Telegram.lastRe_new (js "x LAST:   1.25.7 y")
    = Some (js "1.25.7")
  /\ Telegram.group1 <$> jsmatch Telegram.lastRe_old (js "ПОСЛЕДНЯЯ ЦЕНА: 7")
      = Some (js "7")
  /\ parseFloat (js "1.25.7") = Num (125 # 100)
  /\ parseFloat (js ".") = NaN.
Proof. repeat split; vm_compute; reflexivity. Qed.

(** Without the percent sign the spread pattern has no match, and a star
    gives back what the rest of the pattern needs. *)
Example spread_needs_percent :
  jsmatch Telegram.spreadRe (js "KuCoin - 5.06") = None
  /\ m0 <$> jsmatch {| atoms := [Star digit; Lit 55%N]; ignoreCase := false |}
              (js "a 1237") = Some (js "1237").
Proof. split; vm_compute; reflexivity. Qed.

(** ** The matcher finds only what the pattern describes *)

Section MatcherSoundness.

Variable ic : bool.

Lemma star_loop_sound p k s r :
  star_loop p k s = Some r ->
  exists run s2 r', forallb p run = true /\ s = run ++ s2
    /\ k s2 = Some r' /\ m0 r = run ++ m0 r' /\ m1 r = m1 r'.
Proof.
  revert r. induction s as [|x s IH]; intros r; cbn [star_loop].
  - intros Hr. by exists [], [], r.
  - destruct (p x) eqn:Hp.
    + destruct (star_loop p k s) as [r1|] eqn:E.
      * intros [= <-].
        destruct (IH r1 eq_refl) as (run & s2 & r' & ? & -> & ? & H1 & ?).
        exists (x :: run), s2, r'. cbn. rewrite Hp. cbn [andb].
        by rewrite H1.
      * intros Hr. by exists [], (x :: s), r.
    + intros Hr. by exists [], (x :: s), r.
Qed.

Lemma plus_loop_sound p k acc s r :
  plus_loop p k acc s = Some r ->
  exists run s2 r', forallb p run = true /\ s = run ++ s2
    /\ k s2 = Some r'
    /\ m0 r = (acc ++ run) ++ m0 r' /\ m1 r = Some (acc ++ run).
Proof.
  revert acc r. induction s as [|x s IH]; intros acc r; cbn [plus_loop].
  - destruct (k []) as [r'|] eqn:E; [|discriminate].
    intros [= <-]. exists [], [], r'. by rewrite (app_nil_r acc).
  - assert (capture acc <$> k (x :: s) = Some r ->
            exists run s2 r', forallb p run = true /\ x :: s = run ++ s2
              /\ k s2 = Some r'
              /\ m0 r = (acc ++ run) ++ m0 r' /\ m1 r = Some (acc ++ run))
      as Hstop.
    { destruct (k (x :: s)) as [r'|] eqn:E; [|discriminate].
      intros [= <-]. exists [], (x :: s), r'. by rewrite (app_nil_r acc). }
    destruct (p x) eqn:Hp; [|exact Hstop].
    destruct (plus_loop p k (acc ++ [x]) s) as [r1|] eqn:E; [|exact Hstop].
    intros [= <-].
    destruct (IH _ _ E) as (run & s2 & r' & ? & -> & ? & Hm & Hc).
    exists (x :: run), s2, r'. cbn. rewrite Hp.
    rewrite Hm, Hc, <- !app_assoc. by cbn.
Qed.

(** A match at the start of [s] is a prefix of [s] that the atoms match. *)
Lemma match_atoms_sound pat s r :
  match_atoms ic pat s = Some r ->
  (exists rest, s = m0 r ++ rest) /\ matches ic pat (m0 r) (m1 r).
Proof.
  revert s r. induction pat as [|a pat IH]; intros s r.
  - intros [= <-]. split; [by exists s | constructor].
  - destruct a as [c | p | p | p]; cbn [match_atoms].
    + destruct s as [|x s]; [discriminate|].
      destruct (unit_matches ic c x) eqn:Hc; [|discriminate].
      destruct (match_atoms ic pat s) as [r'|] eqn:E; [|discriminate].
      intros [= <-]. destruct (IH _ _ E) as [[rest ->] Hm].
      split; [by exists rest | by constructor].
    + destruct s as [|x s]; [discriminate|].
      destruct (p x) eqn:Hp; [|discriminate].
      destruct (match_atoms ic pat s) as [r'|] eqn:E; [|discriminate].
      intros [= <-]. destruct (IH _ _ E) as [[rest ->] Hm].
      split; [by exists rest | by constructor].
    + intros (run & s2 & r' & Hrun & -> & E & Hm0 & Hm1)%star_loop_sound.
      destruct (IH _ _ E) as [[rest ->] Hm]. rewrite Hm0, Hm1.
      split; [exists rest; by rewrite app_assoc | by constructor].
    + destruct s as [|x s]; [discriminate|].
      destruct (p x) eqn:Hp; [|discriminate].
      intros (run & s2 & r' & Hrun & -> & E & Hm0 & Hm1)%plus_loop_sound.
      destruct (IH _ _ E) as [[rest ->] Hm]. rewrite Hm0, Hm1.
      split.
      * exists rest. by rewrite <- !app_assoc.
      * apply matches_group with (cap := m1 r'); [done | | done].
        cbn. by rewrite Hp.
Qed.

(** [text.match] returns a piece of the text that the pattern matches. *)
Lemma jsmatch_atoms_sound pat text r :
  jsmatch_atoms ic pat text = Some r ->
  (exists before after, text = before ++ m0 r ++ after)
  /\ matches ic pat (m0 r) (m1 r).
Proof.
  induction text as [|x text IH]; cbn [jsmatch_atoms].
  - destruct (match_atoms ic pat []) as [r'|] eqn:E; [|discriminate].
    intros [= <-]. destruct (match_atoms_sound _ _ _ E) as [[rest Hr] Hm].
    split; [by exists [], rest | done].
  - destruct (match_atoms ic pat (x :: text)) as [r'|] eqn:E.
    + intros [= <-]. destruct (match_atoms_sound _ _ _ E) as [[rest Hr] Hm].
      split; [by exists [], rest | done].
    + intros [[before [after ->]] Hm]%IH.
      split; [by exists (x :: before), after | done].
Qed.

(** Leading literals match a copy of themselves, up to the letter case
    when the pattern ignores it. *)
Lemma matches_lits_inv l pat m cap :
  matches ic (lits l ++ pat) m cap ->
  exists lab m', Forall2 (fun c x => unit_matches ic c x = true) l lab
    /\ m = lab ++ m' /\ matches ic pat m' cap.
Proof.
  revert m. induction l as [|c l IH]; intros m; cbn [lits map app].
  - intros Hm. by exists [], m.
  - inversion 1 as [| ? ? x m1 ? Hc Hm | | |]; subst.
    destruct (IH _ Hm) as (lab & m' & Hl & -> & Hm').
    exists (x :: lab), m'. by repeat split; [constructor|..].
Qed.

End MatcherSoundness.

Lemma exact_literals l lab :
  Forall2 (fun c x => unit_matches false c x = true) l lab -> lab = l.
Proof.
  induction 1 as [|c x l lab Hc _ IH]; [done|].
  cbn in Hc. apply N.eqb_eq in Hc. by subst.
Qed.

(** A match of the symbol pattern is a symbol between the two hands. *)
Lemma symbol_match_sound text r :
  jsmatch Telegram.symbolRe text = Some r -> Telegram.has_symbol text.
Proof.
  intros [(before & after & ->) Hm]%jsmatch_atoms_sound.
  apply matches_lits_inv in Hm as (lab & m' & ->%exact_literals & Hr & Hm).
  inversion Hm as [| | | | ? ? sym m2 cap Hne Hsym Hm2]; subst.
  change (matches false (lits Telegram.POINT_LEFT ++ []) m2 cap) in Hm2.
  apply matches_lits_inv in Hm2 as (lab & m3 & ->%exact_literals & -> & Hm3).
  inversion Hm3; subst.
  exists before, sym, after. repeat split; [done | done |].
  rewrite Hr. by rewrite app_nil_r, <- !app_assoc.
Qed.

(** A match of a price-label pattern is that label followed by a number. *)
Lemma label_match_sound label text r :
  jsmatch (Telegram.labelRe label) text = Some r ->
  Telegram.has_label label text.
Proof.
  intros [(before & after & ->) Hm]%jsmatch_atoms_sound.
  apply matches_lits_inv in Hm as (lab & m' & Hlab & Hr & Hm).
  inversion Hm as [| | | ? ? ws m2 cap Hws Hm2 |]; subst.
  inversion Hm2 as [| | | | ? ? num m3 cap' Hne Hnum Hm3]; subst.
  inversion Hm3; subst.
  exists before, lab, ws, num, after. repeat split; try done.
  rewrite Hr. by rewrite app_nil_r, <- !app_assoc.
Qed.

(** ** The signal parser *)

Section ParserProperties.

Import Telegram.

Variable now : Z.
Variable _parseKuCoinTime : JsString -> Z.

(** A match of the marker class is one code unit long. *)
Lemma emoji_match_is_one_unit text r :
  jsmatch emojiRe text = Some r -> exists c, m0 r = [c].
Proof.
  unfold jsmatch; simpl.
  induction text as [|x text IH]; simpl; [discriminate|].
  destruct (bool_decide _); simpl.
  - intros [= <-]. by exists x.
  - exact IH.
Qed.

(** Hence it is neither of the two markers, which are surrogate pairs. *)
Lemma emoji_match_is_no_marker text r :
  jsmatch emojiRe text = Some r ->
  str_eqb (m0 r) RED = false /\ str_eqb (m0 r) GREEN = false.
Proof.
  intros [c ->]%emoji_match_is_one_unit.
  split; apply bool_decide_eq_false; discriminate.
Qed.

(** No text gets past the direction step. *)
Lemma parse_entry_returns_null text :
  exists w, _parseEntrySignal now _parseKuCoinTime text = inl w.
Proof.
  unfold _parseEntrySignal, entryFields.
  destruct (jsmatch symbolRe text); [|by eexists].
  destruct (lastPriceMatch text); [|by eexists].
  destruct (markPriceMatch text); [|by eexists].
  destruct (jsmatch emojiRe text) as [e|] eqn:He; [|by eexists].
  destruct (emoji_match_is_no_marker _ _ He) as [-> ->]. by eexists.
Qed.

End ParserProperties.

Section ParserClaims.

Import Telegram.

(** C4 (the code departs from the claim).  The doc comment of
    [_parseEntrySignal] and the claim both say that the direction of an
    ENTRY alert is read off its colour marker, one marker giving LONG and the
    other SHORT.  The marker is looked up with [/[🔴🟢]/], which has no [u]
    flag and so matches a single UTF-16 code unit; the string compared with
    the two markers is therefore one unit long and equals neither.  The two
    alerts of the doc comment end in the "unknown emoji" branch, and so does
    every text that reaches the direction step: no text is parsed into a
    signal. *)
Theorem C4_direction_is_never_resolved (now : Z) (pk : JsString -> Z) :
  (includes GREEN sample_new = true
   /\ _parseEntrySignal now pk sample_new = inl (UnknownEmoji [55357%N]))
  /\ (includes RED sample_old_red = true
      /\ _parseEntrySignal now pk sample_old_red
         = inl (UnknownEmoji [55357%N]))
  /\ forall text, returns_null (_parseEntrySignal now pk text).
Proof.
  split; [|split].
  - split; vm_compute; reflexivity.
  - split; vm_compute; reflexivity.
  - intros text. apply parse_entry_returns_null.
Qed.

(** C5.  [_parseEntrySignal] returns null whenever a required field is
    missing: the text has no symbol between the pointing hands, neither
    last-price label, neither fair-price label, or neither colour marker. *)
Theorem C5_missing_field_returns_null (now : Z) (pk : JsString -> Z)
    (text : JsString) :
  ~ has_symbol text
  \/ (~ has_label "Last:" text /\ ~ has_label "Последняя цена:" text)
  \/ (~ has_label "Mark:" text /\ ~ has_label "Справедливая:" text)
  \/ (includes RED text = false /\ includes GREEN text = false) ->
  returns_null (_parseEntrySignal now pk text).
Proof.
  assert (forall label, ~ has_label label text ->
                        jsmatch (labelRe label) text = None) as Hlabel.
  { intros label Hn. destruct (jsmatch _ text) eqn:E; [|done].
    by apply label_match_sound in E. }
  unfold returns_null, _parseEntrySignal, entryFields.
  intros [Hs | [[Hn Ho] | [[Hn Ho] | [Hr Hg]]]].
  - destruct (jsmatch symbolRe text) eqn:E; [|by eexists].
    by apply symbol_match_sound in E.
  - destruct (jsmatch symbolRe text); [|by eexists].
    unfold lastPriceMatch, lastRe_new, lastRe_old.
    rewrite (Hlabel _ Hn), (Hlabel _ Ho). by eexists.
  - destruct (jsmatch symbolRe text); [|by eexists].
    destruct (lastPriceMatch text); [|by eexists].
    unfold markPriceMatch, markRe_new, markRe_old.
    rewrite (Hlabel _ Hn), (Hlabel _ Ho). by eexists.
  - destruct (jsmatch symbolRe text); [|by eexists].
    destruct (lastPriceMatch text); [|by eexists].
    destruct (markPriceMatch text); [|by eexists].
    destruct (jsmatch emojiRe text) as [e|] eqn:He; [|by eexists].
    destruct (emoji_match_is_no_marker _ _ He) as [-> ->]. by eexists.
Qed.

Lemma C5_missing_field_returns_null_witness :
  returns_null (_parseEntrySignal 0 (fun _ => 0%Z) sample_no_marker).
Proof.
  apply (C5_missing_field_returns_null 0 (fun _ => 0%Z) sample_no_marker).
  right; right; right. split; vm_compute; reflexivity.
Defined.


End ParserClaims.


(** ** Risk sizing *)

(** *** Binary64 numbers *)

Section Float64Facts.

Import Float64.

Lemma compare_antisym (x y : double) :
  SpecFloat.SFcompare y x = CompOpp <$> SpecFloat.SFcompare x y.
Proof.
  destruct x as [sx | sx | | sx mx ex], y as [sy | sy | | sy my ey];
    cbn; try reflexivity; try (by destruct sx); try (by destruct sy);
    try (by destruct sx, sy).
  f_equal. rewrite (Z.compare_antisym ex ey).
  change (Pos.compare_cont Eq my mx) with (Pos.compare my mx).
  change (Pos.compare_cont Eq mx my) with (Pos.compare mx my).
  rewrite (Pos.compare_antisym mx my).
  destruct sx, sy; cbn; try reflexivity;
    destruct (ex ?= ey)%Z; cbn; try reflexivity;
    destruct (mx ?= my)%positive; reflexivity.
Qed.

Lemma ltb_irrefl (x : double) : ltb x x = false.
Proof.
  unfold ltb, SpecFloat.SFltb.
  destruct x as [s | s | | s m e]; cbn; try reflexivity; try (by destruct s).
  rewrite Z.compare_refl.
  change (Pos.compare_cont Eq m m) with (Pos.compare m m).
  rewrite Pos.compare_refl. by destruct s.
Qed.

Lemma ltb_asym (x y : double) : ltb x y = true -> ltb y x = false.
Proof.
  unfold ltb, SpecFloat.SFltb. rewrite (compare_antisym x y).
  by destruct (SpecFloat.SFcompare x y) as [[]|].
Qed.

Lemma leb_not_gtb (x y : double) : leb x y = true -> ltb y x = false.
Proof.
  unfold leb, ltb, SpecFloat.SFleb, SpecFloat.SFltb.
  rewrite (compare_antisym x y).
  by destruct (SpecFloat.SFcompare x y) as [[]|].
Qed.

Lemma compare_numbers (x y : double) :
  is_nan x = false -> is_nan y = false -> is_Some (SpecFloat.SFcompare x y).
Proof. destruct x, y; cbn; try discriminate; by eexists. Qed.

(** Two numbers, neither of them NaN, are ordered one way or the other. *)
Lemma not_ltb_leb (x y : double) :
  is_nan x = false -> is_nan y = false -> ltb y x = false -> leb x y = true.
Proof.
  intros Hx Hy. destruct (compare_numbers x y Hx Hy) as [c Hc].
  unfold leb, ltb, SpecFloat.SFleb, SpecFloat.SFltb.
  rewrite (compare_antisym x y), Hc. by destruct c.
Qed.

Lemma ltb_nan_l y : ltb nan y = false.
Proof. reflexivity. Qed.

Lemma ltb_nan_r x : ltb x nan = false.
Proof. by destruct x. Qed.


Lemma shr_exponent mrs e n : (e <= snd (SpecFloat.shr mrs e n))%Z.
Proof. destruct n; cbn; lia. Qed.

Lemma aligned_floor (x : double) : aligned x -> floor x = x.
Proof.
  destruct x as [s | s | | s m [|p|k]]; try done.
  cbn. intros ->. by rewrite Z.eqb_refl.
Qed.

(** Rounding a mantissa at an exponent that is not negative gives an
    exponent that is not negative. *)
Lemma aligned_round_aux sx mx ex lx :
  (0 <= ex)%Z ->
  aligned (SpecFloat.binary_round_aux prec emax sx mx ex lx).
Proof.
  intros Hex. unfold SpecFloat.binary_round_aux, SpecFloat.shr_fexp.
  match goal with
  | |- context [SpecFloat.shr ?r ex ?n] =>
      pose proof (shr_exponent r ex n) as H1;
      destruct (SpecFloat.shr r ex n) as [mrs1 e1]
  end.
  match goal with
  | |- context [SpecFloat.shr ?r e1 ?n] =>
      pose proof (shr_exponent r e1 n) as H2;
      destruct (SpecFloat.shr r e1 n) as [mrs2 e2]
  end.
  cbn [snd] in H1, H2.
  destruct (SpecFloat.shr_m mrs2); [done | | done].
  destruct (e2 <=? emax - prec)%Z; [|done].
  destruct e2; [done | done | lia].
Qed.

Lemma digits_iter_xO m k :
  SpecFloat.digits2_pos (Pos.iter xO m k)
  = (SpecFloat.digits2_pos m + k)%positive.
Proof.
  induction k as [|k IH] using Pos.peano_ind.
  - cbn. lia.
  - rewrite Pos.iter_succ. cbn [SpecFloat.digits2_pos]. rewrite IH. lia.
Qed.

Lemma iter_xO_shiftl m k : Zpos (Pos.iter xO m k) = Z.shiftl (Zpos m) (Zpos k).
Proof.
  rewrite Z.shiftl_mul_pow2 by lia.
  induction k as [|k IH] using Pos.peano_ind.
  - cbn. lia.
  - rewrite Pos.iter_succ, Pos2Z.inj_xO, IH, Pos2Z.inj_succ, Z.pow_succ_r by lia.
    lia.
Qed.

(** The number of an integer has an integer value. *)
Lemma of_Z_aligned (z : Z) : aligned (of_Z z).
Proof.
  unfold of_Z, SpecFloat.binary_normalize.
  assert (forall s m, aligned (SpecFloat.binary_round prec emax s m 0))
    as Hround.
  { intros s m. unfold SpecFloat.binary_round, SpecFloat.shl_align.
    set (d := SpecFloat.digits2_pos m).
    destruct (SpecFloat.fexp prec emax (Z.pos d + 0) - 0)%Z as [|p|k] eqn:Ek;
      [by apply aligned_round_aux | by apply aligned_round_aux |].
    (* fewer than 53 digits: the mantissa is shifted to 53 digits *)
    assert (Zneg k = Z.pos d - 53)%Z as Hk.
    { unfold SpecFloat.fexp, SpecFloat.emin, prec, emax in Ek. lia. }
    assert (SpecFloat.fexp prec emax (Z.pos d + 0) = Zneg k) as ->.
    { unfold SpecFloat.fexp, SpecFloat.emin, prec, emax in *. lia. }
    unfold SpecFloat.binary_round_aux, SpecFloat.shr_fexp.
    cbn [SpecFloat.Zdigits2]. rewrite digits_iter_xO. fold d.
    assert (SpecFloat.fexp prec emax (Z.pos (d + k) + Z.neg k) - Z.neg k = 0)%Z
      as ->.
    { unfold SpecFloat.fexp, SpecFloat.emin, prec, emax. lia. }
    cbn [SpecFloat.shr SpecFloat.shr_record_of_loc SpecFloat.shr_m
         SpecFloat.loc_of_shr_record SpecFloat.round_nearest_even
         SpecFloat.Zdigits2].
    rewrite digits_iter_xO. fold d.
    assert (SpecFloat.fexp prec emax (Z.pos (d + k) + Z.neg k) - Z.neg k = 0)%Z
      as ->.
    { unfold SpecFloat.fexp, SpecFloat.emin, prec, emax. lia. }
    cbn [SpecFloat.shr SpecFloat.shr_m].
    assert ((Z.neg k <=? emax - prec)%Z = true) as ->.
    { apply Z.leb_le. unfold emax, prec. lia. }
    unfold aligned. rewrite iter_xO_shiftl.
    by rewrite Z.shiftr_shiftl_l, Z.sub_diag, Z.shiftl_0_r by lia. }
  destruct z; [done | apply Hround | apply Hround].
Qed.

(** What [floor] returns has an integer value, or is NaN or an
    infinity. *)
Lemma floor_aligned (x : double) : aligned (floor x).
Proof.
  destruct x as [s | s | | s m [|p|k]]; try done.
  unfold floor. destruct (Z.shiftl _ _ =? _)%Z eqn:E.
  - by apply Z.eqb_eq.
  - apply of_Z_aligned.
Qed.

Lemma floor_of_Z (z : Z) : floor (of_Z z) = of_Z z.
Proof. apply aligned_floor, of_Z_aligned. Qed.

Lemma floor_idem (x : double) : floor (floor x) = floor x.
Proof. apply aligned_floor, floor_aligned. Qed.

Lemma Qred_inject_Z z : Qred (inject_Z z) = inject_Z z.
Proof.
  unfold Qred, inject_Z.
  pose proof (Z.ggcd_gcd z 1) as Hg.
  pose proof (Z.ggcd_correct_divisors z 1) as Hd.
  destruct (Z.ggcd z 1) as [g [a b]]. cbn [fst snd] in *.
  rewrite Z.gcd_1_r in Hg. subst g. destruct Hd as [Ha Hb].
  rewrite Z.mul_1_l in Ha, Hb. subst a. by rewrite <- Hb.
Qed.

Lemma shiftl_one k : Zpos (Pos.shiftl 1 (Npos k)) = (2 ^ Zpos k)%Z.
Proof.
  change (Pos.shiftl 1 (Npos k)) with (Pos.iter xO 1%positive k).
  rewrite iter_xO_shiftl, Z.shiftl_mul_pow2 by lia. lia.
Qed.

(** A finite number that [floor] leaves as it is is a whole number. *)
Lemma floor_fixed_whole (x : double) :
  floor x = x -> is_finite x = true -> RiskFacts.is_whole x.
Proof.
  intros Hx Hfin.
  assert (aligned x) as Ha by (rewrite <- Hx; apply floor_aligned).
  destruct x as [s | s | | s m [|p|k]]; try discriminate.
  - by exists 0%Z.
  - exists (if s then Zneg m else Zpos m). cbn.
    by rewrite Qred_inject_Z.
  - eexists. cbn [to_Q]. by rewrite Qred_inject_Z.
  - cbn in Ha. set (q := Z.shiftr (Zpos m) (Zpos k)) in Ha.
    exists (if s then (- q)%Z else q). cbn [to_Q]. f_equal.
    rewrite <- Qred_inject_Z. apply Qred_complete.
    unfold Qeq. cbn [Qnum Qden inject_Z]. rewrite shiftl_one.
    rewrite Z.shiftl_mul_pow2 in Ha by lia.
    destruct s; lia.
Qed.

End Float64Facts.

(** *** The sizing *)

Section RiskProperties.

Import Float64 Risk.

(** What [x || d] gives is a number that is neither NaN nor zero, when the
    default is one. *)
Lemma or_else_truthy v d : truthy d = true -> truthy (or_else v d) = true.
Proof.
  intros Hd. destruct v as [| |x]; cbn; try done.
  by destruct (truthy x) eqn:E.
Qed.

Lemma or_else_number x d : truthy x = true -> or_else (Number x) d = x.
Proof. intros Hx. cbn. by rewrite Hx. Qed.

Lemma truthy_number x : truthy x = true -> is_nan x = false /\ is_zero x = false.
Proof. unfold truthy. by destruct (is_nan x), (is_zero x). Qed.

Lemma compare_none x y :
  is_nan y = false -> SpecFloat.SFcompare x y = None -> x = nan.
Proof. by destruct x, y. Qed.

Lemma compare_eq_zero x y :
  SpecFloat.SFcompare x y = Some Eq -> is_zero x = true -> is_zero y = true.
Proof.
  destruct x as [s| | |]; try discriminate.
  destruct y as [s'|s'| |s' m e]; cbn; try done; by destruct s'.
Qed.

(** The [if] of the source on the minimum is [Math.max], and the one on
    the maximum is [Math.min], for bounds that are numbers other than
    zero. *)
Lemma if_below_max x lo :
  truthy lo = true -> (if ltb x lo then lo else x) = max x lo.
Proof.
  intros [Hn Hz]%truthy_number. unfold ltb, SpecFloat.SFltb, max.
  destruct (SpecFloat.SFcompare x lo) as [[]|] eqn:E; try done.
  - destruct x as [[]| | |]; try done.
    apply compare_eq_zero in E; [congruence | done].
  - by apply compare_none in E.
Qed.

Lemma if_above_min x hi :
  truthy hi = true -> (if gtb x hi then hi else x) = min x hi.
Proof.
  intros [Hn Hz]%truthy_number. unfold gtb, ltb, SpecFloat.SFltb, min.
  rewrite (compare_antisym x hi).
  destruct (SpecFloat.SFcompare x hi) as [[]|] eqn:E; cbn; try done.
  - destruct x as [[]| | |]; try done.
    apply compare_eq_zero in E; [congruence | done].
  - by apply compare_none in E.
Qed.

(** The two [if]s of the source compute the clamp. *)
Lemma two_ifs_clamp (x lo hi : double) :
  truthy lo = true -> truthy hi = true ->
  (let lots := if ltb x lo then lo else x in
   if gtb lots hi then hi else lots) = clamp x lo hi.
Proof.
  intros Hlo Hhi. cbv zeta. unfold clamp.
  by rewrite (if_below_max x lo Hlo), if_above_min.
Qed.

End RiskProperties.

Section RiskClaims.

Import Float64 Risk.

(** What the function does once its three input checks have passed. *)
Lemma calculate_valid_inputs config balance entryPrice d info :
  isValidNumber balance = true -> leb (to_number balance) zero = false ->
  isValidNumber entryPrice = true -> leb (to_number entryPrice) zero = false ->
  d = Telegram.LONG \/ d = Telegram.SHORT ->
  calculatePositionParameters config balance entryPrice d info =
    let b := to_number balance in
    let p := to_number entryPrice in
    let M := or_else (multiplier info) (of_Z 1) in
    let lo := or_else (minOrderQty info) (of_Z 1) in
    let hi := or_else (maxOrderQty info) (of_Z 1000000) in
    let lots :=
      floor (div (mul b (div (Settings.positionSizePercent config) (of_Z 100)))
               (mul p M)) in
    let lots := if ltb lots lo then lo else lots in
    let lots := if gtb lots hi then hi else lots in
    let margin := div (mul (mul lots p) M) (Settings.leverage config) in
    if gtb margin b then inl (InsufficientBalance margin b)
    else inr {| entryPrice := p; quantity := lots;
                positionSizeUSDT := mul (mul lots p) M;
                leverage := Settings.leverage config;
                requiredMargin := margin; direction := d;
                plan_multiplier := M |}.
Proof.
  intros Vb Lb Vp Lp Hd. unfold calculatePositionParameters.
  rewrite Vb, Lb, Vp, Lp. cbn [negb orb].
  assert (negb (str_eqb d Telegram.LONG) && negb (str_eqb d Telegram.SHORT)
          = false) as ->; [|reflexivity].
  unfold str_eqb. destruct Hd as [-> | ->].
  - by rewrite bool_decide_eq_true_2.
  - rewrite (bool_decide_eq_true_2 (Telegram.SHORT = Telegram.SHORT)) by done.
    apply andb_false_r.
Qed.

(** A plan is returned only for inputs that pass the three checks. *)
Lemma plan_implies_valid_inputs config balance entryPrice d info plan :
  calculatePositionParameters config balance entryPrice d info = inr plan ->
  isValidNumber balance = true /\ leb (to_number balance) zero = false
  /\ isValidNumber entryPrice = true
  /\ leb (to_number entryPrice) zero = false
  /\ (d = Telegram.LONG \/ d = Telegram.SHORT).
Proof.
  unfold calculatePositionParameters.
  destruct (isValidNumber balance); cbn [negb orb]; [|discriminate].
  destruct (leb (to_number balance) zero); [discriminate|].
  destruct (isValidNumber entryPrice); cbn [negb orb]; [|discriminate].
  destruct (leb (to_number entryPrice) zero); [discriminate|].
  unfold str_eqb.
  destruct (bool_decide_reflect (d = Telegram.LONG)) as [HL | HL];
    destruct (bool_decide_reflect (d = Telegram.SHORT)) as [HS | HS];
    cbn [negb andb]; try discriminate; intros _; repeat split; auto.
Qed.

(** The fields of a returned plan, read off the source. *)
Lemma plan_fields config balance entryPrice d info plan :
  calculatePositionParameters config balance entryPrice d info = inr plan ->
  let b := to_number balance in
  let p := to_number entryPrice in
  let M := or_else (multiplier info) (of_Z 1) in
  let lo := or_else (minOrderQty info) (of_Z 1) in
  let hi := or_else (maxOrderQty info) (of_Z 1000000) in
  let F := floor (div (mul b (div (Settings.positionSizePercent config)
                                (of_Z 100))) (mul p M)) in
  quantity plan
  = (let lots := if ltb F lo then lo else F in
     if gtb lots hi then hi else lots)
  /\ Risk.entryPrice plan = p
  /\ positionSizeUSDT plan = mul (mul (quantity plan) p) M
  /\ requiredMargin plan
     = div (mul (mul (quantity plan) p) M) (Settings.leverage config)
  /\ gtb (requiredMargin plan) b = false.
Proof.
  intros Hplan.
  destruct (plan_implies_valid_inputs _ _ _ _ _ _ Hplan)
    as (Vb & Lb & Vp & Lp & Hd).
  rewrite calculate_valid_inputs in Hplan by done. cbv zeta in Hplan |- *.
  destruct (gtb _ _) eqn:E; [discriminate|].
  injection Hplan as <-. by cbn.
Qed.

(** C1, as the code has it.  A returned plan has
    quantity = clamp(floor(b x (S/100) / (p x m)), min, max) and
    requiredMargin = quantity x p x m / L, every operation in binary64 and
    in this order, where [m], [min] and [max] are the multiplier,
    minOrderQty and maxOrderQty of the contract, a field that is missing,
    zero or NaN being replaced by 1, 1 and 1000000; a plan is returned only
    for a balance and a price above zero and a direction LONG or SHORT. *)
Theorem C1_sizing_formula_with_defaults (config : Settings.Config)
    (balance entryPrice : scalar) (d : JsString) (info : SymbolInfo)
    (plan : PositionParams) :
  calculatePositionParameters config balance entryPrice d info = inr plan ->
  let b := to_number balance in
  let p := to_number entryPrice in
  gtb b zero = true /\ gtb p zero = true
  /\ (d = Telegram.LONG \/ d = Telegram.SHORT)
  /\ quantity plan
     = spec_lots (Settings.positionSizePercent config) b p
         (or_else (multiplier info) (of_Z 1))
         (or_else (minOrderQty info) (of_Z 1))
         (or_else (maxOrderQty info) (of_Z 1000000))
  /\ requiredMargin plan
     = spec_margin (Settings.leverage config) (quantity plan) p
         (or_else (multiplier info) (of_Z 1)).
Proof.
  intros Hplan. cbv zeta.
  destruct (plan_implies_valid_inputs _ _ _ _ _ _ Hplan)
    as (Vb & Lb & Vp & Lp & Hd).
  destruct (plan_fields _ _ _ _ _ _ Hplan) as (Hq & _ & _ & Hm & _).
  cbv zeta in Hq.
  assert (forall v, isValidNumber v = true -> leb (to_number v) zero = false ->
                    gtb (to_number v) zero = true) as Hpos.
  { intros [| |x]; try discriminate. cbn [isValidNumber to_number].
    intros Hf Hle. unfold gtb, ltb, SpecFloat.SFltb.
    unfold leb, SpecFloat.SFleb in Hle. rewrite (compare_antisym x zero).
    destruct x as [s|s| |s m e]; try discriminate; cbn in *;
      by destruct s. }
  split; [by apply Hpos|]. split; [by apply Hpos|]. split; [done|].
  split; [|done].
  rewrite Hq. apply two_ifs_clamp; apply or_else_truthy; reflexivity.
Qed.


(** The end-to-end example: balance 1000, price 10, multiplier 0.01,
    leverage 10, 5 percent: 500 lots, margin 5, plan returned. *)
Lemma C1_sizing_formula_with_defaults_witness :
  exists plan,
    calculatePositionParameters Examples.config0 (Number (of_Z 1000))
      (Number (of_Z 10)) Telegram.LONG Examples.info_e2e = inr plan
    /\ quantity plan = of_Z 500 /\ requiredMargin plan = of_Z 5.
Proof.
  destruct (calculatePositionParameters Examples.config0 (Number (of_Z 1000))
              (Number (of_Z 10)) Telegram.LONG Examples.info_e2e)
    as [e | plan] eqn:E; [vm_compute in E; discriminate|].
  exists plan. split; [reflexivity|].
  destruct (C1_sizing_formula_with_defaults Examples.config0
              (Number (of_Z 1000)) (Number (of_Z 10)) Telegram.LONG
              Examples.info_e2e plan E) as (_ & _ & _ & Hq & Hm).
  rewrite Hm, Hq. split; vm_compute; reflexivity.
Defined.

(** C1 as it is worded fails in two ways.  It reads the bounds off the
    contract: a contract whose minOrderQty is 0 is sized with the default
    minimum of one lot (balance 100, price 10, multiplier 1 give
    floor(0.5) = 0 lots, which the clamp into [0, 1000000] keeps, and the
    function returns 1 lot).  And it states a formula of exact numbers: for
    balance 1000, price 0.1 and multiplier 0.1 the formula gives
    floor(50 / 0.01) = 5000 lots, and the function, whose product of 0.1
    and 0.1 is a number above 0.01, returns 4999. *)
Lemma C1_formula_counterexample :
  (exists plan,
     calculatePositionParameters Examples.config0 (Number (of_Z 100))
       (Number (of_Z 10)) Telegram.LONG Examples.info_zero_min = inr plan
     /\ to_Q (quantity plan) = Some 1%Q
     /\ to_number (minOrderQty Examples.info_zero_min) = zero
     /\ quantity plan
        <> spec_lots (of_Z 5) (of_Z 100) (of_Z 10) (of_Z 1)
             (to_number (minOrderQty Examples.info_zero_min))
             (of_Z 1000000)
     /\ ~ (1 == exact_lots 5 100 10 1 0 1000000)%Q)
  /\ (exists plan,
        calculatePositionParameters Examples.config0 (Number (of_Z 1000))
          (Number (ratio 1 10)) Telegram.LONG Examples.info_tenth = inr plan
        /\ to_Q (quantity plan) = Some 4999%Q
        /\ ~ (4999 == exact_lots 5 1000 (1 # 10) (1 # 10) 1 1000000)%Q).
Proof.
  split; eexists; (split; [vm_compute; reflexivity|]);
    cbn [quantity]; repeat split; vm_compute; congruence.
Qed.



(** The margin that is compared with the balance is the rounded one: with
    a balance of 2.01, a price of 201 and a multiplier of 0.1 (5 percent,
    leverage 10) one lot costs 201 x 0.1 / 10, which is 2.01 exactly and
    2.0100000000000002 as the function computes it: the order is
    rejected. *)
Lemma rounded_margin_exceeds_balance :
  exists m,
    calculatePositionParameters Examples.config0 (Number (ratio 201 100))
      (Number (of_Z 201)) Telegram.LONG Examples.info_tenth
    = inl (InsufficientBalance m (ratio 201 100))
    /\ to_Q m = Some (4526117625507349 # 2251799813685248)
    /\ to_Q (ratio 201 100) = Some (1131529406376837 # 562949953421312)
    /\ (1131529406376837 # 562949953421312 < 201 # 100)%Q
    /\ (201 # 100 < 4526117625507349 # 2251799813685248)%Q
    /\ (1 * 201 * (1 # 10) / 10 == 201 # 100)%Q.
Proof.
  eexists. split; [vm_compute; reflexivity|].
  repeat split; vm_compute; reflexivity.
Qed.

(** A leverage that is NaN passes the start-up checks, and the margin of
    every plan is then NaN, which no balance is compared against: a plan is
    returned. *)
Lemma nan_leverage_returns_a_plan :
  Settings.validated Examples.config_nan_leverage = true
  /\ exists plan,
       calculatePositionParameters Examples.config_nan_leverage
         (Number (of_Z 1000)) (Number (of_Z 10)) Telegram.LONG
         Examples.info_e2e = inr plan
       /\ quantity plan = of_Z 500 /\ requiredMargin plan = nan.
Proof.
  split; [reflexivity|]. eexists. split; [vm_compute; reflexivity|].
  split; vm_compute; reflexivity.
Qed.

(** A position size percent that is NaN passes the start-up checks too,
    and the lot count of every plan is then NaN. *)
Lemma nan_percent_returns_nan_lots :
  Settings.validated Examples.config_nan_percent = true
  /\ exists plan,
       calculatePositionParameters Examples.config_nan_percent
         (Number (of_Z 1000)) (Number (of_Z 10)) Telegram.LONG
         Examples.info_e2e = inr plan
       /\ quantity plan = nan /\ requiredMargin plan = nan.
Proof.
  split; [reflexivity|]. eexists. split; [vm_compute; reflexivity|].
  split; reflexivity.
Qed.

End RiskClaims.

(** ** The position ledger *)

Section LedgerProperties.

Import PositionService.

Lemma exec_addOpenPosition now pd s :
  exec (addOpenPosition now pd) s =
    {| openPositions := <[symbol pd := stored now pd]> (openPositions s);
       closedPositions := closedPositions s;
       log := log s ++ [{| level := INFO;
                           message := AddedToMonitoring (symbol pd)
                                        (direction pd) (quantity pd) |}] |}.
Proof. reflexivity. Qed.

Lemma run_removeOpenPosition sym s :
  removeOpenPosition sym s =
    match openPositions s !! sym with
    | Some p =>
        (inr (Some p),
         {| openPositions := delete sym (openPositions s);
            closedPositions := closedPositions s;
            log := log s ++ [{| level := INFO;
                                message := RemovedFromMonitoring sym |}] |})
    | None => (inr None, s)
    end.
Proof.
  unfold removeOpenPosition, mbind, M_bind, bind, get_open.
  destruct (openPositions s !! sym); reflexivity.
Qed.

(** In a consistent ledger the entries listed for a symbol are the entry
    filed under it. *)
Lemma entries_for_lookup s sym :
  consistent s ->
  entries_for sym s = match openPositions s !! sym with
                      | Some p => [p]
                      | None => []
                      end.
Proof.
  intros Hc. unfold entries_for, getAllOpenPositions.
  assert (forall m : gmap JsString Position,
             (forall k p, m !! k = Some p -> symbol p = k) ->
             m !! sym = None ->
             filter (fun p => symbol p = sym) (map_to_list m).*2 = []) as Hnone.
  { intros m Hm Hsym. apply elem_of_nil_inv. intros p.
    rewrite list_elem_of_filter, list_elem_of_fmap.
    intros (Hp & [k p'] & -> & Hin). simpl in Hp.
    apply elem_of_map_to_list in Hin. apply Hm in Hin as Hk. congruence. }
  destruct (openPositions s !! sym) as [p|] eqn:E; [|by apply Hnone].
  apply Permutation_singleton_r.
  rewrite <- (map_to_list_delete _ _ _ E). rewrite fmap_cons. simpl.
  rewrite filter_cons_True by (by apply Hc).
  rewrite Hnone; [done | | by rewrite lookup_delete_eq].
  intros k p' [_ Hk]%lookup_delete_Some. by apply Hc.
Qed.

Lemma consistent_at_most_one s :
  consistent s -> at_most_one_per_symbol s.
Proof.
  intros Hc sym. rewrite entries_for_lookup by done.
  destruct (openPositions s !! sym); simpl; lia.
Qed.

Lemma consistent_initial : consistent initial.
Proof. intros k p. unfold initial; simpl. by rewrite lookup_empty. Qed.

Lemma consistent_add now pd s :
  consistent s -> consistent (exec (addOpenPosition now pd) s).
Proof.
  intros Hc k p. rewrite exec_addOpenPosition; simpl.
  intros [[<- <-] | [_ Hk]]%lookup_insert_Some; [done | by apply Hc].
Qed.

Lemma consistent_remove sym s :
  consistent s -> consistent (exec (removeOpenPosition sym) s).
Proof.
  intros Hc k p. unfold exec. rewrite run_removeOpenPosition.
  destruct (openPositions s !! sym); simpl; [|by apply Hc].
  intros [_ Hk]%lookup_delete_Some. by apply Hc.
Qed.

(** Closing a position files no new entry: the map of open positions is
    left as it was or loses the symbol. *)
Lemma open_after_addClosed now c s :
  openPositions (exec (addClosedPosition now c) s) = openPositions s.
Proof.
  unfold exec, addClosedPosition, mbind, M_bind, bind, get_closed, set_closed,
    toFixed.
  destruct (pnl c); reflexivity.
Qed.

Lemma open_after_check `{Helpers} now exchangePositions trades sym tracked s :
  let m' := openPositions
              (exec (checkPosition now exchangePositions trades sym tracked) s) in
  m' = openPositions s \/ m' = delete sym (openPositions s).
Proof.
  cbv zeta. unfold exec, checkPosition, try_catch.
  destruct exchangePositions as [e | eps]; [by left|].
  destruct (venue_closed sym eps).
  - unfold handlePositionClosed, try_catch.
    destruct trades as [e | trades]; [by left|].
    set (pnl_ := calculatePnL _ _ _ _). set (pct_ := calculatePnLPercent _ _ _).
    unfold mbind, M_bind, bind, addClosedPosition, mbind, M_bind, bind,
      get_closed, set_closed, toFixed, logger, ret, throw.
    cbn [fst snd pnl].
    destruct pnl_; cbn [fst snd]; try (by left);
      rewrite run_removeOpenPosition; cbn [openPositions];
      destruct (openPositions s !! sym); cbn [fst snd openPositions];
      destruct pct_; cbn [fst snd openPositions]; auto.
  - destruct (List.find _ eps); [|by left].
    unfold updatePositionData, mbind, M_bind, bind, get_open.
    destruct (openPositions s !! sym); by left.
Qed.

(** Every ledger that the service builds is consistent. *)
Lemma reachable_consistent `{Helpers} s : reachable s -> consistent s.
Proof.
  induction 1 as [| now pd s _ IH | sym s _ IH | now c s _ IH
                  | now eps trades sym tracked s _ IH | s _ IH].
  - apply consistent_initial.
  - by apply consistent_add.
  - by apply consistent_remove.
  - intros k p. rewrite open_after_addClosed. apply IH.
  - intros k p.
    destruct (open_after_check now eps trades sym tracked s) as [-> | ->].
    + apply IH.
    + intros [_ Hk]%lookup_delete_Some. by apply IH.
  - exact IH.
Qed.

Lemma warnings_add now pd s :
  warnings (exec (addOpenPosition now pd) s) = warnings s.
Proof.
  unfold warnings. rewrite exec_addOpenPosition; simpl.
  rewrite List.filter_app; simpl. apply app_nil_r.
Qed.

(** C7, as the code has it.  In a ledger whose entries are filed under
    their own symbol (as in every ledger built by these operations): after
    [addOpenPosition] for a symbol, [hasOpenPosition] is true and the ledger
    lists exactly one entry for it; a second [addOpenPosition] for the same
    symbol replaces that entry, the count of open positions is unchanged and
    no warning is logged; after [removeOpenPosition], [hasOpenPosition] is
    false; [removeOpenPosition] returns the removed position when the symbol
    is present and returns null, leaving the ledger as it was, when it is
    absent; and every operation keeps at most one open position per
    symbol. *)
Theorem C7_one_open_position_per_symbol (now : Z) (pd : Position) (s : Service) :
  consistent s ->
  let sym := symbol pd in
  let s1 := exec (addOpenPosition now pd) s in
  (hasOpenPosition sym s1 = true /\ entries_for sym s1 = [stored now pd])
  /\ (forall now' pd', symbol pd' = sym ->
        let s2 := exec (addOpenPosition now' pd') s1 in
        entries_for sym s2 = [stored now' pd']
        /\ getOpenPositionsCount s2 = getOpenPositionsCount s1
        /\ warnings s2 = warnings s)
  /\ (forall sym',
        hasOpenPosition sym' (exec (removeOpenPosition sym') s) = false
        /\ (forall p, openPositions s !! sym' = Some p ->
              result (removeOpenPosition sym') s = inr (Some p))
        /\ (openPositions s !! sym' = None ->
              removeOpenPosition sym' s = (inr None, s)))
  /\ (consistent s1 /\ at_most_one_per_symbol s1)
  /\ (forall sym',
        consistent (exec (removeOpenPosition sym') s)
        /\ at_most_one_per_symbol (exec (removeOpenPosition sym') s)).
Proof.
  intros Hc sym s1.
  assert (consistent s1) as Hc1 by (by apply consistent_add).
  assert (openPositions s1 !! sym = Some (stored now pd)) as Hl1.
  { subst s1. rewrite exec_addOpenPosition; simpl. apply lookup_insert_eq. }
  split; [split | split; [| split; [| split]]].
  - apply bool_decide_eq_true. by rewrite Hl1.
  - by rewrite entries_for_lookup, Hl1.
  - intros now' pd' Hsym s2. subst s2. split; [|split].
    + rewrite entries_for_lookup by (by apply consistent_add).
      rewrite (exec_addOpenPosition now' pd' s1); simpl.
      by rewrite Hsym, lookup_insert_eq.
    + unfold getOpenPositionsCount.
      rewrite (exec_addOpenPosition now' pd' s1). subst s1.
      rewrite (exec_addOpenPosition now pd s). cbn [openPositions].
      rewrite Hsym. subst sym.
      apply map_size_insert_Some. rewrite lookup_insert_eq. by eexists.
    + subst s1. by rewrite !warnings_add.
  - intros sym'. split; [|split].
    + apply bool_decide_eq_false. unfold exec. rewrite run_removeOpenPosition.
      destruct (openPositions s !! sym') eqn:E; simpl.
      * rewrite lookup_delete_eq. by intros [? ?].
      * rewrite E. by intros [? ?].
    + intros p Hp. unfold result. by rewrite run_removeOpenPosition, Hp.
    + intros Hn. by rewrite run_removeOpenPosition, Hn.
  - split; [done | by apply consistent_at_most_one].
  - intros sym'. split; [by apply consistent_remove|].
    by apply consistent_at_most_one, consistent_remove.
Qed.

Lemma C7_one_open_position_per_symbol_witness :
  hasOpenPosition (js "TAKEUSDTM") LedgerExamples.one_open = true
  /\ entries_for (js "TAKEUSDTM") LedgerExamples.one_open
     = [stored 0 LedgerExamples.take_long].
Proof.
  exact (proj1 (C7_one_open_position_per_symbol 0 LedgerExamples.take_long
                  initial consistent_initial)).
Defined.

(** C7 as it is worded has the overwrite come with a warning.  Adding a
    second position for a symbol that is already open replaces the entry and
    logs the info line of an ordinary add: the log holds no warning. *)
Lemma C7_overwrite_without_warning :
  let s2 := exec (addOpenPosition 0 LedgerExamples.take_short)
              LedgerExamples.one_open in
  hasOpenPosition (js "TAKEUSDTM") LedgerExamples.one_open = true
  /\ getOpenPosition (js "TAKEUSDTM") s2
     = Some (stored 0 LedgerExamples.take_short)
  /\ map level (log s2) = [INFO; INFO]
  /\ warnings s2 = [].
Proof. vm_compute. repeat split; reflexivity. Qed.

(** No fill on the closing side: [trades.find] finds nothing. *)
Lemma no_closing_fill sym tracked (trades : list Fill) :
  Forall (fun t => ~ closing_side tracked t) trades ->
  List.find (is_close_trade sym tracked) trades = None.
Proof.
  induction 1 as [|t trades Ht _ IH]; simpl; [done|].
  destruct (is_close_trade sym tracked t) eqn:E; [|exact IH].
  exfalso. apply Ht. unfold is_close_trade, str_eqb in E.
  apply andb_true_iff in E as [_ E].
  apply orb_true_iff in E as [E | E]; apply andb_true_iff in E as [E1 E2];
    apply bool_decide_eq_true in E1, E2; [by left | by right].
Qed.

Lemma is_zero_Num v : is_zero v -> exists z, v = Num z /\ (z == 0)%Q.
Proof. destruct v; simpl; try done. intros Hz. by eexists. Qed.

Section Reconciliation.

Context `{Helpers}.

(** C8.  When the venue lists no position (or one of size zero) for a
    tracked symbol and the trade history holds no fill on the closing side
    of the tracked direction, the reconciliation step records the closed
    position with the tracked entry price as exit price and removes it from
    the open positions; with helpers for which equal entry and exit price
    give zero, the recorded pnl and pnl percent are zero. *)
Theorem C8_no_fill_falls_back_to_entry_price (now : Z)
    (exchangePositions : list ExchangePosition) (trades : list Fill)
    (sym : JsString) (tracked : Position) (s : Service) (e q : Q) :
  HelperLaws.flat_pnl ->
  venue_closed sym exchangePositions = true ->
  Forall (fun t => ~ closing_side tracked t) trades ->
  entryPrice tracked = Num e -> (0 < e)%Q -> quantity tracked = Num q ->
  let s' := exec (checkPosition now (inr exchangePositions) (inr trades)
                    sym tracked) s in
  (exists c, closedPositions s' = closedPositions s ++ [c]
             /\ position c = tracked
             /\ exitPrice c = entryPrice tracked
             /\ is_zero (pnl c) /\ is_zero (pnlPercent c)
             /\ closedAt c = now)
  /\ hasOpenPosition sym s' = false.
Proof.
  intros [Hpnl Hpct] Hclosed Hfills He Hpos Hq s'. subst s'.
  unfold exec, checkPosition, try_catch. rewrite Hclosed.
  unfold handlePositionClosed, try_catch.
  rewrite (no_closing_fill sym tracked trades Hfills).
  rewrite He, Hq.
  destruct (is_zero_Num _ (Hpnl e q (direction tracked))) as (z & Ez & Hz).
  assert (~ (e == 0)%Q) as Hne.
  { intros E0. rewrite E0 in Hpos. by apply Qlt_irrefl in Hpos. }
  destruct (is_zero_Num _ (Hpct e (direction tracked) Hne)) as (z' & Ez' & Hz').
  rewrite Ez, Ez'.
  unfold mbind, M_bind, bind, addClosedPosition, mbind, M_bind, bind,
    get_closed, set_closed, toFixed, logger, ret. cbn [fst snd pnl].
  rewrite run_removeOpenPosition. cbn [openPositions closedPositions log].
  destruct (openPositions s !! sym) eqn:E;
    cbn [fst snd openPositions closedPositions log].
  - split.
    + eexists. split; [reflexivity|]. cbn. by rewrite <- He.
    + apply bool_decide_eq_false. cbn. rewrite lookup_delete_eq.
      by intros [? ?].
  - split.
    + eexists. split; [reflexivity|]. cbn. by rewrite <- He.
    + apply bool_decide_eq_false. cbn. rewrite E. by intros [? ?].
Qed.

End Reconciliation.

(** The usual formulas satisfy the law. *)
Lemma usual_flat_pnl : @HelperLaws.flat_pnl HelperLaws.usual.
Proof.
  split.
  - intros e q d. unfold calculatePnL, HelperLaws.usual.
    destruct (str_eqb d Telegram.LONG); unfold is_zero; ring.
  - intros e d Hne. unfold calculatePnLPercent, HelperLaws.usual.
    destruct (Qeq_bool e 0) eqn:E; [by apply Qeq_bool_iff in E|].
    destruct (str_eqb d Telegram.LONG); unfold is_zero, Qdiv; ring.
Qed.

Lemma C8_no_fill_falls_back_to_entry_price_witness :
  let s' := exec (@checkPosition HelperLaws.usual 13000 (inr []) 
                    (inr [LedgerExamples.buy_fill]) (js "TAKEUSDTM")
                    LedgerExamples.take_long) LedgerExamples.one_open in
  (exists c, closedPositions s' = closedPositions LedgerExamples.one_open ++ [c]
             /\ position c = LedgerExamples.take_long
             /\ exitPrice c = entryPrice LedgerExamples.take_long
             /\ is_zero (pnl c) /\ is_zero (pnlPercent c)
             /\ closedAt c = 13000%Z)
  /\ hasOpenPosition (js "TAKEUSDTM") s' = false.
Proof.
  apply (@C8_no_fill_falls_back_to_entry_price HelperLaws.usual 13000 []
           [LedgerExamples.buy_fill] (js "TAKEUSDTM") LedgerExamples.take_long
           LedgerExamples.one_open 10 500).
  - exact usual_flat_pnl.
  - reflexivity.
  - constructor; [|constructor].
    intros [[Hs _] | [_ Hd]]; [vm_compute in Hs | vm_compute in Hd];
      discriminate.
  - reflexivity.
  - reflexivity.
  - reflexivity.
Defined.

(** C9.  The daily reset empties the closed-position history and zeroes
    the counters of the day (the statistics computed from the history, and
    the daily trade and ignored-signal counters of the orchestrator) and
    leaves the map of open positions exactly as it was. *)
Theorem C9_daily_reset_keeps_open_positions (currentDate : JsString)
    (w : Orchestrator.World) :
  currentDate <> Orchestrator.lastResetDate (Orchestrator.statistics w) ->
  let s' := exec resetDailyStatistics (Orchestrator.positions w) in
  let w' := Orchestrator.sendDailyReport_reset currentDate w in
  (closedPositions s' = []
   /\ openPositions s' = openPositions (Orchestrator.positions w)
   /\ totalTrades (getStatistics s') = 0
   /\ winTrades (getStatistics s') = 0
   /\ loseTrades (getStatistics s') = 0
   /\ totalPnl (getStatistics s') = Num 0)
  /\ (Orchestrator.positions w' = s'
      /\ Orchestrator.dailyTrades (Orchestrator.statistics w') = 0%Z
      /\ Orchestrator.signalsIgnored (Orchestrator.statistics w') = 0%Z
      /\ openPositions (Orchestrator.positions w')
         = openPositions (Orchestrator.positions w)).
Proof.
  intros Hdate s' w'. subst s' w'. unfold Orchestrator.sendDailyReport_reset.
  unfold str_eqb. rewrite bool_decide_eq_false_2 by done.
  cbn [negb]. repeat split.
Qed.

Lemma C9_daily_reset_keeps_open_positions_witness :
  let w' := Orchestrator.sendDailyReport_reset (js "2026-01-02")
              OrchestratorExamples.world0 in
  closedPositions (Orchestrator.positions w') = []
  /\ Orchestrator.dailyTrades (Orchestrator.statistics w') = 0%Z
  /\ openPositions (Orchestrator.positions w')
     = openPositions LedgerExamples.one_open.
Proof.
  destruct (C9_daily_reset_keeps_open_positions (js "2026-01-02")
              OrchestratorExamples.world0) as [(Hc & _) (Hp & Hd & _ & Ho)].
  { vm_compute. discriminate. }
  cbv zeta. rewrite Hp. split; [exact Hc | split; [exact Hd | reflexivity]].
Defined.

End LedgerProperties.

(** ** The admission pipeline *)

Section AdmissionProperties.

Import Orchestrator.

Context `{Helpers}.
Variable config : Settings.Config.
Variable time : TimeService.
Variable venue : Venue.

(** The verdict of [validateSignal] is that of the first failing gate. *)
Lemma validateSignal_first_failing signal w :
  fst (validateSignal config time venue signal w)
  = first_failing (gates config time venue signal w).
Proof.
  unfold validateSignal, gates, first_failing.
  cbn [List.find fst snd].
  repeat match goal with
         | |- fst (if ?c then _ else _) = _ => destruct c; [reflexivity|]
         end.
  destruct (getUSDTBalance venue) as [msg | balance]; cbn [fst snd];
    [reflexivity|].
  destruct (js_le balance (Num 0)); [reflexivity|].
  destruct (getSymbolInfo venue (Telegram.symbol signal)) as [msg | info];
    cbn [fst snd]; [reflexivity|].
  destruct (negb _); reflexivity.
Qed.

(** A failing local gate ends the validation before any request. *)
Lemma validateSignal_local_failure signal w :
  existsb fst (local_gates config time venue signal w) = true ->
  snd (validateSignal config time venue signal w) = w.
Proof.
  unfold local_gates, gates, validateSignal.
  cbn [take existsb fst snd].
  repeat match goal with
         | |- _ -> snd (if ?c then _ else _) = _ => destruct c; [reflexivity|]
         end.
  cbn [orb]. discriminate.
Qed.

End AdmissionProperties.

Section AdmissionClaims.

Import Orchestrator.

(** C3.  [validateSignal] reports the rejection of the first failing gate
    of the nine, in the order spread, blocklist, direction, trading hours,
    open position for the symbol, open-position count, daily trades,
    balance, symbol status.  When one of the first seven fails, the
    validation ends with the state untouched: no balance or symbol-info
    request has been sent.  A signal for a blocked symbol outside trading
    hours is never rejected for the trading hours: it reports the blocklist
    (or, if its spread fails gate 1, the spread). *)
Theorem C3_first_failing_gate_decides `{Helpers} (config : Settings.Config)
    (time : TimeService) (venue : Venue) (signal : Telegram.Signal)
    (w : World) :
  let r := validateSignal config time venue signal w in
  fst r = first_failing (gates config time venue signal w)
  /\ (existsb fst (local_gates config time venue signal w) = true ->
      snd r = w /\ calls (snd r) = calls w)
  /\ (isSymbolBlocked (Telegram.symbol signal)
        (join (js ",") (Settings.blockedSymbols config)) = true ->
      isTradingHoursActive time = false ->
      (forall info, fst r <> Rejected OutsideTradingHours info)
      /\ (spread_gate_fails config signal = false ->
          fst r = Rejected (SymbolBlocked (Telegram.symbol signal)) NoInfo)).
Proof.
  intros r. subst r. split; [apply validateSignal_first_failing | split].
  - intros Hl. by rewrite validateSignal_local_failure.
  - intros Hb Hh. unfold validateSignal, spread_gate_fails.
    destruct (js_gt _ _ && _); cbn [fst].
    + split; [discriminate | discriminate].
    + rewrite Hb. cbn [fst]. split; [discriminate | reflexivity].
Qed.

Lemma C3_first_failing_gate_decides_witness :
  validateSignal (H := HelperLaws.usual) OrchestratorExamples.config_spread
    OrchestratorExamples.night OrchestratorExamples.venue0
    OrchestratorExamples.signal_blocked OrchestratorExamples.world0
  = (Rejected (SymbolBlocked (js "BLESSUSDTM")) NoInfo,
     OrchestratorExamples.world0).
Proof.
  destruct (C3_first_failing_gate_decides (H := HelperLaws.usual)
              OrchestratorExamples.config_spread OrchestratorExamples.night
              OrchestratorExamples.venue0 OrchestratorExamples.signal_blocked
              OrchestratorExamples.world0) as (_ & Hlocal & Hblocked).
  destruct (Hlocal eq_refl) as [Hw _].
  destruct (Hblocked eq_refl eq_refl) as [_ Hr].
  specialize (Hr eq_refl).
  destruct (validateSignal _ _ _ _ _) as [v w'].
  cbn [fst snd] in Hw, Hr. by rewrite Hw, Hr.
Defined.

(** C10.  With the minimum-spread filter enabled, a signal whose spread is
    null (the spread label did not match) or zero is rejected by gate 1 with
    the spread reason, before any other gate and without a request to the
    venue. *)
Theorem C10_missing_spread_is_rejected `{Helpers} (config : Settings.Config)
    (time : TimeService) (venue : Venue) (signal : Telegram.Signal)
    (w : World) :
  js_gt (Settings.minSpreadPercent config) (Num 0) = true ->
  Telegram.spread signal = Null
  \/ (exists q, Telegram.spread signal = Num q /\ (q == 0)%Q) ->
  validateSignal config time venue signal w
  = (Rejected (SpreadBelowMinimum (Telegram.spread signal)
                 (Settings.minSpreadPercent config))
       (SpreadInfo (Telegram.spread signal)
          (Settings.minSpreadPercent config)), w).
Proof.
  intros Hmin Hspread. unfold validateSignal. rewrite Hmin.
  assert (truthy (Telegram.spread signal) = false) as ->; [|reflexivity].
  destruct Hspread as [-> | (q & -> & Hq)]; [reflexivity|].
  cbn [truthy]. apply negb_false_iff. by apply Qeq_bool_iff.
Qed.

Lemma C10_missing_spread_is_rejected_witness :
  Telegram.spreadOf (js "🚨 KuCoin 👉BLESSUSDTM👈") = Null
  /\ validateSignal (H := HelperLaws.usual) OrchestratorExamples.config_spread
       OrchestratorExamples.night OrchestratorExamples.venue0
       OrchestratorExamples.signal_no_spread OrchestratorExamples.world0
     = (Rejected (SpreadBelowMinimum Null (Num 3)) (SpreadInfo Null (Num 3)),
        OrchestratorExamples.world0).
Proof.
  split; [reflexivity|].
  apply (C10_missing_spread_is_rejected (H := HelperLaws.usual)
           OrchestratorExamples.config_spread OrchestratorExamples.night
           OrchestratorExamples.venue0 OrchestratorExamples.signal_no_spread
           OrchestratorExamples.world0).
  - reflexivity.
  - by left.
Defined.

End AdmissionClaims.

(** * Further properties of the code *)

(** ** Risk sizing: what a returned plan guarantees *)

Section RiskExtras.

Import Float64 Risk RiskFacts.

Lemma mul_finite x y :
  is_finite (mul x y) = true -> is_finite x = true /\ is_finite y = true.
Proof.
  destruct x as [s | s | | s m e], y as [s' | s' | | s' m' e'];
    try discriminate; done.
Qed.

Lemma div_finite_l x y : is_finite (div x y) = true -> is_finite x = true.
Proof.
  destruct x as [s | s | | s m e], y as [s' | s' | | s' m' e'];
    try discriminate; done.
Qed.

(** A plan whose margin is a finite number has a finite notional size and
    a finite quantity and price. *)
Lemma accepted_plan_is_finite config balance entryPrice d info plan :
  calculatePositionParameters config balance entryPrice d info = inr plan ->
  is_finite (requiredMargin plan) = true ->
  is_finite (positionSizeUSDT plan) = true
  /\ is_finite (quantity plan) = true
  /\ is_finite (Risk.entryPrice plan) = true.
Proof.
  intros Hplan Hm.
  destruct (plan_fields _ _ _ _ _ _ Hplan) as (_ & _ & Hs & Hr & _).
  cbv zeta in Hs, Hr. rewrite Hr in Hm. apply div_finite_l in Hm.
  rewrite Hs. split; [done|].
  apply mul_finite in Hm as [Hm _]. apply mul_finite in Hm as [Hq Hp].
  split; [done|].
  destruct (plan_fields _ _ _ _ _ _ Hplan) as (_ & -> & _). done.
Qed.

(** X1.  The quantity of a returned plan is never above the maximum the
    function works with, and never below the minimum when the minimum does
    not exceed the maximum, in the sense of the comparisons of JavaScript;
    it is NaN exactly when the floored lot count is (a position size percent
    that is NaN), and otherwise lies between the two bounds. *)
Theorem X1_quantity_within_order_bounds (config : Settings.Config)
    (balance entryPrice : scalar) (d : JsString) (info : SymbolInfo)
    (plan : PositionParams) :
  calculatePositionParameters config balance entryPrice d info = inr plan ->
  let lo := or_else (minOrderQty info) (of_Z 1) in
  let hi := or_else (maxOrderQty info) (of_Z 1000000) in
  let F := floored_lots config (to_number balance) (to_number entryPrice)
             info in
  gtb (quantity plan) hi = false
  /\ (leb lo hi = true -> ltb (quantity plan) lo = false)
  /\ is_nan (quantity plan) = is_nan F
  /\ (is_nan F = false -> leb lo hi = true ->
      leb lo (quantity plan) = true /\ leb (quantity plan) hi = true).
Proof.
  intros Hplan lo hi F.
  destruct (plan_fields _ _ _ _ _ _ Hplan) as (Hq & _). cbv zeta in Hq.
  fold lo hi in Hq. change (floor _) with F in Hq.
  assert (is_nan lo = false /\ is_nan hi = false) as [Hlo Hhi].
  { split; eapply truthy_number, or_else_truthy; reflexivity. }
  assert (gtb (quantity plan) hi = false) as Hmax.
  { rewrite Hq. destruct (gtb (if ltb F lo then lo else F) hi) eqn:E;
      [apply ltb_irrefl | exact E]. }
  assert (leb lo hi = true -> ltb (quantity plan) lo = false) as Hmin.
  { intros Hle. rewrite Hq.
    destruct (gtb (if ltb F lo then lo else F) hi) eqn:E;
      [by apply leb_not_gtb|].
    destruct (ltb F lo) eqn:E'; [apply ltb_irrefl | exact E']. }
  assert (is_nan (quantity plan) = is_nan F) as Hnan.
  { rewrite Hq. destruct (is_nan F) eqn:EF.
    - destruct F; try discriminate. cbn. by destruct lo, hi.
    - destruct (ltb F lo); destruct (gtb _ hi); done. }
  split; [done|]. split; [done|]. split; [done|].
  intros HF Hle. rewrite HF in Hnan. split.
  - apply not_ltb_leb; auto.
  - by apply not_ltb_leb.
Qed.

Lemma X1_quantity_within_order_bounds_witness :
  exists plan,
    calculatePositionParameters Examples.config0 (Number (of_Z 1000000))
      (Number (of_Z 10)) Telegram.SHORT Examples.info_unit = inr plan
    /\ gtb (quantity plan) (of_Z 1000000) = false
    /\ quantity plan = of_Z 5000.
Proof.
  destruct (calculatePositionParameters Examples.config0
              (Number (of_Z 1000000)) (Number (of_Z 10)) Telegram.SHORT
              Examples.info_unit) as [e | plan] eqn:E;
    [vm_compute in E; discriminate|].
  exists plan. split; [reflexivity|].
  destruct (X1_quantity_within_order_bounds _ _ _ _ _ _ E) as (Hmax & _).
  split; [exact Hmax|].
  vm_compute in E. injection E as <-. reflexivity.
Defined.

(** [Math.floor] leaves the quantity of a plan as it is when it leaves
    the two bounds as they are. *)
Lemma plan_quantity_floor (config : Settings.Config)
    (balance entryPrice : scalar) (d : JsString) (info : SymbolInfo)
    (plan : PositionParams) :
  calculatePositionParameters config balance entryPrice d info = inr plan ->
  floor (or_else (minOrderQty info) (of_Z 1))
  = or_else (minOrderQty info) (of_Z 1) ->
  floor (or_else (maxOrderQty info) (of_Z 1000000))
  = or_else (maxOrderQty info) (of_Z 1000000) ->
  floor (quantity plan) = quantity plan.
Proof.
  intros Hplan Hlo Hhi.
  destruct (plan_fields _ _ _ _ _ _ Hplan) as (Hq & _). cbv zeta in Hq.
  rewrite Hq. destruct (gtb _ _); [exact Hhi|].
  destruct (ltb _ _); [exact Hlo | apply floor_idem].
Qed.

(** X2.  When [Math.floor] leaves the two order bounds the function works
    with as they are, it leaves the quantity of a returned plan as it is; a
    quantity that is a finite number is then a whole number of lots. *)
Theorem X2_quantity_is_whole (config : Settings.Config)
    (balance entryPrice : scalar) (d : JsString) (info : SymbolInfo)
    (plan : PositionParams) :
  calculatePositionParameters config balance entryPrice d info = inr plan ->
  floor (or_else (minOrderQty info) (of_Z 1))
  = or_else (minOrderQty info) (of_Z 1) ->
  floor (or_else (maxOrderQty info) (of_Z 1000000))
  = or_else (maxOrderQty info) (of_Z 1000000) ->
  floor (quantity plan) = quantity plan
  /\ (is_finite (quantity plan) = true -> is_whole (quantity plan)).
Proof.
  intros Hplan Hlo Hhi.
  pose proof (plan_quantity_floor _ _ _ _ _ _ Hplan Hlo Hhi) as Hfix.
  split; [exact Hfix | by apply floor_fixed_whole].
Qed.

Lemma X2_quantity_is_whole_witness :
  exists plan,
    calculatePositionParameters Examples.config0 (Number (of_Z 1000))
      (Number (of_Z 3)) Telegram.LONG Examples.info_unit = inr plan
    /\ quantity plan = of_Z 16 /\ is_whole (quantity plan).
Proof.
  destruct (calculatePositionParameters Examples.config0 (Number (of_Z 1000))
              (Number (of_Z 3)) Telegram.LONG Examples.info_unit)
    as [e | plan] eqn:E; [vm_compute in E; discriminate|].
  exists plan. split; [reflexivity|].
  destruct (X2_quantity_is_whole _ _ _ _ _ _ E eq_refl eq_refl)
    as [_ Hwhole].
  assert (quantity plan = of_Z 16) as Hq
    by (vm_compute in E; by injection E as <-).
  split; [exact Hq|]. apply Hwhole. by rewrite Hq.
Defined.

(** The check of [openPosition] on a returned plan is a test of the
    margin alone. *)
Lemma plan_margin_check (config : Settings.Config)
    (balance entryPrice : scalar) (d : JsString) (info : SymbolInfo)
    (plan : PositionParams) :
  calculatePositionParameters config balance entryPrice d info = inr plan ->
  hasSufficientBalance balance (Number (requiredMargin plan))
  = is_finite (requiredMargin plan).
Proof.
  intros Hplan.
  destruct (plan_implies_valid_inputs _ _ _ _ _ _ Hplan) as (Vb & _).
  destruct (plan_fields _ _ _ _ _ _ Hplan) as (_ & _ & _ & _ & Hle).
  cbv zeta in Hle. unfold hasSufficientBalance. rewrite Vb.
  cbn [isValidNumber andb to_number].
  destruct (is_finite (requiredMargin plan)) eqn:Hm; [|done].
  cbn [andb]. unfold geb. apply not_ltb_leb; [| |exact Hle].
  - by destruct (requiredMargin plan).
  - destruct balance as [| |x]; try discriminate. by destruct x.
Qed.

(** X5.  The check that [openPosition] makes on a returned plan,
    [hasSufficientBalance] against the balance the plan was computed from,
    fails exactly when the margin of the plan is not a finite number (a
    leverage or a position size percent that is NaN): for a finite margin it
    repeats a test the sizing has already made. *)
Theorem X5_plan_has_sufficient_balance (config : Settings.Config)
    (balance entryPrice : scalar) (d : JsString) (info : SymbolInfo)
    (plan : PositionParams) :
  calculatePositionParameters config balance entryPrice d info = inr plan ->
  hasSufficientBalance balance (Number (requiredMargin plan))
  = is_finite (requiredMargin plan).
Proof. apply plan_margin_check. Qed.

Lemma X5_plan_has_sufficient_balance_witness :
  exists plan,
    calculatePositionParameters Examples.config_nan_leverage
      (Number (of_Z 1000)) (Number (of_Z 10)) Telegram.LONG
      Examples.info_e2e = inr plan
    /\ hasSufficientBalance (Number (of_Z 1000))
         (Number (requiredMargin plan)) = false.
Proof.
  destruct (calculatePositionParameters Examples.config_nan_leverage
              (Number (of_Z 1000)) (Number (of_Z 10)) Telegram.LONG
              Examples.info_e2e) as [e | plan] eqn:E;
    [vm_compute in E; discriminate|].
  exists plan. split; [reflexivity|].
  rewrite (X5_plan_has_sufficient_balance _ _ _ _ _ _ E).
  vm_compute in E. injection E as <-. reflexivity.
Defined.

End RiskExtras.

(** ** The ledger: round trip, counting, history, reconciliation *)

Section LedgerExtras.

Import PositionService.

(** X6.  Removing a symbol right after adding it returns exactly the entry
    that was stored (with the defaults for a missing timestamp and size
    applied) and leaves the map without the symbol: an entry that the add
    overwrote is gone, not restored. *)
Theorem X6_add_then_remove (now : Z) (pd : Position) (s : Service) :
  let s1 := exec (addOpenPosition now pd) s in
  result (removeOpenPosition (symbol pd)) s1 = inr (Some (stored now pd))
  /\ openPositions (exec (removeOpenPosition (symbol pd)) s1)
     = delete (symbol pd) (openPositions s)
  /\ closedPositions (exec (removeOpenPosition (symbol pd)) s1)
     = closedPositions s.
Proof.
  intros s1.
  assert (s1 = _) as Hs1 by apply exec_addOpenPosition.
  clearbody s1. subst s1. unfold result, exec.
  rewrite run_removeOpenPosition. cbn [openPositions closedPositions].
  rewrite lookup_insert_eq. cbn [fst snd openPositions closedPositions].
  by rewrite delete_insert_eq.
Qed.

(** X7.  The count of open positions is the number of entries listed; an
    add raises it by one exactly when the symbol was not open, and a remove
    lowers it by one exactly when it was. *)
Theorem X7_open_position_count (now : Z) (pd : Position) (sym : JsString)
    (s : Service) :
  getOpenPositionsCount s = length (getAllOpenPositions s)
  /\ getOpenPositionsCount (exec (addOpenPosition now pd) s)
     = (if hasOpenPosition (symbol pd) s
        then getOpenPositionsCount s else S (getOpenPositionsCount s))
  /\ getOpenPositionsCount (exec (removeOpenPosition sym) s)
     = (if hasOpenPosition sym s
        then pred (getOpenPositionsCount s) else getOpenPositionsCount s).
Proof.
  unfold getOpenPositionsCount, getAllOpenPositions, hasOpenPosition.
  split; [|split].
  - by rewrite length_fmap, length_map_to_list.
  - rewrite exec_addOpenPosition. cbn [openPositions].
    destruct (bool_decide_reflect (is_Some (openPositions s !! symbol pd)))
      as [Hs | Hn].
    + by apply map_size_insert_Some.
    + apply map_size_insert_None. by apply eq_None_not_Some.
  - unfold exec. rewrite run_removeOpenPosition.
    destruct (openPositions s !! sym) eqn:E; cbn [snd openPositions].
    + rewrite bool_decide_eq_true_2 by (by eexists).
      apply map_size_delete_Some. by rewrite E.
    + rewrite bool_decide_eq_false_2; [done|]. by intros [? ?].
Qed.

Section WithHelpers.

Context `{Helpers}.

(** What one reconciliation step leaves of the closed history: the
    history, with at most the closed record of the tracked position
    appended. *)
Lemma closed_after_check now exchangePositions trades sym tracked s :
  let l' := closedPositions
              (exec (checkPosition now exchangePositions trades sym tracked) s) in
  l' = closedPositions s
  \/ exists c, l' = closedPositions s ++ [c] /\ position c = tracked.
Proof.
  cbv zeta. unfold exec, checkPosition, try_catch.
  destruct exchangePositions as [e | eps]; [by left|].
  destruct (venue_closed sym eps).
  - unfold handlePositionClosed, try_catch.
    destruct trades as [e | trades]; [by left|].
    set (pnl_ := calculatePnL _ _ _ _). set (pct_ := calculatePnLPercent _ _ _).
    unfold mbind, M_bind, bind, addClosedPosition, mbind, M_bind, bind,
      get_closed, set_closed, toFixed, logger, ret, throw.
    cbn [fst snd pnl]. right.
    destruct pnl_; cbn [fst snd closedPositions]; try (by eexists);
      rewrite run_removeOpenPosition; cbn [openPositions closedPositions log];
      destruct (openPositions s !! sym);
      cbn [fst snd openPositions closedPositions];
      destruct pct_; cbn [fst snd closedPositions]; by eexists.
  - destruct (List.find _ eps); [|by left].
    unfold updatePositionData, mbind, M_bind, bind, get_open.
    destruct (openPositions s !! sym); by left.
Qed.

(** X8.  The closed history is append-only: adding or removing an open
    position leaves it as it is, and recording a closed position or running
    a reconciliation step keeps every earlier entry in place and appends at
    most one.  Only the daily reset shortens it. *)
Theorem X8_closed_history_is_append_only (now : Z) (nowq : Z)
    (pd : Position) (sym : JsString) (c : ClosedPosition)
    (exchangePositions : JsString + list ExchangePosition)
    (trades : JsString + list Fill) (tracked : Position) (s : Service) :
  closedPositions (exec (addOpenPosition nowq pd) s) = closedPositions s
  /\ closedPositions (exec (removeOpenPosition sym) s) = closedPositions s
  /\ (exists c', closedPositions (exec (addClosedPosition now c) s)
                 = closedPositions s ++ [c'])
  /\ (let l' := closedPositions
                  (exec (checkPosition now exchangePositions trades sym
                           tracked) s) in
      closedPositions s `prefix_of` l'
      /\ length l' <= S (length (closedPositions s))).
Proof.
  split; [|split; [|split]].
  - by rewrite exec_addOpenPosition.
  - unfold exec. rewrite run_removeOpenPosition.
    by destruct (openPositions s !! sym).
  - unfold exec, addClosedPosition, mbind, M_bind, bind, get_closed,
      set_closed, toFixed.
    destruct (pnl c); by eexists.
  - cbv zeta.
    destruct (closed_after_check now exchangePositions trades sym tracked s)
      as [-> | (c' & -> & _)].
    + split; [done | lia].
    + split; [by exists [c'] | rewrite length_app; simpl; lia].
Qed.

Lemma handlePositionClosed_returns now trades sym tracked s :
  result (handlePositionClosed now trades sym tracked) s = inr tt.
Proof.
  unfold result, handlePositionClosed, try_catch.
  destruct trades as [e | trades0]; [done|].
  set (pnl_ := calculatePnL _ _ _ _). set (pct_ := calculatePnLPercent _ _ _).
  unfold mbind, M_bind, bind, addClosedPosition, mbind, M_bind, bind,
    get_closed, set_closed, toFixed, logger, ret, throw.
  cbn [fst snd pnl].
  destruct pnl_; cbn [fst snd]; try done;
    rewrite run_removeOpenPosition; cbn [openPositions];
    destruct (openPositions s !! sym); cbn [fst snd];
    destruct pct_; by cbn [fst snd].
Qed.

(** X11.  A reconciliation step never throws: whatever the venue answers,
    and whatever the helpers return, [handlePositionClosed] and the step
    around it end normally. *)
Theorem X11_reconciliation_never_throws (now : Z)
    (exchangePositions : JsString + list ExchangePosition)
    (trades : JsString + list Fill) (sym : JsString) (tracked : Position)
    (s : Service) :
  result (handlePositionClosed now trades sym tracked) s = inr tt
  /\ result (checkPosition now exchangePositions trades sym tracked) s
     = inr tt.
Proof.
  split; [apply handlePositionClosed_returns|].
  unfold result, checkPosition, try_catch.
  destruct exchangePositions as [e | eps]; [done|].
  destruct (venue_closed sym eps).
  - pose proof (handlePositionClosed_returns now trades sym tracked s) as Hh.
    unfold result in Hh.
    destruct (handlePositionClosed now trades sym tracked s) as [[e|[]] s'];
      by cbn in *.
  - destruct (List.find _ eps); [|done].
    unfold updatePositionData, mbind, M_bind, bind, get_open.
    by destruct (openPositions s !! sym).
Qed.

(** X12.  When a query to the venue fails, the step changes nothing in the
    ledger and logs one error: the position stays open to be looked at again
    on the next tick. *)
Theorem X12_failed_query_leaves_ledger (now : Z) (e : JsString)
    (exchangePositions : list ExchangePosition)
    (trades : JsString + list Fill) (sym : JsString) (tracked : Position)
    (s : Service) :
  exec (checkPosition now (inl e) trades sym tracked) s
  = {| openPositions := openPositions s;
       closedPositions := closedPositions s;
       log := log s ++ [{| level := ERROR;
                           message := ErrorCheckingPosition sym e |}] |}
  /\ (venue_closed sym exchangePositions = true ->
      exec (checkPosition now (inr exchangePositions) (inl e) sym tracked) s
      = {| openPositions := openPositions s;
           closedPositions := closedPositions s;
           log := log s ++ [{| level := ERROR;
                               message := ErrorHandlingClosed e |}] |}).
Proof.
  split; [reflexivity|].
  intros Hc. unfold exec, checkPosition, try_catch. by rewrite Hc.
Qed.

(** X13.  While the venue still reports the position with a size that is
    not zero, the step is read-only: the open positions and the closed
    history are what they were. *)
Theorem X13_live_position_is_only_read (now : Z)
    (exchangePositions : list ExchangePosition)
    (trades : JsString + list Fill) (sym : JsString) (tracked : Position)
    (s : Service) :
  venue_closed sym exchangePositions = false ->
  let s' := exec (checkPosition now (inr exchangePositions) trades sym
                    tracked) s in
  openPositions s' = openPositions s
  /\ closedPositions s' = closedPositions s.
Proof.
  intros Hc s'. subst s'. unfold exec, checkPosition, try_catch. rewrite Hc.
  destruct (List.find _ exchangePositions); [|done].
  unfold updatePositionData, mbind, M_bind, bind, get_open.
  by destruct (openPositions s !! sym).
Qed.

(** X14.  A reconciliation step for one symbol leaves the entry of every
    other symbol untouched. *)
Theorem X14_reconciliation_frame (now : Z)
    (exchangePositions : JsString + list ExchangePosition)
    (trades : JsString + list Fill) (sym other : JsString)
    (tracked : Position) (s : Service) :
  other <> sym ->
  openPositions (exec (checkPosition now exchangePositions trades sym
                         tracked) s) !! other
  = openPositions s !! other.
Proof.
  intros Hne.
  destruct (open_after_check now exchangePositions trades sym tracked s)
    as [-> | ->]; [done|].
  by apply lookup_delete_ne.
Qed.

(** The record that [handlePositionClosed] appends once the trade history
    has been fetched; it is appended whether or not the log lines that
    follow can be formatted. *)
Lemma closed_after_handle now trades sym tracked s :
  closedPositions (exec (handlePositionClosed now (inr trades) sym tracked) s)
  = closedPositions s ++
    [let exitPrice :=
       match List.find (is_close_trade sym tracked) trades with
       | Some t => parseFloat_quote
                     (if given (price t) then price t else execPrice t)
       | None => entryPrice tracked
       end in
     {| position := tracked; exitPrice := exitPrice;
        pnl := calculatePnL (entryPrice tracked) exitPrice
                 (quantity tracked) (direction tracked);
        pnlPercent := calculatePnLPercent (entryPrice tracked) exitPrice
                        (direction tracked);
        duration := formatDuration (elapsed_seconds now tracked);
        closedAt := now |}].
Proof.
  unfold exec, handlePositionClosed, try_catch. cbv zeta.
  set (exit_ := match List.find _ trades with Some _ => _ | None => _ end).
  set (pnl_ := calculatePnL _ _ _ _). set (pct_ := calculatePnLPercent _ _ _).
  unfold mbind, M_bind, bind, addClosedPosition, mbind, M_bind, bind,
    get_closed, set_closed, toFixed, logger, ret, throw.
  cbn [fst snd pnl position exitPrice pnlPercent duration].
  destruct pnl_ eqn:Ep; cbn [fst snd closedPositions]; try done;
    rewrite run_removeOpenPosition; cbn [openPositions closedPositions log];
    destruct (openPositions s !! sym);
    cbn [fst snd openPositions closedPositions];
    destruct pct_; by cbn [fst snd closedPositions].
Qed.

Lemma filter_length_le_total {A} (f : A -> bool) (l : list A) :
  length (List.filter f l) <= length l.
Proof. induction l as [|x l IH]; simpl; [lia|]. destruct (f x); simpl; lia. Qed.

(** X9.  The statistics are an exact account of the closed history: wins
    and losses add up to the number of trades, and recording a closed
    position adds one trade, booked as a win exactly when [pnl >= 0] holds
    in JavaScript: for a pnl that is a number from zero up, and for a pnl of
    null, which the comparison reads as zero; a pnl that is negative, NaN or
    undefined is a loss. *)
Theorem X9_statistics_account (now : Z) (c : ClosedPosition) (s : Service) :
  let st := getStatistics s in
  let st' := getStatistics (exec (addClosedPosition now c) s) in
  winTrades st + loseTrades st = totalTrades st
  /\ stat_openPositions st = getOpenPositionsCount s
  /\ totalTrades st' = S (totalTrades st)
  /\ winTrades st'
     = winTrades st + (if js_ge (pnl c) (Num 0) then 1 else 0)
  /\ loseTrades st'
     = loseTrades st + (if js_ge (pnl c) (Num 0) then 0 else 1)
  /\ (js_ge (pnl c) (Num 0) = true <->
      pnl c = Null \/ exists q, pnl c = Num q /\ (0 <= q)%Q).
Proof.
  cbv zeta.
  assert (js_ge (pnl c) (Num 0) = true <->
          pnl c = Null \/ exists q, pnl c = Num q /\ (0 <= q)%Q) as Hwin.
  { unfold js_ge, js_le. destruct (pnl c) as [| | |q]; cbn [toNumber].
    - split; [discriminate | intros [[=] | (q & [=] & _)]].
    - split; [by left | reflexivity].
    - split; [discriminate | intros [[=] | (q & [=] & _)]].
    - rewrite Qle_bool_iff. split.
      + intros Hq. right. by exists q.
      + by intros [[=] | (q' & [= <-] & Hq)]. }
  cut (winTrades (getStatistics s) + loseTrades (getStatistics s)
       = totalTrades (getStatistics s)
       /\ stat_openPositions (getStatistics s) = getOpenPositionsCount s
       /\ totalTrades (getStatistics (exec (addClosedPosition now c) s))
          = S (totalTrades (getStatistics s))
       /\ winTrades (getStatistics (exec (addClosedPosition now c) s))
          = winTrades (getStatistics s)
            + (if js_ge (pnl c) (Num 0) then 1 else 0)
       /\ loseTrades (getStatistics (exec (addClosedPosition now c) s))
          = loseTrades (getStatistics s)
            + (if js_ge (pnl c) (Num 0) then 0 else 1)).
  { intros (H1 & H2 & H3 & H4 & H5).
    split; [exact H1|]. split; [exact H2|]. split; [exact H3|].
    split; [exact H4|]. split; [exact H5 | exact Hwin]. }
  clear Hwin.
  assert (closedPositions (exec (addClosedPosition now c) s)
          = closedPositions s ++
            [{| position := position c; exitPrice := exitPrice c;
                pnl := pnl c; pnlPercent := pnlPercent c;
                duration := duration c; closedAt := now |}]) as Hc.
  { unfold exec, addClosedPosition, mbind, M_bind, bind, get_closed,
      set_closed, toFixed.
    by destruct (pnl c). }
  unfold getStatistics.
  cbn [totalTrades winTrades loseTrades stat_openPositions]. rewrite Hc.
  rewrite List.filter_app, !length_app. cbn [List.filter pnl].
  pose proof (filter_length_le_total
                (fun p => js_ge (pnl p) (Num 0)) (closedPositions s)).
  destruct (js_ge (pnl c) (Num 0)); simpl; repeat split; lia.
Qed.

(** X10.  A position that reconciliation closes without a matching fill
    is booked as a winning trade: with helpers for which equal entry and
    exit price give a pnl of zero, the step adds one trade and one win, and
    no loss. *)
Theorem X10_fallback_close_counts_as_win (now : Z)
    (exchangePositions : list ExchangePosition) (trades : list Fill)
    (sym : JsString) (tracked : Position) (s : Service) (e q : Q) :
  HelperLaws.flat_pnl ->
  venue_closed sym exchangePositions = true ->
  Forall (fun t => ~ closing_side tracked t) trades ->
  entryPrice tracked = Num e -> quantity tracked = Num q ->
  let st := getStatistics s in
  let st' := getStatistics
               (exec (checkPosition now (inr exchangePositions) (inr trades)
                        sym tracked) s) in
  totalTrades st' = S (totalTrades st)
  /\ winTrades st' = S (winTrades st)
  /\ loseTrades st' = loseTrades st.
Proof.
  intros [Hpnl _] Hclosed Hfills He Hq. cbv zeta.
  unfold getStatistics. cbn [totalTrades winTrades loseTrades].
  assert (closedPositions
            (exec (checkPosition now (inr exchangePositions) (inr trades)
                     sym tracked) s)
          = closedPositions
              (exec (handlePositionClosed now (inr trades) sym tracked) s))
    as ->.
  { unfold exec at 1. unfold checkPosition, try_catch. rewrite Hclosed.
    pose proof (handlePositionClosed_returns now (inr trades) sym tracked s)
      as Hh.
    unfold result in Hh. unfold exec.
    by destruct (handlePositionClosed now (inr trades) sym tracked s)
      as [[?|[]] ?]. }
  rewrite closed_after_handle, (no_closing_fill sym tracked trades Hfills).
  cbv zeta. rewrite He, Hq.
  destruct (is_zero_Num _ (Hpnl e q (direction tracked))) as (z & Ez & Hz).
  rewrite Ez, List.filter_app, !length_app. cbn [List.filter pnl].
  assert (js_ge (Num z) (Num 0) = true) as ->.
  { unfold js_ge, js_le. cbn [toNumber]. apply Qle_bool_iff. rewrite Hz.
    apply Qle_refl. }
  pose proof (filter_length_le_total
                (fun p => js_ge (pnl p) (Num 0)) (closedPositions s)).
  simpl. repeat split; lia.
Qed.

End WithHelpers.

Lemma X10_fallback_close_counts_as_win_witness :
  let st' := getStatistics
               (exec (@checkPosition HelperLaws.usual 13000 (inr [])
                        (inr [LedgerExamples.buy_fill]) (js "TAKEUSDTM")
                        LedgerExamples.take_long) LedgerExamples.one_open) in
  totalTrades st' = 1 /\ winTrades st' = 1 /\ loseTrades st' = 0.
Proof.
  apply (@X10_fallback_close_counts_as_win HelperLaws.usual 13000 []
           [LedgerExamples.buy_fill] (js "TAKEUSDTM") LedgerExamples.take_long
           LedgerExamples.one_open 10 500).
  - exact usual_flat_pnl.
  - reflexivity.
  - constructor; [|constructor].
    intros [[Hs _] | [_ Hd]]; [vm_compute in Hs | vm_compute in Hd];
      discriminate.
  - reflexivity.
  - reflexivity.
Defined.

Lemma X13_live_position_is_only_read_witness :
  let s' := exec (@checkPosition HelperLaws.usual 13000
                    (inr [MoreExamples.live_take]) (inr [])
                    (js "TAKEUSDTM") LedgerExamples.take_long)
              LedgerExamples.one_open in
  openPositions s' = openPositions LedgerExamples.one_open
  /\ closedPositions s' = closedPositions LedgerExamples.one_open.
Proof.
  apply (@X13_live_position_is_only_read HelperLaws.usual 13000
           [MoreExamples.live_take] (inr []) (js "TAKEUSDTM")
           LedgerExamples.take_long LedgerExamples.one_open).
  reflexivity.
Defined.

Lemma X14_reconciliation_frame_witness :
  openPositions
    (exec (@checkPosition HelperLaws.usual 13000 (inr []) (inr [])
             (js "TAKEUSDTM") LedgerExamples.take_long)
       MoreExamples.two_open) !! js "BLESSUSDTM"
  = openPositions MoreExamples.two_open !! js "BLESSUSDTM".
Proof.
  apply (@X14_reconciliation_frame HelperLaws.usual 13000 (inr []) (inr [])
           (js "TAKEUSDTM") (js "BLESSUSDTM") LedgerExamples.take_long
           MoreExamples.two_open).
  vm_compute. discriminate.
Defined.

Lemma X12_failed_query_leaves_ledger_witness :
  openPositions
    (exec (@checkPosition HelperLaws.usual 13000 (inr [])
             (inl (js "Request timed out")) (js "TAKEUSDTM")
             LedgerExamples.take_long) LedgerExamples.one_open)
  = openPositions LedgerExamples.one_open.
Proof.
  rewrite (proj2 (@X12_failed_query_leaves_ledger HelperLaws.usual 13000
                    (js "Request timed out") [] (inl (js "Request timed out"))
                    (js "TAKEUSDTM") LedgerExamples.take_long
                    LedgerExamples.one_open) eq_refl).
  reflexivity.
Defined.

(** A closing fill whose [price] is the string "0" (a market order) is
    taken at that price: the string is true as a condition, so [execPrice]
    is not read, and the position is closed at an exit price of 0. *)
Lemma string_zero_price_is_taken :
  exitPrice <$>
    closedPositions
      (exec (@handlePositionClosed HelperLaws.usual 13000
               (inr [LedgerExamples.sell_fill]) (js "TAKEUSDTM")
               LedgerExamples.take_long) LedgerExamples.one_open)
  = [Num 0].
Proof. vm_compute. reflexivity. Qed.

End LedgerExtras.

(* ===================================================================== *)
(** ** telegram.service.js: EXIT alerts and the dispatch *)
(* ===================================================================== *)

Section ExitExtras.

Import Telegram TelegramExit.

Ltac no_if t :=
  lazymatch t with
  | context [if _ then _ else _] => fail
  | _ => idtac
  end.

Ltac split_cmp :=
  repeat match goal with
         | |- context [(?a <=? ?b)%N] =>
             no_if a; no_if b; destruct (N.leb_spec a b); try lia
         | |- context [(?a =? ?b)%N] =>
             no_if a; no_if b; destruct (N.eqb_spec a b); try lia
         end.

(** Under the [i] flag the class [[A-Z0-9]] holds the ASCII letters of
    both cases and the digits, and nothing else. *)
Lemma alnum_ci_ascii c : alnum_ci c = ascii_alnum c.
Proof.
  unfold alnum_ci, ascii_alnum, upper_alnum, digit, canonicalize.
  split_cmp; cbn; split_cmp; reflexivity.
Qed.

Lemma forallb_alnum s : forallb alnum_ci s = forallb ascii_alnum s.
Proof. induction s as [|c s IH]; cbn; [done|]. by rewrite alnum_ci_ascii, IH. Qed.

Lemma white_not_alnum c : white c = true -> alnum_ci c = false.
Proof.
  rewrite alnum_ci_ascii. unfold white, ascii_alnum, digit.
  split_cmp; cbn; congruence.
Qed.

Lemma search_sound m text r :
  search m text = Some r ->
  exists before s, text = before ++ s /\ m s = Some r.
Proof.
  induction text as [|x text IH]; cbn [search].
  - destruct (m []) eqn:E; [|discriminate]. intros [= <-]. by exists [], [].
  - destruct (m (x :: text)) eqn:E.
    + intros [= <-]. by exists [], (x :: text).
    + intros (before & s & -> & Hs)%IH. by exists (x :: before), s.
Qed.

Lemma search_complete m before s :
  is_Some (m s) -> is_Some (search m (before ++ s)).
Proof.
  intros Hs. induction before as [|x before IH].
  - destruct s; cbn [app search]; destruct Hs as [r ->]; by eexists.
  - cbn [app search]. by destruct (m (x :: before ++ s)).
Qed.

Lemma lazy_loop_sound p k s r :
  lazy_loop p k s = Some r ->
  exists run s2 r', forallb p run = true /\ s = run ++ s2
    /\ k s2 = Some r' /\ m0 r = run ++ m0 r' /\ m1 r = m1 r'.
Proof.
  revert r. induction s as [|x s IH]; intros r; cbn [lazy_loop].
  - destruct (k []) eqn:E; [|discriminate]. intros [= ->].
    by exists [], [], r.
  - destruct (k (x :: s)) eqn:E.
    + intros [= ->]. by exists [], (x :: s), r.
    + destruct (p x) eqn:Hp; [|discriminate].
      destruct (lazy_loop p k s) as [r1|]; [|discriminate].
      intros [= <-].
      destruct (IH r1 eq_refl) as (run & s2 & r' & ? & -> & ? & H1 & ?).
      exists (x :: run), s2, r'. cbn. rewrite Hp. cbn [andb].
      by rewrite H1.
Qed.

Lemma lazy_loop_complete p k mid s :
  forallb p mid = true -> is_Some (k s) ->
  is_Some (lazy_loop p k (mid ++ s)).
Proof.
  intros Hmid Hk. induction mid as [|x mid IH].
  - destruct s; cbn [app lazy_loop]; destruct Hk as [r ->]; by eexists.
  - cbn in Hmid. apply andb_true_iff in Hmid as [Hx Hmid].
    cbn [app lazy_loop]. destruct (k (x :: mid ++ s)); [by eexists|].
    rewrite Hx. destruct (IH Hmid) as [r ->]. by eexists.
Qed.

Lemma plus_loop_some p k acc s :
  is_Some (k s) -> is_Some (plus_loop p k acc s).
Proof.
  intros [r Hk].
  destruct s as [|x s]; cbn [plus_loop]; [rewrite Hk; by eexists|].
  destruct (p x); [destruct (plus_loop p k (acc ++ [x]) s); [by eexists|]|];
    rewrite Hk; by eexists.
Qed.

(** The letters of a word match themselves, in either case. *)
Lemma match_lits_spelled l lab s :
  spelled l lab -> is_Some (match_atoms true (lits l) (lab ++ s)).
Proof.
  induction 1 as [|c x l lab Hc _ IH]; [by eexists|].
  cbn [lits map app match_atoms]. rewrite Hc.
  destruct IH as [r Hr]. unfold lits in Hr. rewrite Hr. by eexists.
Qed.

Lemma matches_lits_end ic pre l m cap :
  matches ic (pre ++ lits l) m cap ->
  exists m' lab, m = m' ++ lab
    /\ Forall2 (fun c x => unit_matches ic c x = true) l lab
    /\ matches ic pre m' cap.
Proof.
  revert m cap. induction pre as [|a pre IH]; intros m cap Hm.
  - cbn [app] in Hm. rewrite <- (app_nil_r (lits l)) in Hm.
    apply matches_lits_inv in Hm as (lab & m' & Hl & -> & Hm').
    inversion Hm'; subst. exists [], lab. rewrite app_nil_r.
    by repeat split; [|constructor].
  - cbn [app] in Hm.
    inversion Hm as [| c ? x m2 ? Hc Hm2 | p ? x m2 ? Hp Hm2
                     | p ? run m2 ? Hrun Hm2 | p ? run m2 cap2 Hne Hrun Hm2];
      subst; destruct (IH _ _ Hm2) as (m' & lab & -> & Hl & Hpre).
    + exists (x :: m'), lab. by repeat split; [|constructor].
    + exists (x :: m'), lab. by repeat split; [|constructor].
    + exists (run ++ m'), lab. rewrite app_assoc.
      by repeat split; [|constructor].
    + exists (run ++ m'), lab. rewrite app_assoc.
      repeat split; [done|]. by apply matches_group with (cap := cap2).
Qed.

Lemma matches_capture ic pat m sym :
  matches ic pat m (Some sym) ->
  sym <> [] /\ (exists a b, m = a ++ sym ++ b)
  /\ exists p, In (GroupPlus p) pat /\ forallb p sym = true.
Proof.
  remember (Some sym) as cap eqn:Ecap. intros Hm. revert Ecap.
  induction Hm as [| c pat x m cap Hc Hm IH | p pat x m cap Hp Hm IH
                   | p pat run m cap Hrun Hm IH
                   | p pat run m cap Hne Hrun Hm IH]; intros Ecap.
  - discriminate.
  - destruct (IH Ecap) as (? & (a & b & ->) & q & ? & ?).
    repeat split; [done | by exists (x :: a), b | exists q; by split; [right|]].
  - destruct (IH Ecap) as (? & (a & b & ->) & q & ? & ?).
    repeat split; [done | by exists (x :: a), b | exists q; by split; [right|]].
  - destruct (IH Ecap) as (? & (a & b & ->) & q & ? & ?).
    repeat split; [done | exists (run ++ a), b; by rewrite <- app_assoc
                  | exists q; by split; [right|]].
  - injection Ecap as <-.
    repeat split; [done | by exists [], m | exists p; by split; [left|]].
Qed.

Lemma no_group_in_lits p l : ~ In (GroupPlus p) (lits l).
Proof. unfold lits. by intros (c & ? & _)%in_map_iff. Qed.

Lemma matches_no_capture ic pat m :
  matches ic pat m None -> forall p, ~ In (GroupPlus p) pat.
Proof.
  remember None as cap eqn:Ecap. intros Hm. revert Ecap.
  induction Hm as [| c pat x m cap Hc Hm IH | p pat x m cap Hp Hm IH
                   | p pat run m cap Hrun Hm IH
                   | p pat run m cap Hne Hrun Hm IH]; intros Ecap q;
    try discriminate.
  - by intros [].
  - intros [[=] | Hin]. by apply (IH Ecap q).
  - intros [[=] | Hin]. by apply (IH Ecap q).
  - intros [[=] | Hin]. by apply (IH Ecap q).
Qed.

(** What a match of one of the three anchored patterns says about the
    text: the capture is a run of the class, and the word follows it. *)
Lemma anchored_match_sound pre text r :
  (exists p, In (GroupPlus p) pre) ->
  (forall p, In (GroupPlus p) pre -> p = alnum_ci) ->
  jsmatch {| atoms := pre ++ lits EQUALISED; ignoreCase := true |} text
  = Some r ->
  exists sym, m1 r = Some sym /\ sym <> []
    /\ forallb alnum_ci sym = true
    /\ exists before mid lab after,
         text = before ++ sym ++ mid ++ lab ++ after
         /\ spelled EQUALISED lab.
Proof.
  intros [p0 Hp0] Hpre [(before & after & ->) Hm]%jsmatch_atoms_sound.
  cbn [atoms ignoreCase] in Hm.
  apply matches_lits_end in Hm as (m' & lab & Hr & Hlab & Hm').
  destruct (m1 r) as [sym|] eqn:E.
  - destruct (matches_capture _ _ _ _ Hm')
      as (Hne & (a & b & ->) & p & Hin & Hp).
    rewrite (Hpre _ Hin) in Hp.
    exists sym. repeat split; [done | done |].
    exists (before ++ a), b, lab, after. split; [|done].
    rewrite Hr. by rewrite <- !app_assoc.
  - by destruct (matches_no_capture _ _ _ Hm' p0).
Qed.

Lemma group_of_anchored tail :
  ~ (exists p, In (GroupPlus p) tail) ->
  let pre := lits CHECK_MARK ++ [Star white; GroupPlus alnum_ci] ++ tail in
  (exists p, In (GroupPlus p) pre)
  /\ (forall p, In (GroupPlus p) pre -> p = alnum_ci).
Proof.
  intros Htail pre. subst pre. split.
  - exists alnum_ci. apply in_or_app. right. right. by left.
  - intros p [Hin | Hin]%in_app_or; [by destruct (no_group_in_lits _ _ Hin)|].
    destruct Hin as [[=] | [[= ->] | Hin]]; [done|].
    destruct Htail. by exists p.
Qed.

Lemma fallback_match_sound s r :
  match_fallback s = Some r ->
  exists sym, m1 r = Some sym /\ sym <> []
    /\ forallb alnum_ci sym = true
    /\ exists mid lab after,
         s = sym ++ mid ++ lab ++ after
         /\ forallb dot mid = true /\ spelled EQUALISED lab.
Proof.
  unfold match_fallback. destruct s as [|x s]; [discriminate|].
  destruct (alnum_ci x) eqn:Hx; [|discriminate].
  intros (run & s2 & r1 & Hrun & -> & Hk & _ & Hcap)%plus_loop_sound.
  apply lazy_loop_sound in Hk as (mid & s3 & r2 & Hmid & -> & Hk & _ & _).
  apply (match_atoms_sound true) in Hk as [[after Hafter] Hm].
  rewrite <- (app_nil_r (lits EQUALISED)) in Hm.
  apply matches_lits_inv in Hm as (lab & m' & Hlab & Hr2 & Hm').
  inversion Hm'; subst m'. rewrite app_nil_r in Hr2.
  exists (x :: run). repeat split; [done | done | |].
  - cbn. by rewrite Hx, Hrun.
  - exists mid, lab, after. repeat split; [|done|done].
    by rewrite Hafter, Hr2.
Qed.

(** X15.  The symbol of an EXIT signal is taken from the text: it is a
    non-empty run of ASCII letters and digits (of either case) that stands
    in the text before an occurrence of the word that announces the exit,
    whatever its letter case; the signal's type is CLOSE. *)
Theorem X15_exit_symbol_is_read_from_text (now : Z) (text : JsString)
    (signal : ExitSignal) :
  _parseExitSignal now text = Some signal ->
  exit_type signal = CLOSE
  /\ exit_timestamp signal = now
  /\ exit_symbol signal <> []
  /\ forallb ascii_alnum (exit_symbol signal) = true
  /\ exists before mid lab after,
       text = before ++ exit_symbol signal ++ mid ++ lab ++ after
       /\ spelled EQUALISED lab.
Proof.
  unfold _parseExitSignal.
  destruct (symbolMatch text) as [r|] eqn:Hr; [|discriminate].
  intros [= <-]. cbn [exit_type exit_timestamp exit_symbol].
  split; [done|]. split; [done|].
  assert (exists sym, m1 r = Some sym /\ sym <> []
            /\ forallb alnum_ci sym = true
            /\ exists before mid lab after,
                 text = before ++ sym ++ mid ++ lab ++ after
                 /\ spelled EQUALISED lab) as (sym & Hsym & Hne & Hal & Hin).
  { unfold symbolMatch in Hr.
    destruct (jsmatch exitRe_prices text) as [r1|] eqn:E1.
    { injection Hr as ->.
      destruct (group_of_anchored
                  ([Star white; Lit 45%N; Star white] ++ lits PRICES ++ whites))
        as [Hex Hall].
      { intros [p [[=] | [[=] | [[=] | Hp]]]].
        apply (in_app_or (lits PRICES) whites) in Hp as [Hp | Hp].
        - by destruct (no_group_in_lits _ _ Hp).
        - by destruct Hp as [[=] | [[=] | []]]. }
      by apply (anchored_match_sound _ _ _ Hex Hall). }
    destruct (jsmatch exitRe_dash text) as [r2|] eqn:E2.
    { injection Hr as ->.
      destruct (group_of_anchored [Star white; Lit 45%N; Star white])
        as [Hex Hall].
      { by intros [p [[=] | [[=] | [[=] | []]]]]. }
      by apply (anchored_match_sound _ _ _ Hex Hall). }
    destruct (jsmatch exitRe_plain text) as [r3|] eqn:E3.
    { injection Hr as ->.
      destruct (group_of_anchored whites) as [Hex Hall].
      { by intros [p [[=] | [[=] | []]]]. }
      by apply (anchored_match_sound _ _ _ Hex Hall). }
    apply search_sound in Hr as (before & s & -> & Hs).
    apply fallback_match_sound in Hs
      as (sym & ? & ? & ? & mid & lab & after & -> & _ & ?).
    exists sym. repeat split; [done | done | done |].
    by exists before, mid, lab, after. }
  unfold group1. rewrite Hsym. cbn [default].
  split; [done|]. split; [|done].
  by rewrite <- forallb_alnum.
Qed.

(** X16.  The last attempt of the EXIT parser accepts any text in which an
    ASCII letter or digit is followed on the same line by the word, in any
    letter case: such a text always gives an EXIT signal. *)
Theorem X16_exit_fallback_accepts (now : Z) (before : JsString) (c : unit16)
    (mid lab after : JsString) :
  ascii_alnum c = true -> forallb dot mid = true -> spelled EQUALISED lab ->
  is_Some (_parseExitSignal now (before ++ c :: mid ++ lab ++ after)).
Proof.
  intros Hc Hmid Hlab.
  assert (is_Some (symbolMatch (before ++ c :: mid ++ lab ++ after)))
    as [r Hr].
  { unfold symbolMatch.
    destruct (jsmatch exitRe_prices _); [by eexists|].
    destruct (jsmatch exitRe_dash _); [by eexists|].
    destruct (jsmatch exitRe_plain _); [by eexists|].
    apply search_complete. unfold match_fallback.
    rewrite alnum_ci_ascii, Hc.
    apply plus_loop_some, lazy_loop_complete; [done|].
    by apply match_lits_spelled. }
  unfold _parseExitSignal. rewrite Hr. by eexists.
Qed.

Lemma X16_exit_fallback_accepts_witness :
  is_Some (_parseExitSignal 0 sample_chatter).
Proof.
  apply (X16_exit_fallback_accepts 0 (js "Курсы ") 98%N (js "tc и eth ")
           EQUALISED []).
  - reflexivity.
  - reflexivity.
  - unfold spelled. repeat constructor.
Defined.

Lemma unit_matches_refl ic c : unit_matches ic c c = true.
Proof. destruct ic; apply N.eqb_refl. Qed.

Lemma step_lit ic c pat s cap :
  captures ic pat s cap -> captures ic (Lit c :: pat) (c :: s) cap.
Proof.
  intros (r & Hr & Hcap). exists (push c r).
  cbn [match_atoms]. by rewrite unit_matches_refl, Hr.
Qed.

Lemma step_lits ic l pat s cap :
  captures ic pat s cap -> captures ic (lits l ++ pat) (l ++ s) cap.
Proof.
  intros Hs. induction l as [|c l IH]; [done|]. by apply step_lit.
Qed.

Lemma step_cls ic p pat x s cap :
  p x = true -> captures ic pat s cap ->
  captures ic (Cls p :: pat) (x :: s) cap.
Proof.
  intros Hp (r & Hr & Hcap). exists (push x r).
  cbn [match_atoms]. by rewrite Hp, Hr.
Qed.

Lemma step_star ic p pat run s cap :
  forallb p run = true -> stops p s -> captures ic pat s cap ->
  captures ic (Star p :: pat) (run ++ s) cap.
Proof.
  intros Hrun Hstop (r & Hr & Hcap). unfold captures. cbn [match_atoms].
  induction run as [|x run IH].
  - exists r. split; [|done]. destruct s as [|x s]; [done|].
    cbn [app star_loop]. cbn in Hstop. by rewrite Hstop.
  - cbn in Hrun. apply andb_true_iff in Hrun as [Hx Hrun].
    destruct (IH Hrun) as (r' & Hr' & Hcap').
    exists (push x r'). cbn [app star_loop]. by rewrite Hx, Hr'.
Qed.

Lemma plus_loop_greedy p k acc run s r :
  forallb p run = true -> stops p s -> k s = Some r ->
  plus_loop p k acc (run ++ s) = Some (capture (acc ++ run) r).
Proof.
  intros Hrun Hstop Hk. revert acc. induction run as [|x run IH]; intros acc.
  - rewrite app_nil_r. destruct s as [|x s]; cbn [app plus_loop].
    + by rewrite Hk.
    + cbn in Hstop. by rewrite Hstop, Hk.
  - cbn in Hrun. apply andb_true_iff in Hrun as [Hx Hrun].
    cbn [app plus_loop]. rewrite Hx, (IH Hrun).
    by rewrite <- app_assoc.
Qed.

Lemma step_group ic p pat run s cap :
  run <> [] -> forallb p run = true -> stops p s -> captures ic pat s cap ->
  captures ic (GroupPlus p :: pat) (run ++ s) (Some run).
Proof.
  intros Hne Hrun Hstop (r & Hr & _).
  destruct run as [|x run]; [done|].
  cbn in Hrun. apply andb_true_iff in Hrun as [Hx Hrun].
  exists (capture (x :: run) r). cbn [app match_atoms]. rewrite Hx.
  by rewrite (plus_loop_greedy _ _ [x] run s r Hrun Hstop Hr).
Qed.

Lemma stops_head p a s x :
  head a = Some x -> p x = false -> stops p (a ++ s).
Proof. destruct a; [done|]. by intros [= ->]. Qed.

Lemma jsmatch_here re text r :
  match_atoms (ignoreCase re) (atoms re) text = Some r ->
  jsmatch re text = Some r.
Proof.
  intros Hr. unfold jsmatch. destruct text; cbn [jsmatch_atoms]; by rewrite Hr.
Qed.

(** X17.  Round trip of the documented EXIT format: a text that starts
    with the check mark, a symbol of ASCII letters and digits, a dash, the
    prices word and the exit word (with any white space between them, and
    at least one white-space character before the exit word) is parsed to
    the CLOSE signal of exactly that symbol, in the letter case of the
    text, whatever follows. *)
Theorem X17_exit_format_round_trip (now : Z)
    (ws1 sym ws2 ws3 ws4 rest : JsString) :
  sym <> [] -> forallb ascii_alnum sym = true ->
  forallb white ws1 = true -> forallb white ws2 = true ->
  forallb white ws3 = true -> forallb white ws4 = true -> ws4 <> [] ->
  _parseExitSignal now (exit_text ws1 sym ws2 ws3 ws4 rest)
  = Some {| exit_type := CLOSE; exit_symbol := sym; exit_timestamp := now |}.
Proof.
  intros Hne Hsym H1 H2 H3 H4 Hne4.
  rewrite <- forallb_alnum in Hsym.
  assert (captures true (atoms exitRe_prices)
            (exit_text ws1 sym ws2 ws3 ws4 rest) (Some sym))
    as (r & Hr & Hcap).
  { unfold exitRe_prices, exit_text. cbn [atoms].
    apply step_lits. cbn [app].
    apply step_star; [done | |].
    { destruct sym as [|c sym]; [done|]. cbn in Hsym |- *.
      apply andb_true_iff in Hsym as [Hc _].
      destruct (white c) eqn:Hw; [|done].
      by rewrite (white_not_alnum _ Hw) in Hc. }
    apply step_group with (cap := None); [done | done | |].
    { destruct ws2 as [|w ws2]; [reflexivity|]. cbn in H2 |- *.
      apply andb_true_iff in H2 as [Hw _]. by apply white_not_alnum. }
    apply step_star; [done | reflexivity |].
    apply step_lit.
    apply step_star; [done | by apply stops_head with (x := 1062%N) |].
    apply step_lits. unfold whites. cbn [app].
    destruct ws4 as [|w ws4]; [done|]. cbn in H4.
    apply andb_true_iff in H4 as [Hw H4]. cbn [app].
    apply step_cls; [done|].
    apply step_star; [done | by apply stops_head with (x := 1089%N) |].
    rewrite <- (app_nil_r (lits EQUALISED)).
    apply step_lits. by eexists. }
  unfold _parseExitSignal, symbolMatch.
  rewrite (jsmatch_here exitRe_prices _ r Hr).
  unfold group1. by rewrite Hcap.
Qed.

Lemma X17_exit_format_round_trip_witness :
  _parseExitSignal 7 (exit_text (js " ") (js "BLESSUSDTM") (js " ") (js " ")
                        (js " ") (js "!"))
  = Some {| exit_type := CLOSE; exit_symbol := js "BLESSUSDTM";
            exit_timestamp := 7 |}.
Proof.
  apply (X17_exit_format_round_trip 7 (js " ") (js "BLESSUSDTM") (js " ")
           (js " ") (js " ") (js "!")); try reflexivity; discriminate.
Defined.

Lemma X15_exit_symbol_is_read_from_text_witness :
  exists before mid lab after,
    sample_exit = before ++ js "BLESSUSDTM" ++ mid ++ lab ++ after
    /\ spelled EQUALISED lab.
Proof.
  apply (X15_exit_symbol_is_read_from_text 0 sample_exit
           {| exit_type := CLOSE; exit_symbol := js "BLESSUSDTM";
              exit_timestamp := 0 |}).
  reflexivity.
Defined.

Section Dispatch.

Variable now : Z.
Variable _parseKuCoinTime : JsString -> Z.

Lemma parseSignal_cases text :
  parseSignal now _parseKuCoinTime text
  = if includes EQUALISED text then Exit <$> _parseExitSignal now text
    else None.
Proof.
  unfold parseSignal. destruct (includes EQUALISED text); [done|].
  destruct (includes ALERT_HEADER text); [|done].
  by destruct (parse_entry_returns_null now _parseKuCoinTime text) as [w ->].
Qed.

(** X18.  The filter in front of the parser never changes the outcome:
    every text the parser turns into a signal passes [isSignalMessage], so
    the message handler hands to the callbacks exactly what [parseSignal]
    returns for the text of the post (its text, else its caption). *)
Theorem X18_filter_is_not_lossy (msg : ChannelPost) :
  handleChannelMessage now _parseKuCoinTime msg
  = parseSignal now _parseKuCoinTime
      (str_or (msg_text msg) (str_or (msg_caption msg) [])).
Proof.
  unfold handleChannelMessage. cbv zeta.
  generalize (str_or (msg_text msg) (str_or (msg_caption msg) [])).
  intros text. destruct (isSignalMessage text) eqn:Hf; [done|].
  rewrite parseSignal_cases.
  destruct (includes EQUALISED text) eqn:Hi; [|done].
  destruct text as [|x text]; [discriminate|].
  unfold isSignalMessage in Hf. cbv zeta in Hf. rewrite Hi in Hf.
  by rewrite orb_true_r in Hf.
Qed.

(** X19.  No message ever reaches the callbacks as an ENTRY signal: the
    handler delivers EXIT signals only, of type CLOSE, and only for a post
    whose text contains the exit word in lower case. *)
Theorem X19_only_exit_signals_are_delivered (msg : ChannelPost)
    (signal : ParsedSignal) :
  handleChannelMessage now _parseKuCoinTime msg = Some signal ->
  let text := str_or (msg_text msg) (str_or (msg_caption msg) []) in
  includes EQUALISED text = true
  /\ exists exit, signal = Exit exit
       /\ _parseExitSignal now text = Some exit
       /\ exit_type exit = CLOSE.
Proof.
  cbv zeta. unfold handleChannelMessage. cbv zeta.
  generalize (str_or (msg_text msg) (str_or (msg_caption msg) [])).
  intros text. destruct (isSignalMessage text); [|discriminate].
  rewrite parseSignal_cases.
  destruct (includes EQUALISED text); [|discriminate].
  destruct (_parseExitSignal now text) as [exit|] eqn:He; [|discriminate].
  intros [= <-]. split; [done|]. exists exit. repeat split.
  unfold _parseExitSignal in He. destruct (symbolMatch text); [|discriminate].
  by injection He as <-.
Qed.

End Dispatch.

Lemma X19_only_exit_signals_are_delivered_witness :
  let msg := {| msg_text := None; msg_caption := Some sample_exit |} in
  let text := str_or (msg_text msg) (str_or (msg_caption msg) []) in
  includes EQUALISED text = true
  /\ exists exit,
       Exit {| exit_type := CLOSE; exit_symbol := js "BLESSUSDTM";
               exit_timestamp := 5 |} = Exit exit
       /\ _parseExitSignal 5 text = Some exit
       /\ exit_type exit = CLOSE.
Proof.
  intros msg.
  apply (X19_only_exit_signals_are_delivered 5 (fun _ => 0%Z) msg
           (Exit {| exit_type := CLOSE; exit_symbol := js "BLESSUSDTM";
                    exit_timestamp := 5 |})).
  vm_compute. reflexivity.
Defined.

End ExitExtras.

(* ===================================================================== *)
(** ** index.js: opening and closing positions *)
(* ===================================================================== *)

Section BotExtras.

Import Bot BotFacts.

Context `{Helpers}.
Variable config : Settings.Config.
Variable now : Z.
Variable toString : Z -> JsString.
Variable reason_includes : JsString -> Orchestrator.Reason -> bool.
Variable exchange : Exchange.

Lemma lookup_open symbol (s : PositionService.Service) :
  PositionService.hasOpenPosition symbol s
  = bool_decide (is_Some (PositionService.openPositions s !! symbol)).
Proof. reflexivity. Qed.

(** X20.  In live mode [closePosition] never touches the ledger, whatever
    the venue answers: the position stays tracked until the reconciliation
    sees it gone.  For a tracked symbol it posts exactly one closing order,
    on the side opposite to the tracked direction and for the floor of the
    tracked quantity; for an untracked symbol it posts nothing.  A message
    goes to the channel exactly when the call throws. *)
Theorem X20_live_close_posts_one_order (symbol : JsString) (d : Desk) :
  let r := closePosition config false exchange symbol d in
  positions (snd r) = positions d
  /\ statistics (snd r) = statistics d
  /\ orders (snd r)
     = orders d ++
       match PositionService.openPositions (positions d) !! symbol with
       | Some tracked => [exit_order config symbol tracked]
       | None => []
       end
  /\ notices (snd r)
     = notices d ++
       match fst r with
       | inl error => [ClosingFailed symbol error]
       | inr _ => []
       end.
Proof.
  cbv zeta. unfold closePosition, PositionService.getOpenPosition.
  rewrite lookup_open.
  destruct (PositionService.openPositions (positions d) !! symbol)
    as [tracked|] eqn:E.
  - rewrite bool_decide_eq_true_2 by (by eexists). cbn [negb].
    unfold closeMarketOrder, post. fold (exit_order config symbol tracked).
    destruct (postOrder exchange (exit_order config symbol tracked));
      cbn; by rewrite ?app_nil_r.
  - rewrite bool_decide_eq_false_2 by (by intros [? ?]). cbn.
    by rewrite !app_nil_r.
Qed.

(** X21.  In dry-run mode [closePosition] never throws, posts no order and
    sends no message; it drops the symbol from the open positions and
    records nothing in the closed history, so a trade closed in dry-run
    never enters the statistics of the position service. *)
Theorem X21_dry_run_close_is_not_recorded (symbol : JsString) (d : Desk) :
  let r := closePosition config true exchange symbol d in
  fst r = inr tt
  /\ orders (snd r) = orders d
  /\ notices (snd r) = notices d
  /\ statistics (snd r) = statistics d
  /\ PositionService.openPositions (positions (snd r))
     = delete symbol (PositionService.openPositions (positions d))
  /\ PositionService.closedPositions (positions (snd r))
     = PositionService.closedPositions (positions d).
Proof.
  cbv zeta. unfold closePosition, PositionService.getOpenPosition.
  rewrite lookup_open.
  destruct (PositionService.openPositions (positions d) !! symbol)
    as [tracked|] eqn:E.
  - rewrite bool_decide_eq_true_2 by (by eexists).
    cbn [negb fst snd].
    unfold positions in E.
    unfold positions, statistics, on_positions, with_world,
      PositionService.exec.
    cbn [world orders notices Orchestrator.positions Orchestrator.statistics].
    by rewrite run_removeOpenPosition, E.
  - rewrite bool_decide_eq_false_2 by (by intros [? ?]). cbn.
    by rewrite delete_id.
Qed.

(** What [openPosition] does, case by case. *)
Lemma openPosition_spec (dryRun : bool) (signal : Telegram.Signal)
    (d : Desk) :
  let r := openPosition config dryRun now toString exchange signal d in
  (exists e, fst r = inl e
     /\ (forall m b, e = MarginError m b -> Float64.is_finite m = false)
     /\ positions (snd r) = positions d
     /\ Orchestrator.totalTrades (statistics (snd r))
        = Orchestrator.totalTrades (statistics d)
     /\ Orchestrator.dailyTrades (statistics (snd r))
        = Orchestrator.dailyTrades (statistics d)
     /\ notices (snd r) = notices d
     /\ (orders (snd r) = orders d
         \/ dryRun = false
            /\ exists plan message,
                 postOrder exchange (entry_order config signal plan)
                 = inl message
                 /\ e = VenueError message
                 /\ orders (snd r)
                    = orders d ++ [entry_order config signal plan]))
  \/ (exists balance price info plan orderId,
        fst r = inr tt
        /\ getUSDTBalance exchange = inr balance
        /\ getCurrentPrice exchange (Telegram.symbol signal) = inr price
        /\ getSymbolInfo exchange (Telegram.symbol signal) = inr info
        /\ Risk.calculatePositionParameters config
             (Float64.of_value balance) (Float64.of_value price)
             (Telegram.direction signal) info = inr plan
        /\ Float64.is_finite (Risk.requiredMargin plan) = true
        /\ positions (snd r)
           = PositionService.exec
               (PositionService.addOpenPosition now
                  (positionData signal plan orderId)) (positions d)
        /\ Orchestrator.totalTrades (statistics (snd r))
           = (Orchestrator.totalTrades (statistics d) + 1)%Z
        /\ Orchestrator.dailyTrades (statistics (snd r))
           = (Orchestrator.dailyTrades (statistics d) + 1)%Z
        /\ notices (snd r) = notices d
        /\ if dryRun
           then orderId = js "DRY_RUN_" ++ toString now
                /\ orders (snd r) = orders d
           else postOrder exchange (entry_order config signal plan)
                = inr orderId
                /\ orders (snd r)
                   = orders d ++ [entry_order config signal plan]).
Proof.
  cbv zeta. unfold openPosition.
  destruct (getUSDTBalance exchange) as [m | balance] eqn:Eb.
  { left. exists (VenueError m). by repeat split; [|left]. }
  destruct (getCurrentPrice exchange (Telegram.symbol signal))
    as [m | price] eqn:Ep.
  { left. exists (VenueError m). by repeat split; [|left]. }
  destruct (getSymbolInfo exchange (Telegram.symbol signal))
    as [m | info] eqn:Ei.
  { left. exists (VenueError m). by repeat split; [|left]. }
  destruct (Risk.calculatePositionParameters config
              (Float64.of_value balance) (Float64.of_value price)
              (Telegram.direction signal) info) as [e | plan] eqn:Eplan.
  { left. exists (SizingError e). by repeat split; [|left]. }
  rewrite (plan_margin_check _ _ _ _ _ _ Eplan).
  destruct (Float64.is_finite (Risk.requiredMargin plan)) eqn:Hfin;
    cbn [negb].
  2:{ left. exists (MarginError (Risk.requiredMargin plan) balance).
      split; [done|]. split; [by intros m b [= <- <-]|].
      do 4 (split; [done|]). by left. }
  fold (positionData signal plan).
  destruct dryRun.
  - right.
    exists balance, price, info, plan, (js "DRY_RUN_" ++ toString now).
    by repeat split.
  - unfold openMarketOrder, post.
    fold (entry_order config signal plan).
    destruct (postOrder exchange (entry_order config signal plan))
      as [m | orderId] eqn:Eo.
    + left. exists (VenueError m). repeat split; try done.
      right. split; [done|]. by exists plan, m.
    + right. exists balance, price, info, plan, orderId. by repeat split.
Qed.

(** X22.  An [openPosition] that throws has changed nothing that counts:
    the ledger and the trade counters are as before, and no message was
    sent.  It throws the insufficient-balance error of its own check only
    for a plan whose margin is not a finite number (a leverage or a
    position size percent that is NaN), and an order was posted only if it
    is the venue that turned it down. *)
Theorem X22_failed_open_changes_nothing (dryRun : bool)
    (signal : Telegram.Signal) (d : Desk) (e : Failure) :
  let r := openPosition config dryRun now toString exchange signal d in
  fst r = inl e ->
  positions (snd r) = positions d
  /\ Orchestrator.totalTrades (statistics (snd r))
     = Orchestrator.totalTrades (statistics d)
  /\ Orchestrator.dailyTrades (statistics (snd r))
     = Orchestrator.dailyTrades (statistics d)
  /\ notices (snd r) = notices d
  /\ (forall m b, e = MarginError m b -> Float64.is_finite m = false)
  /\ (orders (snd r) = orders d
      \/ dryRun = false
         /\ exists plan message,
              postOrder exchange (entry_order config signal plan)
              = inl message
              /\ e = VenueError message
              /\ orders (snd r)
                 = orders d ++ [entry_order config signal plan]).
Proof.
  cbv zeta. intros He.
  destruct (openPosition_spec dryRun signal d)
    as [(e' & He' & ? & ? & ? & ? & ? & ?)
       | (? & ? & ? & ? & ? & Hok & _)]; [|congruence].
  rewrite He in He'. injection He' as <-. by repeat split.
Qed.


(** The numbers that [openPosition] hands to the ledger are finite: what
    the ledger holds is their exact value. *)
Lemma opened_position_numbers_are_exact (dryRun : bool)
    (signal : Telegram.Signal) (d : Desk) :
  let r := openPosition config dryRun now toString exchange signal d in
  fst r = inr tt ->
  exists plan orderId entryPrice quantity size,
    PositionService.openPositions (positions (snd r))
      !! Telegram.symbol signal
    = Some (PositionService.stored now (positionData signal plan orderId))
    /\ Float64.to_Q (Risk.entryPrice plan) = Some entryPrice
    /\ Float64.to_Q (Risk.quantity plan) = Some quantity
    /\ Float64.to_Q (Risk.positionSizeUSDT plan) = Some size
    /\ PositionService.entryPrice (positionData signal plan orderId)
       = Num entryPrice
    /\ PositionService.quantity (positionData signal plan orderId)
       = Num quantity
    /\ PositionService.positionSizeUSDT (positionData signal plan orderId)
       = Num size.
Proof.
  cbv zeta. intros Hok.
  destruct (openPosition_spec dryRun signal d)
    as [(e' & He' & _)
       | (balance & price & info & plan & orderId & _ & _ & _ & _
          & Hplan & Hfin & Hpos & _)]; [congruence|].
  destruct (accepted_plan_is_finite _ _ _ _ _ _ Hplan Hfin)
    as (Hs & Hq & Hp).
  assert (forall x, Float64.is_finite x = true ->
                    exists q, Float64.to_Q x = Some q
                              /\ Float64.to_value x = Num q) as Hexact.
  { intros x Hx. unfold Float64.to_value.
    destruct (Float64.to_Q x) as [q|] eqn:E; [by exists q|].
    by destruct x. }
  destruct (Hexact _ Hp) as (p & Ep & Vp).
  destruct (Hexact _ Hq) as (q & Eq & Vq).
  destruct (Hexact _ Hs) as (s & Es & Vs).
  exists plan, orderId, p, q, s. split.
  { rewrite Hpos, exec_addOpenPosition. cbn [PositionService.openPositions].
    by rewrite lookup_insert_eq. }
  by repeat split.
Qed.

Variable time : Orchestrator.TimeService.
Variable venue : Orchestrator.Venue.

(** The validation reads the ledger and the counters, and writes the
    balance and the trace of its requests only; a signal it accepts has
    passed the three gates on the ledger and the day. *)
Lemma validateSignal_keeps (signal : Telegram.Signal)
    (w : Orchestrator.World) :
  let r := Orchestrator.validateSignal config time venue signal w in
  Orchestrator.positions (snd r) = Orchestrator.positions w
  /\ Orchestrator.totalTrades (Orchestrator.statistics (snd r))
     = Orchestrator.totalTrades (Orchestrator.statistics w)
  /\ Orchestrator.dailyTrades (Orchestrator.statistics (snd r))
     = Orchestrator.dailyTrades (Orchestrator.statistics w)
  /\ Orchestrator.totalSignals (Orchestrator.statistics (snd r))
     = Orchestrator.totalSignals (Orchestrator.statistics w)
  /\ Orchestrator.signalsIgnored (Orchestrator.statistics (snd r))
     = Orchestrator.signalsIgnored (Orchestrator.statistics w)
  /\ (fst r = Orchestrator.Accepted ->
      PositionService.hasOpenPosition (Telegram.symbol signal)
        (Orchestrator.positions w) = false
      /\ Settings.reached (Settings.maxOpenPositions config)
           (Z.of_nat (PositionService.getOpenPositionsCount
                        (Orchestrator.positions w))) = false
      /\ Settings.reached (Settings.maxDailyTrades config)
           (Orchestrator.dailyTrades (Orchestrator.statistics w)) = false).
Proof.
  cbv zeta. unfold Orchestrator.validateSignal. cbv zeta.
  repeat match goal with
         | |- context [if ?c then (Orchestrator.Rejected _ _, _) else _] =>
             destruct c eqn:?; [by repeat split|]
         end.
  assert (PositionService.hasOpenPosition (Telegram.symbol signal)
            (Orchestrator.positions w) = false
          /\ Settings.reached (Settings.maxOpenPositions config)
               (Z.of_nat (PositionService.getOpenPositionsCount
                            (Orchestrator.positions w))) = false
          /\ Settings.reached (Settings.maxDailyTrades config)
               (Orchestrator.dailyTrades (Orchestrator.statistics w))
             = false) as Hgates.
  { by repeat split. }
  destruct (Orchestrator.getUSDTBalance venue) as [m | balance];
    [by repeat split|].
  cbn [Orchestrator.set_currentBalance Orchestrator.request
       Orchestrator.statistics Orchestrator.positions Orchestrator.calls].
  destruct (js_le balance (Num 0)); [by repeat split|].
  destruct (Orchestrator.getSymbolInfo venue (Telegram.symbol signal))
    as [m | symbolInfo]; [by repeat split|].
  destruct (negb (str_eqb (Risk.status symbolInfo) (js "Open")));
    (do 5 (split; [done|])); [done | intros _; by repeat split].
Qed.

(** What [closePosition] can do to the ledger and the counters. *)
Lemma closePosition_keeps (dryRun : bool) (symbol : JsString) (d : Desk) :
  let r := closePosition config dryRun exchange symbol d in
  statistics (snd r) = statistics d
  /\ (PositionService.openPositions (positions (snd r))
      = PositionService.openPositions (positions d)
      \/ PositionService.openPositions (positions (snd r))
         = delete symbol (PositionService.openPositions (positions d)))
  /\ (dryRun = true ->
      orders (snd r) = orders d /\ notices (snd r) = notices d
      /\ fst r = inr tt)
  /\ (length (orders (snd r)) <= S (length (orders d)))%nat.
Proof.
  cbv zeta. unfold closePosition, PositionService.getOpenPosition.
  rewrite lookup_open.
  destruct (PositionService.openPositions (positions d) !! symbol)
    as [tracked|] eqn:E.
  - rewrite bool_decide_eq_true_2 by (by eexists). cbn [negb].
    destruct dryRun.
    + cbn [fst snd]. unfold positions in E.
      unfold positions, statistics, on_positions, with_world,
        PositionService.exec.
      cbn [world orders notices Orchestrator.positions
           Orchestrator.statistics].
      rewrite run_removeOpenPosition, E. cbn.
      split; [done|]. split; [by right|]. split; [done|]. lia.
    + unfold closeMarketOrder, post.
      destruct (postOrder exchange _); cbn;
        (split; [done|]; split; [by left|]; split; [done|];
         rewrite length_app; cbn; lia).
  - rewrite bool_decide_eq_false_2 by (by intros [? ?]). cbn.
    destruct dryRun;
      (split; [done|]; split; [by left|]; split; [done|]; lia).
Qed.

Lemma report_world (dryRun : bool) signal r :
  world (report dryRun signal r) = world (snd r)
  /\ orders (report dryRun signal r) = orders (snd r)
  /\ (dryRun = true -> notices (report dryRun signal r) = notices (snd r)).
Proof.
  destruct r as [[e | []] d]; [|done]. cbn. by destruct dryRun.
Qed.

Lemma size_after_add now' pd (s : PositionService.Service) :
  (PositionService.getOpenPositionsCount
     (PositionService.exec (PositionService.addOpenPosition now' pd) s)
   <= S (PositionService.getOpenPositionsCount s))%nat.
Proof.
  rewrite exec_addOpenPosition. unfold PositionService.getOpenPositionsCount.
  cbn [PositionService.openPositions].
  destruct (PositionService.openPositions s !! PositionService.symbol pd)
    eqn:E.
  - rewrite map_size_insert_Some by (by eexists). lia.
  - by rewrite map_size_insert_None.
Qed.

Lemma within_le (l : Settings.limit) (n n' : Z) :
  within l n -> (n' <= n)%Z -> within l n'.
Proof. destruct l; cbn; [done | lia]. Qed.

Lemma within_next (l : Settings.limit) (n n' : Z) :
  Settings.reached l n = false -> (n' <= n + 1)%Z -> within l n'.
Proof. destruct l; cbn; [done|]. intros Hr%Z.leb_gt. lia. Qed.

(** When nothing else runs between its [await]s, handling a signal never
    takes the desk over the configured limits: if the number of open
    positions is within [maxOpenPositions] and the trades of the day are
    within [maxDailyTrades] before, they are so afterwards, whatever the
    signal is and whatever the venue answers. *)
Lemma limits_kept_uninterrupted (dryRun : bool)
    (signal : TelegramExit.ParsedSignal) (d : Desk) :
  within_limits config d ->
  within_limits config
    (handleSignal config dryRun now toString reason_includes exchange time
       venue signal d).
Proof.
  intros [Hopen Hday]. unfold within_limits, handleSignal. cbv zeta.
  destruct signal as [entry | exit].
  - pose proof (validateSignal_keeps entry (world (count_signal d)))
      as (Hpos & _ & Hdaily & _ & _ & Hacc). cbv zeta in *.
    unfold positions, statistics in Hopen, Hday.
    change (Orchestrator.positions (world (count_signal d)))
      with (Orchestrator.positions (world d)) in Hpos, Hacc.
    change (Orchestrator.dailyTrades
              (Orchestrator.statistics (world (count_signal d))))
      with (Orchestrator.dailyTrades (Orchestrator.statistics (world d)))
      in Hdaily, Hacc.
    destruct (Orchestrator.validateSignal config time venue entry
                (world (count_signal d))) as [[|reason info] w].
    + destruct (Hacc eq_refl) as (_ & Hlt1 & Hlt2). cbn [fst snd] in *.
      set (d1 := with_world (fun _ => w) (count_signal d)).
      destruct (report_world dryRun (TelegramExit.Entry entry)
                  (openPosition config dryRun now toString exchange entry d1))
        as (Hw & _).
      unfold positions, statistics. rewrite Hw.
      fold (positions (snd (openPosition config dryRun now toString exchange
                              entry d1))).
      fold (statistics (snd (openPosition config dryRun now toString exchange
                               entry d1))).
      destruct (openPosition_spec dryRun entry d1)
        as [(e & _ & _ & -> & _ & -> & _)
           | (? & ? & ? & plan & orderId & _ & _ & _ & _ & _ & _ & -> & _ & ->
              & _)].
      * unfold d1, positions, statistics. cbn. rewrite Hpos, Hdaily.
        split; [exact Hopen | exact Hday].
      * pose proof (size_after_add now (positionData entry plan orderId)
                      (positions d1)) as Hsize.
        unfold d1, positions, statistics in Hsize |- *. cbn in Hsize |- *.
        rewrite Hpos in Hsize |- *. rewrite Hdaily.
        split; [eapply within_next; [exact Hlt1 | lia]
               | eapply within_next; [exact Hlt2 | lia]].
    + cbn [fst snd] in *.
      assert (forall d', world d' = w \/ world d' = world (count_ignored
                (with_world (fun _ => w) (count_signal d))) ->
              within (Settings.maxOpenPositions config)
                (Z.of_nat (PositionService.getOpenPositionsCount
                             (positions d')))
              /\ within (Settings.maxDailyTrades config)
                   (Orchestrator.dailyTrades (statistics d'))) as Hany.
      { intros d' [Hd' | Hd']; unfold positions, statistics; rewrite Hd';
          cbn; rewrite ?Hpos, ?Hdaily; split; assumption. }
      apply Hany.
      destruct dryRun, (reason_includes (js "trading hours") reason);
        cbn; auto.
  - destruct (report_world dryRun (TelegramExit.Exit exit)
                (closePosition config dryRun exchange
                   (TelegramExit.exit_symbol exit) (count_signal d)))
      as (Hw & _).
    unfold positions, statistics. rewrite Hw.
    fold (positions (snd (closePosition config dryRun exchange
                            (TelegramExit.exit_symbol exit)
                            (count_signal d)))).
    fold (statistics (snd (closePosition config dryRun exchange
                             (TelegramExit.exit_symbol exit)
                             (count_signal d)))).
    destruct (closePosition_keeps dryRun (TelegramExit.exit_symbol exit)
                (count_signal d)) as (-> & Hmap & _).
    split; [|exact Hday].
    unfold PositionService.getOpenPositionsCount.
    destruct Hmap as [-> | ->]; [exact Hopen|].
    pose proof (map_size_delete (TelegramExit.exit_symbol exit)
                  (PositionService.openPositions (positions (count_signal d))))
      as Hdel.
    change (positions (count_signal d)) with (positions d) in *.
    unfold PositionService.getOpenPositionsCount in Hopen.
    eapply within_le; [exact Hopen|].
    rewrite Hdel. destruct (_ !! _); unfold id; lia.
Qed.

(** [openPosition] and [closePosition] leave the count of signals, the
    count of ignored signals and the closed history alone. *)
Lemma openPosition_rest (dryRun : bool) (signal : Telegram.Signal)
    (d : Desk) :
  let r := openPosition config dryRun now toString exchange signal d in
  Orchestrator.totalSignals (statistics (snd r))
  = Orchestrator.totalSignals (statistics d)
  /\ Orchestrator.signalsIgnored (statistics (snd r))
     = Orchestrator.signalsIgnored (statistics d)
  /\ PositionService.closedPositions (positions (snd r))
     = PositionService.closedPositions (positions d)
  /\ (length (orders (snd r)) <= S (length (orders d)))%nat.
Proof.
  cbv zeta. unfold openPosition.
  destruct (getUSDTBalance exchange) as [m | balance];
    [repeat split; cbn; lia|].
  destruct (getCurrentPrice exchange _) as [m | price];
    [repeat split; cbn; lia|].
  destruct (getSymbolInfo exchange _) as [m | info];
    [repeat split; cbn; lia|].
  destruct (Risk.calculatePositionParameters _ _ _ _ _) as [e | plan];
    [repeat split; cbn; lia|].
  destruct (negb _); [repeat split; cbn; lia|].
  destruct dryRun; [repeat split; cbn; lia|].
  unfold openMarketOrder, post.
  destruct (postOrder exchange _);
    (repeat split; cbn; rewrite ?length_app; cbn; lia).
Qed.

Lemma closePosition_closed (dryRun : bool) (symbol : JsString) (d : Desk) :
  PositionService.closedPositions
    (positions (snd (closePosition config dryRun exchange symbol d)))
  = PositionService.closedPositions (positions d).
Proof.
  unfold closePosition, PositionService.getOpenPosition.
  rewrite lookup_open.
  destruct (PositionService.openPositions (positions d) !! symbol)
    as [tracked|] eqn:E.
  - rewrite bool_decide_eq_true_2 by (by eexists). cbn [negb].
    destruct dryRun.
    + cbn [fst snd]. unfold positions in E.
      unfold positions, on_positions, with_world, PositionService.exec.
      cbn [world Orchestrator.positions].
      by rewrite run_removeOpenPosition, E.
    + unfold closeMarketOrder, post. by destruct (postOrder exchange _).
  - rewrite bool_decide_eq_false_2 by (by intros [? ?]). by destruct dryRun.
Qed.

(** X25.  In dry-run mode handling a signal never posts an order to the
    venue and never sends a message to the channel, whatever the signal is
    and whatever the venue answers to the queries. *)
Theorem X25_dry_run_is_silent (signal : TelegramExit.ParsedSignal)
    (d : Desk) :
  let d' := handleSignal config true now toString reason_includes exchange
              time venue signal d in
  orders d' = orders d /\ notices d' = notices d.
Proof.
  cbv zeta. unfold handleSignal. cbv zeta.
  destruct signal as [entry | exit].
  - destruct (Orchestrator.validateSignal config time venue entry
                (world (count_signal d))) as [[|reason info] w].
    + set (d1 := with_world (fun _ => w) (count_signal d)).
      destruct (report_world true (TelegramExit.Entry entry)
                  (openPosition config true now toString exchange entry d1))
        as (_ & -> & ->); [|done].
      destruct (openPosition_spec true entry d1)
        as [(e & _ & _ & _ & _ & _ & -> & [-> | [[=] _]])
           | (? & ? & ? & ? & ? & _ & _ & _ & _ & _ & _ & _ & _ & _ & ->
              & _ & ->)]; done.
    + by destruct (reason_includes (js "trading hours") reason).
  - destruct (report_world true (TelegramExit.Exit exit)
                (closePosition config true exchange
                   (TelegramExit.exit_symbol exit) (count_signal d)))
      as (_ & -> & ->); [|done].
    by destruct (closePosition_keeps true (TelegramExit.exit_symbol exit)
                   (count_signal d)) as (_ & _ & (-> & -> & _) & _).
Qed.

(** X26.  Every signal is counted once, posts at most one order, and
    leaves the closed history alone: [handleSignal] never books a closed
    trade, which only the reconciliation does. *)
Theorem X26_one_signal_at_most_one_order (dryRun : bool)
    (signal : TelegramExit.ParsedSignal) (d : Desk) :
  let d' := handleSignal config dryRun now toString reason_includes exchange
              time venue signal d in
  Orchestrator.totalSignals (statistics d')
  = (Orchestrator.totalSignals (statistics d) + 1)%Z
  /\ (length (orders d') <= S (length (orders d)))%nat
  /\ PositionService.closedPositions (positions d')
     = PositionService.closedPositions (positions d).
Proof.
  cbv zeta. unfold handleSignal. cbv zeta.
  destruct signal as [entry | exit].
  - pose proof (validateSignal_keeps entry (world (count_signal d)))
      as (Hpos & _ & _ & Hsig & _ & _). cbv zeta in *.
    destruct (Orchestrator.validateSignal config time venue entry
                (world (count_signal d))) as [[|reason info] w].
    + cbn [fst snd] in *.
      set (d1 := with_world (fun _ => w) (count_signal d)).
      destruct (report_world dryRun (TelegramExit.Entry entry)
                  (openPosition config dryRun now toString exchange entry d1))
        as (Hw & -> & _).
      unfold positions, statistics. rewrite Hw.
      fold (positions (snd (openPosition config dryRun now toString exchange
                              entry d1))).
      fold (statistics (snd (openPosition config dryRun now toString exchange
                               entry d1))).
      destruct (openPosition_rest dryRun entry d1) as (-> & _ & -> & Hlen).
      unfold d1, positions, statistics in Hlen |- *. cbn in Hlen |- *.
      by rewrite Hpos, Hsig.
    + cbn [fst snd] in *.
      destruct dryRun, (reason_includes (js "trading hours") reason);
        unfold positions, statistics; cbn; rewrite ?Hpos, ?Hsig,
          ?length_app; cbn; (split; [done|]; split; [lia | done]).
  - destruct (report_world dryRun (TelegramExit.Exit exit)
                (closePosition config dryRun exchange
                   (TelegramExit.exit_symbol exit) (count_signal d)))
      as (Hw & -> & _).
    unfold positions at 1, statistics at 1. rewrite Hw.
    fold (positions (snd (closePosition config dryRun exchange
                            (TelegramExit.exit_symbol exit)
                            (count_signal d)))).
    fold (statistics (snd (closePosition config dryRun exchange
                             (TelegramExit.exit_symbol exit)
                             (count_signal d)))).
    rewrite closePosition_closed.
    destruct (closePosition_keeps dryRun (TelegramExit.exit_symbol exit)
                (count_signal d)) as (-> & _ & _ & Hlen).
    done.
Qed.

(** X27.  A signal that the validation rejects opens nothing: the ledger,
    the orders and the trade counters are as before.  In live mode one
    message with the reason goes to the channel, in dry-run none; the count
    of ignored signals advances exactly when the text of the reason contains
    the words trading hours. *)
Theorem X27_rejected_signal_opens_nothing (dryRun : bool)
    (entry : Telegram.Signal) (d : Desk) (reason : Orchestrator.Reason)
    (info : Orchestrator.Info) :
  fst (Orchestrator.validateSignal config time venue entry
         (world (count_signal d)))
  = Orchestrator.Rejected reason info ->
  let d' := handleSignal config dryRun now toString reason_includes exchange
              time venue (TelegramExit.Entry entry) d in
  positions d' = positions d
  /\ orders d' = orders d
  /\ Orchestrator.totalTrades (statistics d')
     = Orchestrator.totalTrades (statistics d)
  /\ Orchestrator.dailyTrades (statistics d')
     = Orchestrator.dailyTrades (statistics d)
  /\ notices d'
     = notices d ++
       (if dryRun then []
        else [SignalIgnored (Telegram.symbol entry)
                (Telegram.direction entry) reason info])
  /\ Orchestrator.signalsIgnored (statistics d')
     = (Orchestrator.signalsIgnored (statistics d)
        + if reason_includes (js "trading hours") reason then 1 else 0)%Z.
Proof.
  intros Hrej. cbv zeta. unfold handleSignal. cbv zeta.
  pose proof (validateSignal_keeps entry (world (count_signal d)))
    as (Hpos & Htot & Hdaily & _ & Hign & _). cbv zeta in *.
  destruct (Orchestrator.validateSignal config time venue entry
              (world (count_signal d))) as [[|reason' info'] w];
    [discriminate|].
  cbn [fst snd] in *. injection Hrej as -> ->.
  destruct dryRun, (reason_includes (js "trading hours") reason);
    unfold positions, statistics; cbn;
    rewrite ?Hpos, ?Htot, ?Hdaily, ?Hign, ?app_nil_r;
    (repeat split; try done; cbn; lia).
Qed.

End BotExtras.

Lemma X22_failed_open_changes_nothing_witness :
  Bot.positions
    (snd (Bot.openPosition Examples.config0 false 5 BotFacts.toString0
            BotFacts.exchange_down BotFacts.signal_bless BotFacts.desk0))
  = Bot.positions BotFacts.desk0.
Proof.
  apply (X22_failed_open_changes_nothing Examples.config0 5
           BotFacts.toString0 BotFacts.exchange_down false
           BotFacts.signal_bless BotFacts.desk0
           (Bot.VenueError (js "Service unavailable"))).
  vm_compute. reflexivity.
Defined.

(** A LEVERAGE that holds no numeral passes the start-up checks; the plan
    of every signal then has a margin of NaN, and [openPosition] throws the
    insufficient-balance error of its own check. *)
Lemma nan_leverage_fails_the_margin_check :
  Settings.validated Examples.config_nan_leverage = true
  /\ fst (Bot.openPosition Examples.config_nan_leverage false 5
            BotFacts.toString0 BotFacts.exchange0 BotFacts.signal_bless
            BotFacts.desk0)
     = inl (Bot.MarginError Float64.nan (Num 1000)).
Proof. split; vm_compute; reflexivity. Qed.


Lemma X27_rejected_signal_opens_nothing_witness :
  let d' := @Bot.handleSignal HelperLaws.usual
              OrchestratorExamples.config_spread false 5 BotFacts.toString0
              BotFacts.reason_includes0 BotFacts.exchange0 BotFacts.day
              OrchestratorExamples.venue0
              (TelegramExit.Entry BotFacts.signal_bless) BotFacts.desk0 in
  Bot.positions d' = Bot.positions BotFacts.desk0
  /\ Bot.orders d' = Bot.orders BotFacts.desk0.
Proof.
  assert (fst (@Orchestrator.validateSignal HelperLaws.usual
                 OrchestratorExamples.config_spread BotFacts.day
                 OrchestratorExamples.venue0 BotFacts.signal_bless
                 (Bot.world (Bot.count_signal BotFacts.desk0)))
          = Orchestrator.Rejected
              (Orchestrator.SymbolBlocked (js "BLESSUSDTM"))
              Orchestrator.NoInfo) as Hrej by (vm_compute; reflexivity).
  destruct (@X27_rejected_signal_opens_nothing HelperLaws.usual
              OrchestratorExamples.config_spread 5 BotFacts.toString0
              BotFacts.reason_includes0 BotFacts.exchange0 BotFacts.day
              OrchestratorExamples.venue0 false BotFacts.signal_bless
              BotFacts.desk0 _ _ Hrej) as (Hpos & Hord & _).
  by split.
Defined.

(* ===================================================================== *)
(** ** index.js: handlers that take turns *)
(* ===================================================================== *)

Section Interleaving.

Import Bot Concurrent.

Lemma settle_await {A B} (p : Promise A) :
  forall (k : Failure + A -> Async B) (d : Desk),
    settle (await p k) d = let '(r, d') := settle p d in run (k r) d'.
Proof.
  revert p. fix IH 1. intros [r | resume] k d; cbn.
  - reflexivity.
  - destruct (resume d) as [d' p']. apply IH.
Qed.

Lemma run_call {A B} (f : Async A) (k : Failure + A -> Async B) (d : Desk) :
  run (call f k) d = let '(r, d') := run f d in run (k r) d'.
Proof.
  unfold run, call. destruct (f d) as [d' p]. apply settle_await.
Qed.

Context `{Helpers}.
Variable config : Settings.Config.
Variable dryRun : bool.
Variable now : Z.
Variable toString : Z -> JsString.
Variable reason_includes : JsString -> Orchestrator.Reason -> bool.
Variable exchange : Exchange.
Variable time : Orchestrator.TimeService.
Variable venue : Orchestrator.Venue.

(** Run without interruption, the functions with their [await]s are the
    functions of [Bot] and of [Orchestrator]. *)
Lemma uninterrupted_validateSignal (signal : Telegram.Signal) (d : Desk) :
  run (validateSignal config time venue signal) d
  = let '(validation, w) :=
      Orchestrator.validateSignal config time venue signal (world d) in
    (inr validation, with_world (fun _ => w) d).
Proof.
  destruct d as [w o n].
  unfold run, validateSignal, Orchestrator.validateSignal, returns, reply,
    positions, statistics, with_world.
  cbn [world orders notices].
  repeat match goal with
         | |- context [if ?c then _ else _] =>
             destruct c; [reflexivity|]
         end.
  cbn [settle].
  destruct (Orchestrator.getUSDTBalance venue) as [m | balance];
    [reflexivity|].
  cbn [world orders notices].
  destruct (js_le balance (Num 0)); [reflexivity|].
  cbn [settle world orders notices].
  destruct (Orchestrator.getSymbolInfo venue (Telegram.symbol signal))
    as [m | symbolInfo]; [reflexivity|].
  by destruct (negb _).
Qed.

Lemma uninterrupted_openPosition (signal : Telegram.Signal) (d : Desk) :
  run (openPosition config dryRun now toString exchange signal) d
  = Bot.openPosition config dryRun now toString exchange signal d.
Proof.
  unfold run, openPosition, Bot.openPosition, returns, throws, reply.
  cbn [settle].
  destruct (getUSDTBalance exchange) as [m | balance]; [reflexivity|].
  cbn [settle].
  destruct (getCurrentPrice exchange (Telegram.symbol signal))
    as [m | currentPrice]; [reflexivity|].
  cbn [settle].
  destruct (getSymbolInfo exchange (Telegram.symbol signal))
    as [m | symbolInfo]; [reflexivity|].
  destruct (Risk.calculatePositionParameters _ _ _ _ _)
    as [e | positionParams]; [reflexivity|].
  destruct (negb _); [reflexivity|].
  destruct dryRun; [reflexivity|].
  cbn [settle]. unfold openMarketOrder, post.
  by destruct (postOrder exchange _).
Qed.

Lemma uninterrupted_closePosition (symbol : JsString) (d : Desk) :
  run (closePosition config dryRun exchange symbol) d
  = Bot.closePosition config dryRun exchange symbol d.
Proof.
  unfold run, closePosition, Bot.closePosition, returns, throws, reply.
  destruct (negb _); [reflexivity|].
  destruct (PositionService.getOpenPosition symbol (positions d))
    as [trackedPosition|]; [|by destruct dryRun].
  destruct dryRun; [reflexivity|].
  cbn [settle]. unfold closeMarketOrder, post.
  by destruct (postOrder exchange _).
Qed.

Lemma uninterrupted_handleSignal (signal : TelegramExit.ParsedSignal)
    (d : Desk) :
  run (handleSignal config dryRun now toString reason_includes exchange time
         venue signal) d
  = (inr tt,
     Bot.handleSignal config dryRun now toString reason_includes exchange
       time venue signal d).
Proof.
  unfold handleSignal, Bot.handleSignal, run at 1. cbv beta zeta.
  destruct signal as [entry | exit];
    match goal with
    | |- (let 'Then d' p := call ?f ?k ?d0 in settle p d') = ?rhs =>
        change (run (call f k) d0 = rhs)
    end.
  - rewrite run_call, uninterrupted_validateSignal.
    destruct (Orchestrator.validateSignal config time venue entry
                (world (count_signal d))) as [[|reason info] w].
    + rewrite run_call, uninterrupted_openPosition.
      destruct (Bot.openPosition config dryRun now toString exchange entry
                  (with_world (fun _ => w) (count_signal d)))
        as [[error | []] d'].
      * unfold run, report, returns, reply. by destruct dryRun.
      * reflexivity.
    + unfold run, returns, reply. by destruct dryRun.
  - rewrite run_call, uninterrupted_closePosition.
    destruct (Bot.closePosition config dryRun exchange
                (TelegramExit.exit_symbol exit) (count_signal d))
      as [[error | []] d'].
    + unfold run, report, returns, reply. by destruct dryRun.
    + reflexivity.
Qed.

End Interleaving.

(** X24.  Handled one at a time, a signal never takes the bot over its
    limits: when nothing runs between the [await]s of [handleSignal], the
    number of open positions stays within [maxOpenPositions] and the trades
    of the day within [maxDailyTrades], whatever the signal is and whatever
    the venue answers.  But two calls of [handleSignal] are not kept apart:
    with limits of one position and one trade a day and nothing open, two
    OPEN signals whose handlers both start before the venue has answered
    the first pass the gates on the same empty ledger, and the bot ends the
    day with two open positions and two trades; handled one after the
    other, the second signal is turned down.  (The property is about
    [handleSignal] on the signals it is given; as the parser stands, no
    ENTRY alert of the channel reaches it, see X19.) *)
Theorem X24_limits_hold_one_at_a_time_only :
  (forall (helpers : Helpers) (config : Settings.Config) (dryRun : bool)
          (now : Z) (toString : Z -> JsString)
          (reason_includes : JsString -> Orchestrator.Reason -> bool)
          (exchange : Bot.Exchange) (time : Orchestrator.TimeService)
          (venue : Orchestrator.Venue)
          (signal : TelegramExit.ParsedSignal) (d : Bot.Desk),
      Bot.within_limits config d ->
      Bot.within_limits config
        (snd (Concurrent.run
                (Concurrent.handleSignal config dryRun now toString
                   reason_includes exchange time venue signal) d)))
  /\ Bot.within_limits ConcurrentExamples.config_one
       ConcurrentExamples.desk_morning
  /\ (let st := Concurrent.schedule ConcurrentExamples.handler
                  ConcurrentExamples.two_posts
                  (ConcurrentExamples.desk_morning, []) in
      Concurrent.all_settled st = true
      /\ PositionService.getOpenPositionsCount (Bot.positions (fst st)) = 2
      /\ Orchestrator.dailyTrades (Bot.statistics (fst st)) = 2%Z
      /\ length (Bot.orders (fst st)) = 2
      /\ ~ Bot.within_limits ConcurrentExamples.config_one (fst st))
  /\ (let st := Concurrent.schedule ConcurrentExamples.handler
                  ConcurrentExamples.one_by_one
                  (ConcurrentExamples.desk_morning, []) in
      Concurrent.all_settled st = true
      /\ PositionService.getOpenPositionsCount (Bot.positions (fst st)) = 1
      /\ Orchestrator.dailyTrades (Bot.statistics (fst st)) = 1%Z
      /\ length (Bot.orders (fst st)) = 1
      /\ Bot.within_limits ConcurrentExamples.config_one (fst st)).
Proof.
  split; [|split; [|split]].
  - intros helpers config dryRun now toString reason_includes exchange time
      venue signal d Hd.
    rewrite uninterrupted_handleSignal. cbn [snd].
    by apply limits_kept_uninterrupted.
  - split; vm_compute; discriminate.
  - cbv zeta.
    assert (PositionService.getOpenPositionsCount
              (Bot.positions
                 (fst (Concurrent.schedule ConcurrentExamples.handler
                         ConcurrentExamples.two_posts
                         (ConcurrentExamples.desk_morning, [])))) = 2)
      as Hcount by (vm_compute; reflexivity).
    split; [vm_compute; reflexivity|]. split; [exact Hcount|].
    split; [vm_compute; reflexivity|]. split; [vm_compute; reflexivity|].
    intros [Hopen _]. rewrite Hcount in Hopen. vm_compute in Hopen.
    by apply Hopen.
  - cbv zeta.
    split; [vm_compute; reflexivity|]. split; [vm_compute; reflexivity|].
    split; [vm_compute; reflexivity|]. split; [vm_compute; reflexivity|].
    split; vm_compute; discriminate.
Qed.

(** The evening desk, on which the signal for BLESSUSDTM is accepted. *)
Lemma X24_limits_hold_one_at_a_time_only_witness :
  Bot.within_limits Examples.config0
    (snd (Concurrent.run
            (@Concurrent.handleSignal HelperLaws.usual Examples.config0
               false 5%Z BotFacts.toString0 BotFacts.reason_includes0
               BotFacts.exchange0 BotFacts.day OrchestratorExamples.venue0
               (TelegramExit.Entry BotFacts.signal_bless))
            BotFacts.desk0)).
Proof.
  apply (proj1 X24_limits_hold_one_at_a_time_only HelperLaws.usual
           Examples.config0 false 5%Z BotFacts.toString0
           BotFacts.reason_includes0 BotFacts.exchange0 BotFacts.day
           OrchestratorExamples.venue0
           (TelegramExit.Entry BotFacts.signal_bless) BotFacts.desk0).
  split; vm_compute; discriminate.
Defined.

(* ===================================================================== *)
(** ** kucoin.service.js: positions, fills and contracts of the venue *)
(* ===================================================================== *)

Section KucoinExtras.

Import Kucoin.

Lemma not_zero_qty (v : value) :
  not_zero (parseFloat_or v 0) = true ->
  exists c, v = Num c /\ ~ (c == 0)%Q /\ parseFloat_or v 0 = Num c.
Proof.
  unfold parseFloat_or, not_zero, or_default.
  destruct v as [| | |c]; try (by intros [=]).
  destruct (Qeq_bool c 0) eqn:E; [by intros [=]|].
  intros _. exists c. split; [done|]. split; [|done].
  intros Hc. apply Qeq_bool_iff in Hc. congruence.
Qed.

Lemma Qabs_not_zero c : ~ (c == 0)%Q -> Qeq_bool (Qabs c) 0 = false.
Proof.
  intros Hc. destruct (Qeq_bool (Qabs c) 0) eqn:E; [|done].
  apply Qeq_bool_iff in E. exfalso. apply Hc. revert E.
  apply Qabs_case; intros; lra.
Qed.

(** What [getOpenPositions] lists: the raw entries with a non-zero
    quantity, of the asked symbol. *)
Lemma listed_position raw sym pos :
  In pos (getOpenPositions raw (Some sym)) ->
  exists r c, In r raw /\ symbol pos = raw_symbol r
    /\ (sym <> [] -> raw_symbol r = sym)
    /\ currentQty r = Num c /\ ~ (c == 0)%Q
    /\ size pos = Num (Qabs c)
    /\ side pos = if Qltb 0 c then js "Buy" else js "Sell".
Proof.
  unfold getOpenPositions. cbv zeta.
  intros (r & <- & Hr)%in_map_iff.
  assert (In r raw /\ not_zero (parseFloat_or (currentQty r) 0) = true
          /\ (sym <> [] -> raw_symbol r = sym)) as (Hin & Hnz & Hsym).
  { destruct sym as [|x sym]; cbn [given] in Hr.
    - apply filter_In in Hr as [? ?]. by repeat split.
    - apply filter_In in Hr as [Hr Hs]. apply filter_In in Hr as [? ?].
      repeat split; [done | done |]. intros _.
      by apply bool_decide_eq_true in Hs. }
  destruct (not_zero_qty _ Hnz) as (c & Hc & Hc0 & Hpf).
  exists r, c. cbn [symbol size side]. rewrite Hpf, Hc.
  by repeat split.
Qed.

(** X28.  [getOpenPositions] never returns a position of size zero: every
    position it lists for a symbol comes from an entry of the venue for
    that symbol with a non-zero quantity, has the absolute quantity as size
    and the side Buy exactly for a positive quantity.  So the reconciliation
    takes a tracked symbol for closed exactly when the list is empty, which
    is when [hasOpenPosition] of the venue service is false; its test on
    the size never decides. *)
Theorem X28_listed_positions_have_a_size (raw : list RawPosition)
    (sym : JsString) :
  sym <> [] ->
  let listed := getOpenPositions raw (Some sym) in
  Forall (fun pos =>
            symbol pos = sym
            /\ exists r c, In r raw /\ raw_symbol r = sym
                 /\ currentQty r = Num c /\ ~ (c == 0)%Q
                 /\ size pos = Num (Qabs c)
                 /\ side pos = if Qltb 0 c then js "Buy" else js "Sell")
         listed
  /\ PositionService.venue_closed sym (List.map as_read listed)
     = negb (hasOpenPosition raw sym)
  /\ (hasOpenPosition raw sym = false <-> listed = []).
Proof.
  intros Hsym listed.
  assert (Forall (fun pos =>
            symbol pos = sym
            /\ exists r c, In r raw /\ raw_symbol r = sym
                 /\ currentQty r = Num c /\ ~ (c == 0)%Q
                 /\ size pos = Num (Qabs c)
                 /\ side pos = if Qltb 0 c then js "Buy" else js "Sell")
            listed) as Hall.
  { apply List.Forall_forall. intros pos Hpos.
    destruct (listed_position _ _ _ Hpos)
      as (r & c & Hin & Hs & Hr & Hc & Hc0 & Hsize & Hside).
    split; [by rewrite Hs, (Hr Hsym)|].
    exists r, c. by repeat split; [|apply Hr|..]. }
  split; [exact Hall|].
  unfold hasOpenPosition. fold listed.
  destruct listed as [|pos rest]; [by split|].
  apply Forall_cons in Hall as [(Hs & r & c & _ & _ & _ & Hc0 & Hsize & _) _].
  split; [|by split].
  unfold PositionService.venue_closed.
  cbn [List.map List.find as_read PositionService.ex_symbol].
  unfold str_eqb. rewrite bool_decide_eq_true_2 by done.
  unfold as_read. cbn [PositionService.size_]. rewrite Hsize.
  cbn [PositionService.parseFloat_field length Nat.eqb negb].
  by apply Qabs_not_zero.
Qed.

Lemma X28_listed_positions_have_a_size_witness :
  PositionService.venue_closed (js "BLESSUSDTM")
    (List.map as_read
       (getOpenPositions [raw_take; raw_flat; raw_short]
          (Some (js "BLESSUSDTM"))))
  = negb (hasOpenPosition [raw_take; raw_flat; raw_short] (js "BLESSUSDTM")).
Proof.
  apply (X28_listed_positions_have_a_size [raw_take; raw_flat; raw_short]
           (js "BLESSUSDTM")).
  discriminate.
Defined.

Lemma find_filter {A} (p q : A -> bool) (l : list A) :
  (forall x, p x = true -> q x = true) ->
  List.find p (List.filter q l) = List.find p l.
Proof.
  intros Hpq. induction l as [|x l IH]; [done|]. cbn [List.filter List.find].
  destruct (q x) eqn:Hq.
  - cbn [List.find]. by rewrite IH.
  - destruct (p x) eqn:Hp; [|done]. rewrite (Hpq x Hp) in Hq. discriminate.
Qed.

Section WithHelpers.

Context `{Helpers}.

(** X29.  Asking the venue for the fills of one symbol changes nothing for
    the reconciliation: [handlePositionClosed] finds the same closing fill,
    the first one of the symbol on the closing side in the order of the
    venue, and leaves the same ledger, in the filtered list of
    [getTradeHistory(symbol)] as in the whole list. *)
Theorem X29_symbol_filter_keeps_the_closing_fill (now : Z)
    (orders : list PositionService.Fill) (sym : JsString)
    (tracked : PositionService.Position) (s : PositionService.Service) :
  List.find (PositionService.is_close_trade sym tracked)
    (getTradeHistory orders (Some sym))
  = List.find (PositionService.is_close_trade sym tracked) orders
  /\ PositionService.handlePositionClosed now
       (inr (getTradeHistory orders (Some sym))) sym tracked s
     = PositionService.handlePositionClosed now (inr orders) sym tracked s.
Proof.
  assert (List.find (PositionService.is_close_trade sym tracked)
            (getTradeHistory orders (Some sym))
          = List.find (PositionService.is_close_trade sym tracked) orders)
    as Hfind.
  { unfold getTradeHistory. destruct sym as [|x sym]; [done|]. cbn [given].
    apply find_filter. intros t Ht.
    unfold PositionService.is_close_trade in Ht.
    by apply andb_true_iff in Ht as [Ht _]. }
  split; [exact Hfind|].
  unfold PositionService.handlePositionClosed. cbv zeta. by rewrite Hfind.
Qed.

End WithHelpers.

(** X30.  The contract information that [getSymbolInfo] returns always
    carries order bounds that are numbers other than zero: a minimum or
    maximum that the venue leaves out, or gives as zero, is replaced here by
    1 and 1000000.  So the defaults that the sizing applies to the two
    bounds never replace a value on this path.  The contract is the first of
    the venue's list with the asked symbol. *)
Theorem X30_contract_bounds_are_set (contracts : list Contract)
    (sym : JsString) (info : Risk.SymbolInfo) :
  getSymbolInfo contracts sym = inr info ->
  exists contract lo hi,
    List.find (fun c => str_eqb (contract_symbol c) sym) contracts
    = Some contract
    /\ contract_symbol contract = sym
    /\ Risk.status info = contract_status contract
    /\ Risk.minOrderQty info = Float64.Number lo
    /\ Float64.truthy lo = true
    /\ Risk.maxOrderQty info = Float64.Number hi
    /\ Float64.truthy hi = true
    /\ Float64.or_else (Risk.minOrderQty info) (Float64.of_Z 1) = lo
    /\ Float64.or_else (Risk.maxOrderQty info) (Float64.of_Z 1000000) = hi
    /\ lo = Float64.or_else
              (Float64.of_value (contract_minOrderQty contract))
              (Float64.of_Z 1)
    /\ hi = Float64.or_else
              (Float64.of_value (contract_maxOrderQty contract))
              (Float64.of_Z 1000000).
Proof.
  unfold getSymbolInfo.
  destruct (List.find _ contracts) as [contract|] eqn:E; [|discriminate].
  intros [= <-].
  apply find_some in E as [_ Hs]. apply bool_decide_eq_true in Hs.
  set (lo := Float64.or_else
               (Float64.of_value (contract_minOrderQty contract))
               (Float64.of_Z 1)).
  set (hi := Float64.or_else
               (Float64.of_value (contract_maxOrderQty contract))
               (Float64.of_Z 1000000)).
  assert (Float64.truthy lo = true) as Hlo
    by (by apply or_else_truthy).
  assert (Float64.truthy hi = true) as Hhi
    by (by apply or_else_truthy).
  exists contract, lo, hi.
  cbn [Risk.status Risk.minOrderQty Risk.maxOrderQty].
  rewrite !or_else_number by done. by repeat split.
Qed.

Lemma X30_contract_bounds_are_set_witness :
  exists info,
    getSymbolInfo [contract_take] (js "TAKEUSDTM") = inr info
    /\ Float64.or_else (Risk.minOrderQty info) (Float64.of_Z 1)
       = Float64.of_Z 1
    /\ Float64.or_else (Risk.maxOrderQty info) (Float64.of_Z 1000000)
       = Float64.of_Z 1000000.
Proof.
  destruct (getSymbolInfo [contract_take] (js "TAKEUSDTM"))
    as [e | info] eqn:E; [vm_compute in E; discriminate|].
  exists info. split; [reflexivity|].
  destruct (X30_contract_bounds_are_set [contract_take] (js "TAKEUSDTM")
              info E)
    as (contract & lo & hi & Hfind & _ & _ & _ & _ & _ & _ & Hlo & Hhi
        & -> & ->).
  vm_compute in Hfind. injection Hfind as <-.
  by rewrite Hlo, Hhi.
Defined.

End KucoinExtras.
